(** * trade-lab: gamma-exposure metrics, verified against their specification

    A shallow embedding of the numeric core of [trade_lab]:

    - [utils/black_scholes.py]                  (module [BlackScholes])
    - [charts/GEX.py]                           (module [GEX])
    - [charts/NetGEX.py]                        (module [NetGEX])
    - [charts/DirectionalGammaImbalance.py]     (module [DGI])

    The Python code is written against pandas and NumPy.  The fragments of
    those libraries that the code calls are modelled first ([Float],
    [Pandas], [Numpy]); every repository function is then transcribed
    statement by statement on top of them, exceptions included.

    Numbers.  Most statements say which quantities the code computes; for
    them a float64 is idealised as an exact rational, plus the one special
    value the code paths create and test, NaN ([Float]).  Statements that
    depend on rounding, on overflow or on an infinity are made on IEEE 754
    binary64 itself ([Binary64], and on it [Frame64], [DGI64],
    [BlackScholes64]).  The Black-Scholes primitive needs [ln], [exp] and
    [sqrt]: in float64 the C library's [exp] and [log] are parameters, and
    what needs their values is stated over the real numbers, in exact
    arithmetic. *)

From Stdlib Require Import QArith Qabs Qminmax Lqa.
From Stdlib Require Import List String Ascii Bool Arith Lia.
From Stdlib Require Import Sorting.Sorted Sorting.Permutation Sorting.Mergesort Orders.
From Stdlib Require Import Reals Lra.
Import ListNotations.

Ltac lraQ := Lqa.lra.
Ltac lraR := Lra.lra.

Local Open Scope string_scope.
Local Open Scope Q_scope.

(* ================================================================== *)
(** * Floats *)
(* ================================================================== *)

Module Float.

Inductive float : Type :=
| Fin (q : Q)
| NaN.

Definition isnan (a : float) : bool :=
  match a with NaN => true | Fin _ => false end.

Definition lift2 (op : Q -> Q -> Q) (a b : float) : float :=
  match a, b with
  | Fin x, Fin y => Fin (op x y)
  | _, _ => NaN
  end.

Definition add := lift2 Qplus.
Definition sub := lift2 Qminus.
Definition mul := lift2 Qmult.

(** [x / 0] is an infinity or NaN in IEEE arithmetic; the model has no
    infinities and answers NaN.  Every division in the modelled code is
    guarded against a zero divisor. *)
Definition div (a b : float) : float :=
  match a, b with
  | Fin x, Fin y => if Qeq_bool y 0 then NaN else Fin (x / y)
  | _, _ => NaN
  end.

Definition neg (a : float) : float :=
  match a with Fin x => Fin (- x) | NaN => NaN end.

Definition abs (a : float) : float :=
  match a with Fin x => Fin (Qabs x) | NaN => NaN end.

(** [x ** 2] *)
Definition sq (a : float) : float :=
  match a with Fin x => Fin (x ^ 2) | NaN => NaN end.

Definition Qsign (x : Q) : Q :=
  match Qcompare x 0 with
  | Lt => -1
  | Eq => 0
  | Gt => 1
  end.

(** [np.sign] *)
Definition sign (a : float) : float :=
  match a with Fin x => Fin (Qsign x) | NaN => NaN end.

(** Comparisons follow IEEE 754: every ordered comparison and [==] with
    NaN are false, so [NaN != x] is true. *)
Definition Qlt_bool (x y : Q) : bool := negb (Qle_bool y x).

Definition le (a b : float) : bool :=
  match a, b with Fin x, Fin y => Qle_bool x y | _, _ => false end.
Definition lt (a b : float) : bool :=
  match a, b with Fin x, Fin y => Qlt_bool x y | _, _ => false end.
Definition ge (a b : float) : bool := le b a.
Definition gt (a b : float) : bool := lt b a.
Definition eq (a b : float) : bool :=
  match a, b with Fin x, Fin y => Qeq_bool x y | _, _ => false end.
Definition ne (a b : float) : bool := negb (eq a b).

(** [np.maximum] / [np.minimum], NaN-propagating. *)
Definition maximum (a b : float) : float :=
  match a, b with
  | Fin x, Fin y => if Qle_bool x y then Fin y else Fin x
  | _, _ => NaN
  end.
Definition minimum (a b : float) : float :=
  match a, b with
  | Fin x, Fin y => if Qle_bool x y then Fin x else Fin y
  | _, _ => NaN
  end.

(** Sum of a list, left to right from [0]. *)
Definition Qsum (l : list Q) : Q := fold_left Qplus l 0.

(** Equality of results up to the value of the rational. *)
Definition feq (a b : float) : Prop :=
  match a, b with
  | Fin x, Fin y => x == y
  | NaN, NaN => True
  | _, _ => False
  end.

End Float.
Import Float.

Declare Scope float_scope.
Delimit Scope float_scope with flt.
Infix "+" := Float.add : float_scope.
Infix "-" := Float.sub : float_scope.
Infix "*" := Float.mul : float_scope.
Infix "/" := Float.div : float_scope.
Notation "- x" := (Float.neg x) : float_scope.
Infix "<=?" := Float.le : float_scope.
Infix "<?" := Float.lt : float_scope.
Infix ">=?" := Float.ge (at level 70) : float_scope.
Infix ">?" := Float.gt (at level 70) : float_scope.
Infix "==?" := Float.eq (at level 70) : float_scope.
Infix "!=?" := Float.ne (at level 70) : float_scope.

(* ================================================================== *)
(** * Exceptions *)
(* ================================================================== *)

(** A cell of an object column: a float or a Python [str]. *)
Inductive cell : Type :=
| Flt (f : float)
| Str (s : string).

(** Column labels are arbitrary hashable values in pandas; [unstack] makes
    labels out of cell values. *)
Definition label := cell.

Inductive exn : Type :=
| KeyError (k : label)
| IndexError
| TypeError
| ValueError (msg : string).

Inductive result (A : Type) : Type :=
| Ok (a : A)
| Raise (e : exn).
Arguments Ok {A} a.
Arguments Raise {A} e.

Definition bind {A B : Type} (m : result A) (k : A -> result B) : result B :=
  match m with
  | Ok a => k a
  | Raise e => Raise e
  end.

Declare Scope py_scope.
Delimit Scope py_scope with py.
Notation "x <- m ;; k" := (bind m (fun x => k))
  (at level 61, m at next level, right associativity) : py_scope.
Local Open Scope py_scope.

Fixpoint mapM {A B : Type} (f : A -> result B) (l : list A) : result (list B) :=
  match l with
  | [] => Ok []
  | a :: l' =>
      b <- f a ;;
      bs <- mapM f l' ;;
      Ok (b :: bs)
  end.

(* ================================================================== *)
(** * pandas: the fragment the charts use *)
(* ================================================================== *)

Module Pandas.

Definition Series := list cell.

(** Labels compare by value: floats by [==], strings by code points. *)
Definition label_eqb (a b : label) : bool :=
  match a, b with
  | Flt x, Flt y => Float.eq x y
  | Str s, Str t => String.eqb s t
  | _, _ => false
  end.

(** A frame: its column labels, and its rows.  A row answers for every
    label; only the labels listed in [columns] are part of the frame. *)
Record DataFrame : Type := mkDataFrame {
  columns : list label;
  rows : list (label -> cell)
}.

Definition has_column (df : DataFrame) (name : string) : bool :=
  existsb (label_eqb (Str name)) (columns df).

(** [df.empty]: some axis has length 0. *)
Definition empty (df : DataFrame) : bool :=
  match columns df, rows df with
  | [], _ => true
  | _, [] => true
  | _, _ => false
  end.

(** [len(df)] *)
Definition len (df : DataFrame) : nat := List.length (rows df).

(** [df[name]] *)
Definition getcol (df : DataFrame) (name : string) : result Series :=
  if has_column df name
  then Ok (map (fun r => r (Str name)) (rows df))
  else Raise (KeyError (Str name)).

Definition upd (r : label -> cell) (k : label) (v : cell) : label -> cell :=
  fun k' => if label_eqb k k' then v else r k'.

Fixpoint upd_rows (rs : list (label -> cell)) (k : label) (vs : Series)
  : list (label -> cell) :=
  match rs, vs with
  | r :: rs', v :: vs' => upd r k v :: upd_rows rs' k vs'
  | _, _ => rs
  end.

(** [df[name] = values], for [values] of the frame's length. *)
Definition setcol (df : DataFrame) (name : string) (vs : Series) : DataFrame :=
  {| columns := if has_column df name then columns df
                else columns df ++ [Str name];
     rows := upd_rows (rows df) (Str name) vs |}.

Fixpoint select {A : Type} (mask : list bool) (l : list A) : list A :=
  match mask, l with
  | b :: mask', a :: l' => if b then a :: select mask' l' else select mask' l'
  | _, _ => []
  end.

(** [df[mask]] and [df.loc[mask]] for a boolean mask. *)
Definition loc (df : DataFrame) (mask : list bool) : DataFrame :=
  {| columns := columns df; rows := select mask (rows df) |}.

(** [s.iloc[i]] *)
Definition iloc {A : Type} (s : list A) (i : nat) : result A :=
  match nth_error s i with
  | Some a => Ok a
  | None => Raise IndexError
  end.

(** Arithmetic and ordered comparison on an object column raise
    [TypeError] as soon as one value is a [str]. *)
Definition numeric_cell (c : cell) : result float :=
  match c with
  | Flt f => Ok f
  | Str _ => Raise TypeError
  end.

Definition numeric (s : Series) : result (list float) := mapM numeric_cell s.

Definition of_floats (l : list float) : Series := map Flt l.

Fixpoint zip_with {A B C : Type} (f : A -> B -> C) (l : list A) (m : list B)
  : list C :=
  match l, m with
  | a :: l', b :: m' => f a b :: zip_with f l' m'
  | _, _ => []
  end.

(** [s.sum()]: NaN values are skipped, the empty sum is [0]. *)
Fixpoint finite_values (l : list float) : list Q :=
  match l with
  | [] => []
  | Fin q :: l' => q :: finite_values l'
  | NaN :: l' => finite_values l'
  end.

Definition sum (l : list float) : float := Fin (Qsum (finite_values l)).

(** [s.diff()]: the first value has no predecessor and its difference is
    NaN; every other value gives itself minus its predecessor. *)
Definition diff (l : list float) : list float :=
  match l with
  | [] => []
  | _ :: tl => NaN :: zip_with Float.sub tl l
  end.

End Pandas.
Import Pandas.

(* ================================================================== *)
(** * NumPy: [where], [interp], [clip] *)
(* ================================================================== *)

Module Numpy.

(** [np.where(mask)[0]]: the positions that hold [True]. *)
Fixpoint where_from (i : nat) (mask : list bool) : list nat :=
  match mask with
  | [] => []
  | b :: mask' =>
      if b then i :: where_from (S i) mask' else where_from (S i) mask'
  end.

Definition np_where (mask : list bool) : list nat := where_from 0 mask.

(** [np.clip(x, lo, hi)] is [minimum(maximum(x, lo), hi)]. *)
Definition clip (x lo hi : float) : float :=
  Float.minimum (Float.maximum x lo) hi.

Definition at_ (l : list float) (i : nat) : float := nth i l NaN.

(** The linear search [binary_search_with_guess] runs on arrays of at
    most four points: [i] starts at 1 and advances while [key >= arr[i]];
    the answer is [i - 1]. *)
Fixpoint linear_search (key : float) (arr : list float) (i fuel : nat) : nat :=
  match fuel with
  | O => (i - 1)%nat
  | S fuel' =>
      if (i <? List.length arr)%nat && (key >=? at_ arr i)%flt
      then linear_search key arr (S i) fuel'
      else (i - 1)%nat
  end.

Inductive position : Type :=
| Left                  (* -1: key < arr[0] *)
| Right                 (* len: key > arr[len - 1] *)
| At (j : nat).

Definition binary_search_with_guess (key : float) (arr : list float) : position :=
  let n := List.length arr in
  if (key >? at_ arr (n - 1))%flt then Right
  else if (key <? at_ arr 0)%flt then Left
  else At (linear_search key arr 1 n).

(** [np.interp(x, xp, fp)] for a scalar [x] and at least two (and at most
    four) points, after [arr_interp] in NumPy's [compiled_base.c]: left of
    [xp[0]] the answer is [fp[0]], right of [xp[-1]] it is [fp[-1]], and in
    between the line through the neighbouring points is evaluated.  NumPy
    does not check that [xp] is increasing. *)
Definition interp (x : float) (xp fp : list float) : float :=
  let n := List.length xp in
  if isnan x then x
  else
    match binary_search_with_guess x xp with
    | Left => at_ fp 0
    | Right => at_ fp (n - 1)
    | At j =>
        if (j =? n - 1)%nat then at_ fp j
        else if (at_ xp j ==? x)%flt then at_ fp j
        else
          let slope :=
            ((at_ fp (j + 1) - at_ fp j) / (at_ xp (j + 1) - at_ xp j))%flt in
          let r := (slope * (x - at_ xp j) + at_ fp j)%flt in
          if isnan r then
            let r' := (slope * (x - at_ xp (j + 1)) + at_ fp (j + 1))%flt in
            if isnan r' && (at_ fp j ==? at_ fp (j + 1))%flt
            then at_ fp j
            else r'
          else r
    end.

End Numpy.
Import Numpy.

(* ================================================================== *)
(** * Snapshots: the option-chain rows of one CSV file *)
(* ================================================================== *)

Module Snapshot.

Inductive ContractType : Type := CALL | PUT.

Record OptionRow : Type := mkRow {
  strike : Q;
  contract_type : ContractType;
  gamma : Q;
  open_interest : Q;
  delta : Q;
  underlying_price : Q
}.

Definition type_name (t : ContractType) : string :=
  match t with CALL => "CALL" | PUT => "PUT" end.

Definition snapshot_columns : list label :=
  [Str "strike"; Str "contract_type"; Str "gamma"; Str "open_interest";
   Str "delta"; Str "underlying_price"].

(** The frame row [pd.read_csv] builds from a well-formed CSV line. *)
Definition row_cells (r : OptionRow) : label -> cell :=
  fun l =>
    match l with
    | Str name =>
        if name =? "strike" then Flt (Fin (strike r))
        else if name =? "contract_type" then Str (type_name (contract_type r))
        else if name =? "gamma" then Flt (Fin (gamma r))
        else if name =? "open_interest" then Flt (Fin (open_interest r))
        else if name =? "delta" then Flt (Fin (delta r))
        else if name =? "underlying_price" then Flt (Fin (underlying_price r))
        else Flt NaN
    | Flt _ => Flt NaN
    end.

Definition to_frame (snapshot : list OptionRow) : DataFrame :=
  {| columns := snapshot_columns; rows := map row_cells snapshot |}.

(** The same snapshot read from a CSV file that lacks one column. *)
Definition without_column (name : string) (df : DataFrame) : DataFrame :=
  {| columns := filter (fun l => negb (label_eqb (Str name) l)) (columns df);
     rows := rows df |}.

End Snapshot.
Import Snapshot.

(* ================================================================== *)
(** * charts/GEX.py *)
(* ================================================================== *)

Module GEX.

(** ** [groupby(...).sum().unstack(fill_value=0).reset_index()] *)

(** [isna]: the missing value of a key column. *)
Definition isna (c : cell) : bool :=
  match c with Flt NaN => true | _ => false end.

(** Group keys are sorted; numbers sort before strings. *)
Definition label_leb (a b : label) : bool :=
  match a, b with
  | Flt x, Flt y => Float.le x y
  | Flt _, Str _ => true
  | Str _, Flt _ => false
  | Str s, Str t => String.leb s t
  end.

Fixpoint insert_unique (k : label) (l : list label) : list label :=
  match l with
  | [] => [k]
  | h :: t =>
      if label_eqb k h then l
      else if label_leb k h then k :: l
      else h :: insert_unique k t
  end.

Definition unique_sorted (l : list label) : list label :=
  fold_right insert_unique [] l.

Record entry : Type := mkEntry {
  key_index : label;
  key_column : label;
  value : float
}.

Fixpoint entries (ks ts : Series) (vs : list float) : list entry :=
  match ks, ts, vs with
  | k :: ks', t :: ts', v :: vs' => mkEntry k t v :: entries ks' ts' vs'
  | _, _, _ => []
  end.

(** Rows with a missing key belong to no group. *)
Definition keyed (e : entry) : bool :=
  negb (isna (key_index e)) && negb (isna (key_column e)).

Definition in_group (k t : label) (e : entry) : bool :=
  label_eqb k (key_index e) && label_eqb t (key_column e).

(** The sum of one group; a combination without rows sums nothing and is
    the [fill_value] 0. *)
Definition group_sum (es : list entry) (k t : label) : float :=
  Pandas.sum (map value (filter (in_group k t) es)).

Definition pivot_row (es : list entry) (index_name : string) (k : label)
  : label -> cell :=
  fun l => if label_eqb (Str index_name) l then k else Flt (group_sum es k l).

(** [df.groupby([index_name, column_name])[value_name].sum()
       .unstack(fill_value=0).reset_index()]:
    one row per index key in ascending order, one column per column key
    that occurs in the data. *)
Definition groupby_sum_unstack (df : DataFrame)
    (index_name column_name value_name : string) : result DataFrame :=
  ks <- getcol df index_name ;;
  ts <- getcol df column_name ;;
  vs <- getcol df value_name ;;
  vals <- numeric vs ;;
  let es := filter keyed (entries ks ts vals) in
  let index_keys := unique_sorted (map key_index es) in
  let column_keys := unique_sorted (map key_column es) in
  if existsb (label_eqb (Str index_name)) column_keys
  then Raise (ValueError ("cannot insert " ++ index_name ++ ", already exists"))
  else Ok {| columns := Str index_name :: column_keys;
             rows := map (pivot_row es index_name) index_keys |}.

Section WithParser.

(** How pandas and NumPy read a [str] as a number ([None]: not a number). *)
Variable str_to_float : string -> option float.

(** [pd.to_numeric(s, errors="coerce")] *)
Definition to_numeric_coerce (s : Series) : Series :=
  map (fun c =>
         match c with
         | Flt f => Flt f
         | Str t => match str_to_float t with
                    | Some f => Flt f
                    | None => Flt NaN
                    end
         end) s.

(** Conversion of a scalar to a float64 array element. *)
Definition as_float (c : cell) : result float :=
  match c with
  | Flt f => Ok f
  | Str t => match str_to_float t with
             | Some f => Ok f
             | None => Raise (ValueError "could not convert string to float")
             end
  end.

(** ** The class *)

Record GEX : Type := mkGEX {
  data_dir : string;
  df : DataFrame
}.

Definition MULTIPLIER : float := Fin 100.

Definition numeric_columns : list string :=
  ["strike"; "gamma"; "open_interest"; "underlying_price"].

Fixpoint coerce_columns (d : DataFrame) (cols : list string) : result DataFrame :=
  match cols with
  | [] => Ok d
  | col :: cols' =>
      s <- getcol d col ;;
      coerce_columns (setcol d col (to_numeric_coerce s)) cols'
  end.

Definition _prepare_data (self : GEX) : result GEX :=
  d <- coerce_columns (df self) numeric_columns ;;
  g <- getcol d "gamma" ;;
  oi <- getcol d "open_interest" ;;
  g' <- numeric g ;;
  oi' <- numeric oi ;;
  up <- getcol d "underlying_price" ;;
  up' <- numeric up ;;
  let gex :=
    zip_with Float.mul
      (map (fun x => x * MULTIPLIER)%flt (zip_with Float.mul g' oi')) up' in
  Ok {| data_dir := data_dir self; df := setcol d "gex" (of_floats gex) |}.

(** [GEX(data_dir=..., dataframe=...)]: the constructor on a frame that is
    already in memory. *)
Definition __init__ (data_dir : string) (dataframe : DataFrame) : result GEX :=
  _prepare_data {| data_dir := data_dir; df := dataframe |}.

Definition strike_mask (g : DataFrame) (min_strike max_strike : option float)
  : result (list bool) :=
  let mask := repeat true (len g) in
  mask <- match min_strike with
          | Some lo =>
              s <- getcol g "strike" ;;
              s' <- numeric s ;;
              Ok (zip_with andb mask (map (fun x => x >=? lo)%flt s'))
          | None => Ok mask
          end ;;
  match max_strike with
  | Some hi =>
      s <- getcol g "strike" ;;
      s' <- numeric s ;;
      Ok (zip_with andb mask (map (fun x => x <=? hi)%flt s'))
  | None => Ok mask
  end.

Definition calculate_gex_by_strike (self : GEX)
    (min_strike max_strike : option float) : result DataFrame :=
  gex_by_strike <-
    groupby_sum_unstack (df self) "strike" "contract_type" "gex" ;;
  gex_by_strike <-
    match min_strike, max_strike with
    | None, None => Ok gex_by_strike
    | _, _ =>
        mask <- strike_mask gex_by_strike min_strike max_strike ;;
        Ok (loc gex_by_strike mask)
    end ;;
  call <- getcol gex_by_strike "CALL" ;;
  put <- getcol gex_by_strike "PUT" ;;
  call' <- numeric call ;;
  put' <- numeric put ;;
  Ok (setcol gex_by_strike "net_gamma"
        (of_floats (zip_with Float.sub call' put'))).

Definition find_zero_gamma_level (gex_data : DataFrame)
  : result (option float) :=
  net <- getcol gex_data "net_gamma" ;;
  net' <- numeric net ;;
  let sign_changes :=
    np_where (map (fun d => d !=? Fin 0)%flt (diff (map Float.sign net'))) in
  match sign_changes with
  | idx :: _ =>
      n0 <- iloc net idx ;;
      n1 <- iloc net (idx + 1) ;;
      strikes <- getcol gex_data "strike" ;;
      k0 <- iloc strikes idx ;;
      k1 <- iloc strikes (idx + 1) ;;
      xp <- mapM as_float [n0; n1] ;;
      fp <- mapM as_float [k0; k1] ;;
      Ok (Some (interp (Fin 0) xp fp))
  | [] => Ok None
  end.

End WithParser.

End GEX.

(** ** Frames of strike exposures, as [find_zero_gamma_level] reads them *)

Module GEXData.

(** A point of the net-exposure curve: [(strike, net_gamma)]. *)
Definition point_cells (p : Q * Q) : label -> cell :=
  fun l =>
    match l with
    | Str name =>
        if name =? "strike" then Flt (Fin (fst p))
        else if name =? "net_gamma" then Flt (Fin (snd p))
        else Flt NaN
    | Flt _ => Flt NaN
    end.

Definition curve (points : list (Q * Q)) : DataFrame :=
  {| columns := [Str "strike"; Str "net_gamma"];
     rows := map point_cells points |}.

End GEXData.


(* ================================================================== *)
(** * Python strings, paths and dates *)
(* ================================================================== *)

Module Py.

(** [s.split(sep)] for a one-character separator. *)
Fixpoint split (sep : ascii) (s : string) : list string :=
  match s with
  | EmptyString => [EmptyString]
  | String c s' =>
      if Ascii.eqb c sep then EmptyString :: split sep s'
      else match split sep s' with
           | h :: t => String c h :: t
           | [] => [String c EmptyString]
           end
  end.

(** [name.rfind(c)] *)
Fixpoint rfind_from (c : ascii) (s : string) (i : nat) : option nat :=
  match s with
  | EmptyString => None
  | String a s' =>
      match rfind_from c s' (S i) with
      | Some j => Some j
      | None => if Ascii.eqb a c then Some i else None
      end
  end.

(** [Path.stem]: the file name without its last suffix; a leading or a
    trailing dot starts no suffix. *)
Definition stem (name : string) : string :=
  match rfind_from "." name 0 with
  | Some i =>
      if (0 <? i)%nat && (i <? String.length name - 1)%nat
      then substring 0 i name
      else name
  | None => name
  end.

(** [sorted] on file names: ascending by code points. *)
Module StringOrder <: TotalLeBool.
Definition t := string.
Definition leb (a b : string) : bool := String.leb a b.
Theorem leb_total : forall a b, leb a b = true \/ leb b a = true.
Proof. exact String.leb_total. Qed.
End StringOrder.

Module StringSort := Sort StringOrder.

Definition sorted (l : list string) : list string := StringSort.sort l.

Record datetime : Type := mkDatetime {
  year : nat;
  month : nat;
  day : nat;
  hour : nat;
  minute : nat;
  second : nat
}.

(** ** A reference [datetime.strptime] for ["%Y-%m-%d_%H-%M-%S"] *)

Definition digit (c : ascii) : option nat :=
  let n := nat_of_ascii c in
  if (48 <=? n)%nat && (n <=? 57)%nat then Some (n - 48)%nat else None.

Fixpoint number_from (acc : nat) (s : string) : option nat :=
  match s with
  | EmptyString => Some acc
  | String c s' =>
      match digit c with
      | Some d => number_from (10 * acc + d)%nat s'
      | None => None
      end
  end.

(** A field of [lo] to [hi] digits. *)
Definition field (lo hi : nat) (s : string) : option nat :=
  let n := String.length s in
  if (lo <=? n)%nat && (n <=? hi)%nat then number_from 0%nat s else None.

Definition leap (y : nat) : bool :=
  ((y mod 4 =? 0) && negb (y mod 100 =? 0) || (y mod 400 =? 0))%nat.

Definition days_in_month (y m : nat) : nat :=
  match m with
  | 2%nat => if leap y then 29%nat else 28%nat
  | 4%nat | 6%nat | 9%nat | 11%nat => 30%nat
  | _ => 31%nat
  end.

Definition bad_time (s : string) : exn :=
  ValueError ("time data '" ++ s ++ "' does not match format '%Y-%m-%d_%H-%M-%S'").

Definition strptime_date_time (s : string) : result datetime :=
  match split "_" s with
  | [d; t] =>
      match split "-" d, split "-" t with
      | [y; m; dd], [hh; mm; ss] =>
          match field 4 4 y, field 1 2 m, field 1 2 dd,
                field 1 2 hh, field 1 2 mm, field 1 2 ss with
          | Some y, Some m, Some dd, Some hh, Some mm, Some ss =>
              if ((1 <=? m) && (m <=? 12) && (1 <=? dd)
                  && (dd <=? days_in_month y m)
                  && (hh <=? 23) && (mm <=? 59) && (ss <=? 59))%nat
              then Ok (mkDatetime y m dd hh mm ss)
              else Raise (bad_time s)
          | _, _, _, _, _, _ => Raise (bad_time s)
          end
      | _, _ => Raise (bad_time s)
      end
  | _ => Raise (bad_time s)
  end.

(** [str(e)] in the warning line. *)
Definition str_exn (e : exn) : string :=
  match e with
  | KeyError (Str k) => "'" ++ k ++ "'"
  | KeyError (Flt _) => "nan"
  | IndexError => "single positional indexer is out-of-bounds"
  | TypeError => "unsupported operand type(s)"
  | ValueError msg => msg
  end.

End Py.

(* ================================================================== *)
(** * charts/NetGEX.py *)
(* ================================================================== *)

Module NetGEX.
Import Py.

Record NetGEX : Type := mkNetGEX {
  data_dir : string;
  strike_width : float;
  multiplier : float;
  dealer_short : bool;
  gamma_scale : float;
  timestamps : list datetime;
  net_gex_values : list float
}.

(** [NetGEX(data_dir, strike_width, multiplier, dealer_short, gamma_scale)];
    the defaults are ["data"], [50.0], [100.0], [True], [0.01]. *)
Definition __init__ (data_dir : string) (strike_width multiplier : float)
    (dealer_short : bool) (gamma_scale : float) : NetGEX :=
  {| data_dir := data_dir;
     strike_width := strike_width;
     multiplier := multiplier;
     dealer_short := dealer_short;
     gamma_scale := gamma_scale;
     timestamps := [];
     net_gex_values := [] |}.

Definition default : NetGEX := __init__ "data" (Fin 50) (Fin 100) true (Fin 0.01).

(** The parameter [df] is a frame: the test [df is None] of the source is
    always false for it. *)
Definition _compute_net_gex (self : NetGEX) (df : DataFrame) (spot : float)
  : result float :=
  if empty df then Ok (Fin 0)
  else
    let sign := if dealer_short self then Fin (-1) else Fin 1 in
    g <- getcol df "gamma" ;;
    g' <- numeric g ;;
    oi <- getcol df "open_interest" ;;
    oi' <- numeric oi ;;
    let gex :=
      map (fun x => x * Float.sq spot * multiplier self * gamma_scale self)%flt
          (zip_with Float.mul (map (Float.mul sign) g') oi') in
    Ok (Pandas.sum gex).

Section WithParser.

(** Python's [float(str)] ([None]: [ValueError]). *)
Variable str_to_float : string -> option float.

Definition py_float (c : cell) : result float :=
  match c with
  | Flt f => Ok f
  | Str t => match str_to_float t with
             | Some f => Ok f
             | None => Raise (ValueError "could not convert string to float")
             end
  end.

Definition _compute_net_gex_near_spot (self : NetGEX) (df : DataFrame)
  : result float :=
  if empty df then Ok (Fin 0)
  else if negb (has_column df "underlying_price") then Ok (Fin 0)
  else
    up <- getcol df "underlying_price" ;;
    first <- iloc up 0 ;;
    spot <- py_float first ;;
    k <- getcol df "strike" ;;
    k' <- numeric k ;;
    let lower := map (fun x => x >=? spot - strike_width self)%flt k' in
    let upper := map (fun x => x <=? spot + strike_width self)%flt k' in
    let band := loc df (zip_with andb lower upper) in
    _compute_net_gex self band spot.

(** ** The loader *)

(** The file system: the names a pattern matches in a directory, in no
    particular order, and the frame [pd.read_csv] makes of a file. *)
Variable glob : string -> string -> list string.
Variable read_csv : string -> string -> result DataFrame.

(** [datetime.strptime(date_string, format)] *)
Variable strptime : string -> string -> result datetime.

Definition append (self : NetGEX) (timestamp : datetime) (net_gex : float)
  : NetGEX :=
  {| data_dir := data_dir self;
     strike_width := strike_width self;
     multiplier := multiplier self;
     dealer_short := dealer_short self;
     gamma_scale := gamma_scale self;
     timestamps := timestamps self ++ [timestamp];
     net_gex_values := net_gex_values self ++ [net_gex] |}.

(** The body of the [try] block for one file: [Ok None] is [continue], a
    raised exception reaches the [except] clause. *)
Definition process_file (self : NetGEX) (csv_file : string)
  : result (option (datetime * float)) :=
  let parts := split "_" (stem csv_file) in
  if (4 <=? List.length parts)%nat then
    let fetch_date := nth 2 parts "" in
    let fetch_time := nth 3 parts "" in
    timestamp <- strptime (fetch_date ++ "_" ++ fetch_time) "%Y-%m-%d_%H-%M-%S" ;;
    df <- read_csv (data_dir self) csv_file ;;
    net_gex <- _compute_net_gex_near_spot self df ;;
    Ok (Some (timestamp, net_gex))
  else Ok None.

Definition warning (csv_file : string) (e : exn) : string :=
  "Warning: Error processing " ++ csv_file ++ ": " ++ str_exn e.

(** The [for] loop, threading the object and the printed lines. *)
Fixpoint for_each_file (self : NetGEX) (stdout : list string)
    (csv_files : list string) : NetGEX * list string :=
  match csv_files with
  | [] => (self, stdout)
  | csv_file :: rest =>
      match process_file self csv_file with
      | Ok (Some (timestamp, net_gex)) =>
          for_each_file (append self timestamp net_gex) stdout rest
      | Ok None => for_each_file self stdout rest
      | Raise e => for_each_file self (stdout ++ [warning csv_file e]) rest
      end
  end.

Definition is_nil {A : Type} (l : list A) : bool :=
  match l with [] => true | _ => false end.

(** [load_and_calculate]: the lines printed, and either the exception
    raised or the object with its series extended. *)
Definition load_and_calculate (self : NetGEX)
    (symbol expiration_filter sample_date : option string)
  : list string * result NetGEX :=
  match symbol with
  | None => ([], Raise (ValueError "symbol is required and cannot be None"))
  | Some symbol =>
  match expiration_filter with
  | None =>
      ([], Raise (ValueError "expiration_filter is required and cannot be None"))
  | Some expiration_filter =>
      let pattern :=
        match sample_date with
        | Some sample_date =>
            symbol ++ "_exp" ++ expiration_filter ++ "_" ++ sample_date ++ "_*.csv"
        | None => symbol ++ "_exp" ++ expiration_filter ++ "_*.csv"
        end in
      let csv_files := sorted (glob (data_dir self) pattern) in
      if is_nil csv_files then
        let filter_msg :=
          (if String.eqb symbol "" then "" else " for symbol " ++ symbol)
          ++ " and expiration " ++ expiration_filter in
        ([], Raise (ValueError ("No option chain CSV files found in "
                                ++ data_dir self ++ filter_msg)))
      else
        let '(self', stdout) := for_each_file self [] csv_files in
        if is_nil (timestamps self') then
          (stdout,
           Raise (ValueError "No valid option chain data with timestamps found"))
        else (stdout, Ok self')
  end
  end.

End WithParser.

End NetGEX.

(* ================================================================== *)
(** * charts/DirectionalGammaImbalance.py *)
(* ================================================================== *)

Module DGI.

(** The class keeps the same series and the same [load_and_calculate] as
    [NetGEX], with [_calculate_dgi] as the metric; only the metric is
    transcribed here. *)
Record DirectionalGammaImbalance : Type := mkDGI {
  data_dir : string;
  min_abs_delta : float;
  max_abs_delta : float
}.

(** The defaults of the constructor. *)
Definition default : DirectionalGammaImbalance :=
  {| data_dir := "data"; min_abs_delta := Fin 0.15; max_abs_delta := Fin 0.55 |}.

(** [spot ** 2] on the cell read from the frame. *)
Definition cell_sq (c : cell) : result float :=
  f <- numeric_cell c ;; Ok (Float.sq f).

Definition _calculate_dgi (self : DirectionalGammaImbalance) (df : DataFrame)
  : result float :=
  if empty df || negb (has_column df "underlying_price") then Ok (Fin 0)
  else
    up <- getcol df "underlying_price" ;;
    spot <- iloc up 0 ;;
    d <- getcol df "delta" ;;
    d' <- numeric d ;;
    let lower := map (fun x => Float.abs x >=? min_abs_delta self)%flt d' in
    let upper := map (fun x => Float.abs x <=? max_abs_delta self)%flt d' in
    let filtered_df := loc df (zip_with andb lower upper) in
    if empty filtered_df then Ok (Fin 0)
    else
      g <- getcol filtered_df "gamma" ;;
      g' <- numeric g ;;
      oi <- getcol filtered_df "open_interest" ;;
      oi' <- numeric oi ;;
      spot2 <- cell_sq spot ;;
      let gex :=
        map (fun x => x * spot2 * Fin 0.01)%flt
            (zip_with Float.mul (map Float.neg g') oi') in
      let filtered_df := setcol filtered_df "gex" (of_floats gex) in
      spot' <- numeric_cell spot ;;
      k <- getcol filtered_df "strike" ;;
      k' <- numeric k ;;
      let gamma_above := Pandas.sum (select (map (fun x => x >? spot')%flt k') gex) in
      k <- getcol filtered_df "strike" ;;
      k' <- numeric k ;;
      let gamma_below := Pandas.sum (select (map (fun x => x <? spot')%flt k') gex) in
      let denom := (Float.abs gamma_above + Float.abs gamma_below)%flt in
      if (denom ==? Fin 0)%flt then Ok (Fin 0)
      else
        let dgi := ((gamma_above - gamma_below) / denom)%flt in
        Ok (clip dgi (Fin (-1)) (Fin 1)).

End DGI.

(* ================================================================== *)
(** * utils/black_scholes.py *)
(* ================================================================== *)

Module BlackScholes.

Local Open Scope R_scope.

(** NumPy does not raise on a division by zero, a logarithm of a
    non-positive number or a square root of a negative one: it answers an
    infinity or NaN.  [None] stands for such a non-finite answer. *)
Definition np_div (x y : R) : option R :=
  if Req_dec_T y 0 then None else Some (x / y).

Definition np_log (x : R) : option R :=
  if Rlt_dec 0 x then Some (ln x) else None.

Definition np_sqrt (x : R) : option R :=
  if Rle_dec 0 x then Some (sqrt x) else None.

Definition and_then {A B : Type} (m : option A) (k : A -> option B) : option B :=
  match m with
  | Some a => k a
  | None => None
  end.

Notation "x <~ m ;; k" := (and_then m (fun x => k))
  (at level 61, m at next level, right associativity).

Definition norm_pdf (x : R) : option R :=
  root <~ np_sqrt (2.0 * PI) ;;
  np_div (exp (- 0.5 * x * x)) root.

Definition bs_gamma (s k t sigma r q : R) : option R :=
  let eps := 1e-12 in
  let s := Rmax s eps in
  let k := Rmax k eps in
  let t := Rmax t eps in
  let sigma := Rmax sigma eps in
  ratio <~ np_div s k ;;
  log_ratio <~ np_log ratio ;;
  root_t <~ np_sqrt t ;;
  d1 <~ np_div (log_ratio + (r - q + 0.5 * sigma ^ 2) * t) (sigma * root_t) ;;
  pdf <~ norm_pdf d1 ;;
  np_div pdf (s * sigma * root_t).

(** ** The formula as the specification writes it *)

Definition epsilon : R := 1e-12.

Definition normPdf (x : R) : R := exp (- 0.5 * x ^ 2) / sqrt (2 * PI).

Definition bsGamma_formula (s k t sigma r q : R) : R :=
  let d1 := (ln (s / k) + (r - q + 0.5 * sigma ^ 2) * t) / (sigma * sqrt t) in
  normPdf d1 / (s * sigma * sqrt t).

Definition floor_at (x : R) : R := Rmax x epsilon.

End BlackScholes.

(* ================================================================== *)
(** * The operations as the specification words them *)
(* ================================================================== *)

Module Spec.

(** [spot]: the first row's [underlying_price]. *)
Definition spot_of (snapshot : list OptionRow) : option Q :=
  match snapshot with
  | [] => None
  | first :: _ => Some (underlying_price first)
  end.


(** [strike] in [[spot - strikeWidth, spot + strikeWidth]], inclusive. *)
Definition in_band (spot strikeWidth : Q) (row : OptionRow) : bool :=
  Qle_bool (spot - strikeWidth) (strike row)
  && Qle_bool (strike row) (spot + strikeWidth).


(** [|delta|] in [[minAbsDelta, maxAbsDelta]]. *)
Definition in_delta_range (minAbsDelta maxAbsDelta : Q) (row : OptionRow) : bool :=
  Qle_bool minAbsDelta (Qabs (delta row))
  && Qle_bool (Qabs (delta row)) maxAbsDelta.

Definition signed_gex (spot : Q) (row : OptionRow) : Q :=
  - gamma row * open_interest row * spot ^ 2 * 0.01.

Definition sum_above (spot : Q) (filtered : list OptionRow) : Q :=
  Qsum (map (signed_gex spot)
            (filter (fun row => Qlt_bool spot (strike row)) filtered)).

Definition sum_below (spot : Q) (filtered : list OptionRow) : Q :=
  Qsum (map (signed_gex spot)
            (filter (fun row => Qlt_bool (strike row) spot) filtered)).

Definition denom (spot : Q) (filtered : list OptionRow) : Q :=
  Qabs (sum_above spot filtered) + Qabs (sum_below spot filtered).

Definition clamp (x lo hi : Q) : Q :=
  if Qlt_bool x lo then lo else if Qlt_bool hi x then hi else x.

Definition computeDirectionalGammaImbalance (snapshot : list OptionRow)
    (minAbsDelta maxAbsDelta : Q) : Q :=
  match spot_of snapshot with
  | None => 0
  | Some spot =>
      let filtered := filter (in_delta_range minAbsDelta maxAbsDelta) snapshot in
      let d := denom spot filtered in
      if Qeq_bool d 0 then 0
      else clamp ((sum_above spot filtered - sum_below spot filtered) / d) (-1) 1
  end.

(** The zero of the line through [(k0, net0)] and [(k1, net1)]. *)
Definition zero_crossing (k0 net0 k1 net1 : Q) : Q :=
  k0 + (0 - net0) * (k1 - k0) / (net1 - net0).

End Spec.

(* ================================================================== *)
(** * The loader as the specification words it *)
(* ================================================================== *)

Module LoaderSpec.
Import Py NetGEX.

Section Environment.

Variable str_to_float : string -> option float.
Variable glob : string -> string -> list string.
Variable read_csv : string -> string -> result DataFrame.
Variable strptime : string -> string -> result datetime.

Let process := process_file str_to_float read_csv strptime.

(** The entries of the files that load, parse and compute, in list order. *)
Fixpoint entries (self : NetGEX) (files : list string) : list (datetime * float) :=
  match files with
  | [] => []
  | f :: rest =>
      match process self f with
      | Ok (Some e) => e :: entries self rest
      | _ => entries self rest
      end
  end.

(** One warning per file that raised, in list order. *)
Fixpoint warnings (self : NetGEX) (files : list string) : list string :=
  match files with
  | [] => []
  | f :: rest =>
      match process self f with
      | Raise e => warning f e :: warnings self rest
      | _ => warnings self rest
      end
  end.

(** The files that produced an entry. *)
Definition processed (self : NetGEX) (f : string) : bool :=
  match process self f with
  | Ok (Some _) => true
  | _ => false
  end.

(** The discovery pattern. *)
Definition pattern (symbol expirationFilter : string) (sampleDate : option string)
  : string :=
  match sampleDate with
  | Some d => symbol ++ "_exp" ++ expirationFilter ++ "_" ++ d ++ "_*.csv"
  | None => symbol ++ "_exp" ++ expirationFilter ++ "_*.csv"
  end.

End Environment.

(** The three fatal errors; Python raises each as a [ValueError]. *)
Definition InvalidArgument_symbol : exn :=
  ValueError "symbol is required and cannot be None".
Definition InvalidArgument_expiration : exn :=
  ValueError "expiration_filter is required and cannot be None".
Definition NotFound (dir symbol expirationFilter : string) : exn :=
  ValueError ("No option chain CSV files found in " ++ dir
              ++ (if String.eqb symbol "" then "" else " for symbol " ++ symbol)
              ++ " and expiration " ++ expirationFilter).
Definition NoValidData : exn :=
  ValueError "No valid option chain data with timestamps found".

(** [needle] occurs in [s]. *)
Definition mentions (s needle : string) : Prop :=
  exists before after, s = before ++ needle ++ after.

End LoaderSpec.

(* ================================================================== *)
(** * A directory of three snapshot files *)
(* ================================================================== *)

Module LoaderExample.
Import Py NetGEX.

Definition file_0900 : string := "$SPX_exp2025-12-24_2025-12-18_09-00-00.csv".
Definition file_0930 : string := "$SPX_exp2025-12-24_2025-12-18_09-30-00.csv".
Definition file_0905 : string := "$SPX_exp2025-12-24_2025-12-18_09-05-00.csv".

(** The directory lists the files out of chronological order. *)
Definition listing (dir pattern : string) : list string :=
  if String.eqb pattern "$SPX_exp2025-12-24_*.csv"
  then [file_0900; file_0930; file_0905]
  else [].

Definition chain : list OptionRow :=
  [mkRow 100 CALL 0.01 1000 0.5 100; mkRow 100 PUT 0.02 500 (-0.5) 100].

(** A file whose [gamma] column holds text. *)
Definition corrupt_gamma (df : DataFrame) : DataFrame :=
  {| columns := columns df;
     rows := map (fun r => upd r (Str "gamma") (Str "corrupt")) (rows df) |}.

(** Every file is well formed. *)
Definition read_all (dir name : string) : result DataFrame :=
  Ok (to_frame chain).

(** The 09-05-00 file is corrupt. *)
Definition read_one_corrupt (dir name : string) : result DataFrame :=
  if String.eqb name file_0905
  then Ok (corrupt_gamma (to_frame chain))
  else Ok (to_frame chain).

Definition no_number : string -> option float := fun _ => None.

Definition strptime (date_string format : string) : result datetime :=
  strptime_date_time date_string.

Definition at_time (h m s : nat) : datetime := mkDatetime 2025 12 18 h m s.

End LoaderExample.

(* ================================================================== *)
(** * Aggregation by strike as the specification words it *)
(* ================================================================== *)

Module AggregateSpec.

Record StrikeExposure : Type := mkExposure {
  at_strike : Q;
  call_exposure : Q;
  put_exposure : Q;
  net_exposure : Q
}.

Definition type_eqb (a b : ContractType) : bool :=
  match a, b with
  | CALL, CALL => true
  | PUT, PUT => true
  | _, _ => false
  end.

(** The legacy per-row exposure: no dealer sign, no square of spot. *)
Definition legacy_exposure (multiplier : Q) (row : OptionRow) : Q :=
  gamma row * open_interest row * multiplier * underlying_price row.

(** The rows of the group [(k, t)]. *)
Definition in_group (k : Q) (t : ContractType) (row : OptionRow) : bool :=
  Qeq_bool k (strike row) && type_eqb t (contract_type row).

(** The sum of a group; a combination without rows sums to 0. *)
Definition group_exposure (multiplier : Q) (snapshot : list OptionRow)
    (k : Q) (t : ContractType) : Q :=
  Qsum (map (legacy_exposure multiplier) (filter (in_group k t) snapshot)).

(** The distinct strikes in ascending order. *)
Fixpoint insert_strike (k : Q) (l : list Q) : list Q :=
  match l with
  | [] => [k]
  | h :: t =>
      if Qeq_bool k h then l
      else if Qle_bool k h then k :: l
      else h :: insert_strike k t
  end.

Definition distinct_strikes (snapshot : list OptionRow) : list Q :=
  fold_right insert_strike [] (map strike snapshot).

Definition exposure_at (multiplier : Q) (snapshot : list OptionRow) (k : Q)
  : StrikeExposure :=
  let call := group_exposure multiplier snapshot k CALL in
  let put := group_exposure multiplier snapshot k PUT in
  mkExposure k call put (call - put).

Definition in_range (minStrike maxStrike : option Q) (k : Q) : bool :=
  match minStrike with Some lo => Qle_bool lo k | None => true end
  && match maxStrike with Some hi => Qle_bool k hi | None => true end.

Definition aggregateByStrike (multiplier : Q) (snapshot : list OptionRow)
    (minStrike maxStrike : option Q) : list StrikeExposure :=
  map (exposure_at multiplier snapshot)
      (filter (in_range minStrike maxStrike) (distinct_strikes snapshot)).

(** A contract type occurs somewhere in the snapshot. *)
Definition occurs (t : ContractType) (snapshot : list OptionRow) : bool :=
  existsb (fun row => type_eqb t (contract_type row)) snapshot.

(** A strike exposure as a row of the result frame, and a row of a frame
    read at the four result columns. *)
Definition exposure_cells (e : StrikeExposure) : list cell :=
  [Flt (Fin (at_strike e)); Flt (Fin (call_exposure e));
   Flt (Fin (put_exposure e)); Flt (Fin (net_exposure e))].

Definition result_columns : list label :=
  [Str "strike"; Str "CALL"; Str "PUT"; Str "net_gamma"].

Definition read_row (r : label -> cell) : list cell := map r result_columns.

(** [GEX(dataframe=snapshot).calculate_gex_by_strike(min_strike, max_strike)] *)
Definition aggregate (str_to_float : string -> option float)
    (snapshot : list OptionRow) (min_strike max_strike : option Q)
  : result DataFrame :=
  g <- GEX.__init__ str_to_float "data" (to_frame snapshot) ;;
  GEX.calculate_gex_by_strike g (option_map Fin min_strike)
                              (option_map Fin max_strike).

End AggregateSpec.

(* ================================================================== *)
(** * Two snapshots and their net-exposure curves *)
(* ================================================================== *)

Module CurveExample.
Import AggregateSpec.

(** Net exposure [10] at strike 100 and [-10] at strike 110. *)
Definition falling : list OptionRow :=
  [mkRow 100 CALL 0.001 1 0.5 100; mkRow 110 PUT 0.001 1 (-0.5) 100].

(** Net exposure [10] at strike 100 and [10] at strike 110. *)
Definition positive : list OptionRow :=
  [mkRow 100 CALL 0.002 1 0.5 100; mkRow 100 PUT 0.001 1 (-0.5) 100;
   mkRow 110 CALL 0.001 1 0.5 100].

(** [gex.find_zero_gamma_level(gex.calculate_gex_by_strike())] *)
Definition zero_gamma_of (str_to_float : string -> option float)
    (snapshot : list OptionRow) : result (option float) :=
  g <- aggregate str_to_float snapshot None None ;;
  GEX.find_zero_gamma_level str_to_float g.

End CurveExample.

(* ================================================================== *)
(** * charts/gamma_utils.py *)
(* ================================================================== *)

Module GammaUtils.




End GammaUtils.

(* ================================================================== *)
(** * File names *)
(* ================================================================== *)

Module FileName.

(** The number of occurrences of a character ([s.count(c)]). *)
Fixpoint count (c : ascii) (s : string) : nat :=
  match s with
  | EmptyString => O
  | String a s' => if Ascii.eqb a c then S (count c s') else count c s'
  end.

(** The naming convention of the snapshot files:
    [{symbol}_exp{expiration}_{date}_{time}.csv]. *)
Definition snapshot_name (symbol expiration date time : string) : string :=
  symbol ++ "_exp" ++ expiration ++ "_" ++ date ++ "_" ++ time ++ ".csv".

End FileName.

(* ================================================================== *)
(** * charts/GEX.py: the constructor and the directory loader *)
(* ================================================================== *)

Module GEXLoader.
Import Py GEX.

Section Environment.

Variable str_to_float : string -> option float.

(** The file system: the names a pattern matches in a directory, in no
    particular order, the frame [pd.read_csv] makes of a file of a
    directory, and of a file given by its path. *)
Variable glob : string -> string -> list string.
Variable read_csv : string -> string -> result DataFrame.
Variable read_csv_path : string -> result DataFrame.

(** [csv_files[-1]] on a list that is not empty. *)
Definition latest (csv_files : list string) : string := last csv_files "".

(** [_load_data(symbol, expiration_date)]: the frame assigned to
    [self.df]. *)
Definition _load_data (data_dir symbol expiration_date : string)
  : result DataFrame :=
  let pattern := symbol ++ "_exp" ++ expiration_date ++ "_*.csv" in
  let csv_files := sorted (glob data_dir pattern) in
  if NetGEX.is_nil csv_files then
    Raise (ValueError ("No option chain CSV files found for symbol " ++ symbol
                       ++ " with expiration " ++ expiration_date
                       ++ " in " ++ data_dir))
  else
    let latest_file := latest csv_files in
    read_csv data_dir latest_file.

(** [GEX(symbol, expiration_date, data_dir, csv_path, dataframe)] with all
    its arguments; [None] is an argument left out. *)
Definition construct (symbol expiration_date : option string)
    (data_dir : string) (csv_path : option string)
    (dataframe : option DataFrame) : result GEX :=
  df <- match csv_path, dataframe, symbol, expiration_date with
        | Some csv_path, _, _, _ => read_csv_path csv_path
        | None, Some dataframe, _, _ => Ok dataframe
        | None, None, Some symbol, Some expiration_date =>
            _load_data data_dir symbol expiration_date
        | None, None, _, _ =>
            Raise (ValueError "Must provide either (symbol and expiration_date) or csv_path or dataframe")
        end ;;
  _prepare_data str_to_float {| data_dir := data_dir; df := df |}.

End Environment.

End GEXLoader.

(* ================================================================== *)
(** * IEEE 754 binary64 *)
(* ================================================================== *)

(** Where an answer of the code depends on rounding, on overflow or on an
    infinity, the rational idealisation of [Float] says nothing.  This
    module is float64 itself: the operations of IEEE 754 binary64 with
    rounding to nearest, ties to even, as the Standard Library specifies
    them ([SpecFloat], after Flocq), with infinities, signed zeros and
    NaN. *)

From Stdlib Require SpecFloat.

Module Binary64.

Definition float64 : Type := SpecFloat.spec_float.

Definition prec : Z := 53.
Definition emax : Z := 1024.

Definition nan : float64 := SpecFloat.S754_nan.
Definition pos_inf : float64 := SpecFloat.S754_infinity false.
Definition neg_inf : float64 := SpecFloat.S754_infinity true.
Definition zero : float64 := SpecFloat.S754_zero false.

Definition isnan (x : float64) : bool :=
  match x with SpecFloat.S754_nan => true | _ => false end.

Definition isfinite (x : float64) : bool :=
  match x with
  | SpecFloat.S754_zero _ | SpecFloat.S754_finite _ _ _ => true
  | _ => false
  end.

Definition add : float64 -> float64 -> float64 := SpecFloat.SFadd prec emax.
Definition sub : float64 -> float64 -> float64 := SpecFloat.SFsub prec emax.
Definition mul : float64 -> float64 -> float64 := SpecFloat.SFmul prec emax.
Definition div : float64 -> float64 -> float64 := SpecFloat.SFdiv prec emax.
Definition sqrt : float64 -> float64 := SpecFloat.SFsqrt prec emax.
Definition neg : float64 -> float64 := SpecFloat.SFopp.
Definition abs : float64 -> float64 := SpecFloat.SFabs.

(** Every comparison with NaN is false, except [!=]. *)
Definition lt : float64 -> float64 -> bool := SpecFloat.SFltb.
Definition le : float64 -> float64 -> bool := SpecFloat.SFleb.
Definition eq : float64 -> float64 -> bool := SpecFloat.SFeqb.
Definition gt (a b : float64) : bool := lt b a.
Definition ge (a b : float64) : bool := le b a.
Definition ne (a b : float64) : bool := negb (eq a b).

(** The float64 nearest to an integer: what Python reads from a literal
    such as [16.0] or [1e200]. *)
Definition of_Z (z : Z) : float64 :=
  SpecFloat.binary_normalize prec emax z 0 false.

(** The float64 nearest to [n / d], for [n] and [d] below [2^53] in
    absolute value (both are then float64 themselves and the quotient is
    rounded once): what Python reads from a literal such as [0.01], written
    [of_ratio 1 100]. *)
Definition of_ratio (n : Z) (d : positive) : float64 :=
  div (of_Z n) (of_Z (Zpos d)).

(** [x ** 2], as the correctly rounded [x * x]. *)
Definition sq (x : float64) : float64 := mul x x.

(** [np.maximum(a, b)] is [(a >= b || isnan(a)) ? a : b]. *)
Definition maximum (a b : float64) : float64 :=
  if ge a b || isnan a then a else b.

(** [np.clip(x, lo, hi)] on floats is [min(max(x, lo), hi)] with
    [max(a, b) = isnan(a) ? a : (a > b ? a : b)] and
    [min(a, b) = isnan(a) ? a : (a < b ? a : b)]. *)
Definition clip_max (a b : float64) : float64 :=
  if isnan a then a else if gt a b then a else b.

Definition clip_min (a b : float64) : float64 :=
  if isnan a then a else if lt a b then a else b.

Definition clip (x lo hi : float64) : float64 :=
  clip_min (clip_max x lo) hi.

End Binary64.

Declare Scope b64_scope.
Delimit Scope b64_scope with b64.
Infix "+" := Binary64.add : b64_scope.
Infix "-" := Binary64.sub : b64_scope.
Infix "*" := Binary64.mul : b64_scope.
Infix "/" := Binary64.div : b64_scope.
Notation "- x" := (Binary64.neg x) : b64_scope.
Infix "<=?" := Binary64.le : b64_scope.
Infix "<?" := Binary64.lt : b64_scope.
Infix ">=?" := Binary64.ge (at level 70) : b64_scope.
Infix ">?" := Binary64.gt (at level 70) : b64_scope.
Infix "==?" := Binary64.eq (at level 70) : b64_scope.

(* ================================================================== *)
(** * pandas on float64 columns *)
(* ================================================================== *)

(** The fragment of pandas that [_calculate_dgi] calls, as in [Pandas],
    with float64 cells.  Column labels are strings here. *)

Module Frame64.
Import Binary64.

Inductive cell64 : Type :=
| F64 (f : float64)
| Txt (s : string).

Definition Series64 := list cell64.

Record DataFrame64 : Type := mkDataFrame64 {
  columns : list string;
  rows : list (string -> cell64)
}.

Definition has_column (df : DataFrame64) (name : string) : bool :=
  existsb (String.eqb name) (columns df).

(** [df.empty]: some axis has length 0. *)
Definition empty (df : DataFrame64) : bool :=
  match columns df, rows df with
  | [], _ => true
  | _, [] => true
  | _, _ => false
  end.

(** [df[name]] *)
Definition getcol (df : DataFrame64) (name : string) : result Series64 :=
  if has_column df name
  then Ok (map (fun r => r name) (rows df))
  else Raise (KeyError (Str name)).

Definition upd (r : string -> cell64) (k : string) (v : cell64)
  : string -> cell64 :=
  fun k' => if String.eqb k k' then v else r k'.

Fixpoint upd_rows (rs : list (string -> cell64)) (k : string) (vs : Series64)
  : list (string -> cell64) :=
  match rs, vs with
  | r :: rs', v :: vs' => upd r k v :: upd_rows rs' k vs'
  | _, _ => rs
  end.

(** [df[name] = values], for [values] of the frame's length. *)
Definition setcol (df : DataFrame64) (name : string) (vs : Series64)
  : DataFrame64 :=
  {| columns := if has_column df name then columns df
                else columns df ++ [name];
     rows := upd_rows (rows df) name vs |}.

(** [df.loc[mask]] for a boolean mask. *)
Definition loc (df : DataFrame64) (mask : list bool) : DataFrame64 :=
  {| columns := columns df; rows := select mask (rows df) |}.

(** Arithmetic and ordered comparison on an object column raise
    [TypeError] as soon as one value is a [str]. *)
Definition numeric_cell (c : cell64) : result float64 :=
  match c with
  | F64 f => Ok f
  | Txt _ => Raise TypeError
  end.

Definition numeric (s : Series64) : result (list float64) :=
  mapM numeric_cell s.

Definition of_floats (l : list float64) : Series64 := map F64 l.

(** [s.sum()]: a NaN counts as [0.0] and the empty sum is [0.0].  The
    values are added from left to right; NumPy adds an array of eight or
    more values in blocks, which can change the last bits of the sum and
    nothing else that is stated about it here. *)
Definition skipna (x : float64) : float64 := if isnan x then zero else x.

Definition sum (l : list float64) : float64 :=
  match map skipna l with
  | [] => zero
  | x :: rest => fold_left add rest x
  end.

End Frame64.

(* ================================================================== *)
(** * Snapshots of float64 values *)
(* ================================================================== *)

Module Snapshot64.
Import Binary64 Frame64.

Record OptionRow64 : Type := mkRow64 {
  strike : float64;
  contract_type : ContractType;
  gamma : float64;
  open_interest : float64;
  delta : float64;
  underlying_price : float64
}.

Definition snapshot_columns : list string :=
  ["strike"; "contract_type"; "gamma"; "open_interest"; "delta";
   "underlying_price"].

(** The frame row [pd.read_csv] builds from a well-formed CSV line. *)
Definition row_cells (r : OptionRow64) : string -> cell64 :=
  fun name =>
    if name =? "strike" then F64 (strike r)
    else if name =? "contract_type" then Txt (type_name (contract_type r))
    else if name =? "gamma" then F64 (gamma r)
    else if name =? "open_interest" then F64 (open_interest r)
    else if name =? "delta" then F64 (delta r)
    else if name =? "underlying_price" then F64 (underlying_price r)
    else F64 nan.

Definition to_frame (snapshot : list OptionRow64) : DataFrame64 :=
  {| columns := snapshot_columns; rows := map row_cells snapshot |}.

End Snapshot64.

(* ================================================================== *)
(** * charts/DirectionalGammaImbalance.py in float64 *)
(* ================================================================== *)

Module DGI64.
Import Binary64 Frame64.

Record DirectionalGammaImbalance : Type := mkDGI64 {
  data_dir : string;
  min_abs_delta : float64;
  max_abs_delta : float64
}.

(** The defaults of the constructor. *)
Definition default : DirectionalGammaImbalance :=
  {| data_dir := "data";
     min_abs_delta := of_ratio 15 100;
     max_abs_delta := of_ratio 55 100 |}.

(** [spot ** 2] on the cell read from the frame. *)
Definition cell_sq (c : cell64) : result float64 :=
  f <- numeric_cell c ;; Ok (sq f).

(** [_calculate_dgi], statement by statement as [DGI._calculate_dgi]. *)
Definition _calculate_dgi (self : DirectionalGammaImbalance) (df : DataFrame64)
  : result float64 :=
  if empty df || negb (has_column df "underlying_price") then Ok zero
  else
    up <- getcol df "underlying_price" ;;
    spot <- iloc up 0 ;;
    d <- getcol df "delta" ;;
    d' <- numeric d ;;
    let lower := map (fun x => abs x >=? min_abs_delta self)%b64 d' in
    let upper := map (fun x => abs x <=? max_abs_delta self)%b64 d' in
    let filtered_df := loc df (zip_with andb lower upper) in
    if empty filtered_df then Ok zero
    else
      g <- getcol filtered_df "gamma" ;;
      g' <- numeric g ;;
      oi <- getcol filtered_df "open_interest" ;;
      oi' <- numeric oi ;;
      spot2 <- cell_sq spot ;;
      let gex :=
        map (fun x => x * spot2 * of_ratio 1 100)%b64
            (zip_with mul (map neg g') oi') in
      let filtered_df := setcol filtered_df "gex" (of_floats gex) in
      spot' <- numeric_cell spot ;;
      k <- getcol filtered_df "strike" ;;
      k' <- numeric k ;;
      let gamma_above := sum (select (map (fun x => x >? spot')%b64 k') gex) in
      k <- getcol filtered_df "strike" ;;
      k' <- numeric k ;;
      let gamma_below := sum (select (map (fun x => x <? spot')%b64 k') gex) in
      let denom := (abs gamma_above + abs gamma_below)%b64 in
      if (denom ==? zero)%b64 then Ok zero
      else
        let dgi := ((gamma_above - gamma_below) / denom)%b64 in
        Ok (clip dgi (of_Z (-1)) (of_Z 1)).

End DGI64.

(* ================================================================== *)
(** * charts/DirectionalGammaImbalance.py: the series and the loader *)
(* ================================================================== *)

Module DGILoader.
Import Py Binary64 Frame64 DGI64.

(** The object with its two series: the parameters of the metric, and the
    lists [timestamps] and [dgi_scores]. *)
Record Loaded : Type := mkLoaded {
  metric : DirectionalGammaImbalance;
  timestamps : list datetime;
  dgi_scores : list float64
}.

(** [DirectionalGammaImbalance(data_dir, min_abs_delta, max_abs_delta)] *)
Definition __init__ (data_dir : string) (min_abs_delta max_abs_delta : float64)
  : Loaded :=
  {| metric := {| data_dir := data_dir;
                  min_abs_delta := min_abs_delta;
                  max_abs_delta := max_abs_delta |};
     timestamps := [];
     dgi_scores := [] |}.

Section Environment.

Variable glob : string -> string -> list string.
Variable read_csv : string -> string -> result DataFrame64.
Variable strptime : string -> string -> result datetime.

Definition append (self : Loaded) (timestamp : datetime) (dgi_norm : float64)
  : Loaded :=
  {| metric := metric self;
     timestamps := timestamps self ++ [timestamp];
     dgi_scores := dgi_scores self ++ [dgi_norm] |}.

(** The body of the [try] block for one file: [Ok None] is [continue], a
    raised exception reaches the [except] clause. *)
Definition process_file (self : Loaded) (csv_file : string)
  : result (option (datetime * float64)) :=
  let parts := split "_" (stem csv_file) in
  if (4 <=? List.length parts)%nat then
    let fetch_date := nth 2 parts "" in
    let fetch_time := nth 3 parts "" in
    timestamp <- strptime (fetch_date ++ "_" ++ fetch_time) "%Y-%m-%d_%H-%M-%S" ;;
    df <- read_csv (data_dir (metric self)) csv_file ;;
    dgi_norm <- _calculate_dgi (metric self) df ;;
    Ok (Some (timestamp, dgi_norm))
  else Ok None.

(** The [for] loop, threading the object and the printed lines. *)
Fixpoint for_each_file (self : Loaded) (stdout : list string)
    (csv_files : list string) : Loaded * list string :=
  match csv_files with
  | [] => (self, stdout)
  | csv_file :: rest =>
      match process_file self csv_file with
      | Ok (Some (timestamp, dgi_norm)) =>
          for_each_file (append self timestamp dgi_norm) stdout rest
      | Ok None => for_each_file self stdout rest
      | Raise e =>
          for_each_file self (stdout ++ [NetGEX.warning csv_file e]) rest
      end
  end.

(** [load_and_calculate]: the lines printed, and either the exception
    raised or the object with its series extended. *)
Definition load_and_calculate (self : Loaded)
    (symbol expiration_filter sample_date : option string)
  : list string * result Loaded :=
  match symbol with
  | None => ([], Raise (ValueError "symbol is required and cannot be None"))
  | Some symbol =>
  match expiration_filter with
  | None =>
      ([], Raise (ValueError "expiration_filter is required and cannot be None"))
  | Some expiration_filter =>
      let pattern :=
        match sample_date with
        | Some sample_date =>
            symbol ++ "_exp" ++ expiration_filter ++ "_" ++ sample_date ++ "_*.csv"
        | None => symbol ++ "_exp" ++ expiration_filter ++ "_*.csv"
        end in
      let csv_files := sorted (glob (data_dir (metric self)) pattern) in
      if NetGEX.is_nil csv_files then
        let filter_msg :=
          (if String.eqb symbol "" then "" else " for symbol " ++ symbol)
          ++ " and expiration " ++ expiration_filter in
        ([], Raise (ValueError ("No option chain CSV files found in "
                                ++ data_dir (metric self) ++ filter_msg)))
      else
        let '(self', stdout) := for_each_file self [] csv_files in
        if NetGEX.is_nil (timestamps self') then
          (stdout,
           Raise (ValueError "No valid option chain data with timestamps found"))
        else (stdout, Ok self')
  end
  end.

End Environment.

End DGILoader.

(* ================================================================== *)
(** * utils/black_scholes.py in float64 *)
(* ================================================================== *)

Module BlackScholes64.
Import Binary64.

Section Libm.

(** The values of the C library's [exp] and [log] on arguments that are
    not NaN.  They are not fixed here: what is proved holds for every
    choice.  On NaN both answer NaN. *)
Variable libm_exp : float64 -> float64.
Variable libm_log : float64 -> float64.

Definition np_exp (x : float64) : float64 :=
  if isnan x then nan else libm_exp x.

Definition np_log (x : float64) : float64 :=
  if isnan x then nan else libm_log x.

(** [np.pi] *)
Definition pi : float64 := of_ratio 3141592653589793 1000000000000000.

Definition norm_pdf (x : float64) : float64 :=
  (np_exp (- of_ratio 1 2 * x * x) / sqrt (of_Z 2 * pi))%b64.

Definition eps : float64 := of_ratio 1 1000000000000.

Definition bs_gamma (s k t sigma r q : float64) : float64 :=
  let s := maximum s eps in
  let k := maximum k eps in
  let t := maximum t eps in
  let sigma := maximum sigma eps in
  let d1 :=
    ((np_log (s / k) + (r - q + of_ratio 1 2 * sq sigma) * t)
     / (sigma * sqrt t))%b64 in
  (norm_pdf d1 / (s * sigma * sqrt t))%b64.

End Libm.

End BlackScholes64.
(* ================================================================== *)
(** * Zero-gamma level: what the code computes *)
(* ================================================================== *)

Module ZeroGamma.
Import GEX GEXData AggregateSpec CurveExample.

Lemma numeric_floats (l : list float) : numeric (map Flt l) = Ok l.
Proof.
  induction l as [|a l IH]; [reflexivity|].
  unfold numeric in *; simpl; rewrite IH; reflexivity.
Qed.

Lemma getcol_curve_net (points : list (Q * Q)) :
  getcol (curve points) "net_gamma"
  = Ok (map Flt (map (fun p => Fin (snd p)) points)).
Proof.
  unfold getcol; simpl; rewrite !map_map; reflexivity.
Qed.

Lemma getcol_curve_strike (points : list (Q * Q)) :
  getcol (curve points) "strike"
  = Ok (map Flt (map (fun p => Fin (fst p)) points)).
Proof.
  unfold getcol; simpl; rewrite !map_map; reflexivity.
Qed.

(** The first difference of a non-empty series is NaN, and [NaN != 0]
    holds: position 0 is always reported as a sign change. *)
Lemma first_position_flagged (a : float) (l : list float) :
  exists rest,
    np_where (map (fun d => d !=? Fin 0)%flt (diff (map Float.sign (a :: l))))
    = O :: rest.
Proof.
  unfold np_where; simpl; eexists; reflexivity.
Qed.

(** On two or more points the answer never depends on where the signs
    change: it is [np.interp] on the first two points. *)
Lemma find_zero_gamma_level_two_points
    (parse : string -> option float) (p0 p1 : Q * Q) (rest : list (Q * Q)) :
  find_zero_gamma_level parse (curve (p0 :: p1 :: rest))
  = Ok (Some (interp (Fin 0) [Fin (snd p0); Fin (snd p1)]
                             [Fin (fst p0); Fin (fst p1)])).
Proof.
  unfold find_zero_gamma_level.
  rewrite getcol_curve_net, getcol_curve_strike.
  cbn [bind]. rewrite numeric_floats. cbn [bind].
  destruct (first_position_flagged (Fin (snd p0))
              (map (fun p => Fin (snd p)) (p1 :: rest))) as [r Hr].
  change (map (fun p : Q * Q => Fin (snd p)) (p0 :: p1 :: rest))
    with (Fin (snd p0) :: map (fun p : Q * Q => Fin (snd p)) (p1 :: rest)).
  rewrite Hr. reflexivity.
Qed.

Lemma find_zero_gamma_level_one_point
    (parse : string -> option float) (p0 : Q * Q) :
  find_zero_gamma_level parse (curve [p0]) = Raise IndexError.
Proof. reflexivity. Qed.

Lemma find_zero_gamma_level_no_point (parse : string -> option float) :
  find_zero_gamma_level parse (curve []) = Ok None.
Proof. reflexivity. Qed.

(** [np.interp] at 0 between two finite points. *)
Lemma interp_two_points (n0 n1 k0 k1 : Q) :
  interp (Fin 0) [Fin n0; Fin n1] [Fin k0; Fin k1]
  = if Qlt_bool n1 0 then Fin k1
    else if Qlt_bool 0 n0 then Fin k0
    else if Qle_bool n1 0 then Fin k1
    else if Qeq_bool n0 0 then Fin k0
    else Fin ((k1 - k0) / (n1 - n0) * (0 - n0) + k0).
Proof.
  unfold interp, binary_search_with_guess;
    cbn -[Qle_bool Qeq_bool Qlt_bool Qminus Qdiv Qmult Qplus].
  destruct (Qlt_bool n1 0) eqn:H1; [reflexivity|].
  destruct (Qlt_bool 0 n0) eqn:H2; [reflexivity|].
  unfold Float.ge; cbn -[Qle_bool Qeq_bool Qlt_bool Qminus Qdiv Qmult Qplus].
  destruct (Qle_bool n1 0) eqn:H3; [reflexivity|].
  cbn -[Qle_bool Qeq_bool Qlt_bool Qminus Qdiv Qmult Qplus].
  destruct (Qeq_bool n0 0) eqn:H4; [reflexivity|].
  unfold Float.div, Float.sub, Float.mul, Float.add, lift2.
  destruct (Qeq_bool (n1 - n0) 0) eqn:H5; [exfalso|reflexivity].
  unfold Qlt_bool in H2. apply negb_false_iff in H2.
  apply Qle_bool_iff in H2. apply Qeq_bool_iff in H5.
  assert (H3' : ~ n1 <= 0) by (rewrite <- Qle_bool_iff; congruence).
  Lqa.lra.
Qed.

(** Where the first two points do bracket a rising zero, the answer is the
    linear interpolation of the crossing. *)
Lemma find_zero_gamma_level_rising
    (parse : string -> option float) (k0 n0 k1 n1 : Q) (rest : list (Q * Q)) :
  n0 < 0 -> 0 < n1 ->
  exists z,
    find_zero_gamma_level parse (curve ((k0, n0) :: (k1, n1) :: rest))
    = Ok (Some (Fin z))
    /\ z == Spec.zero_crossing k0 n0 k1 n1.
Proof.
  intros H0 H1.
  rewrite find_zero_gamma_level_two_points. cbn [fst snd].
  rewrite interp_two_points.
  assert (Ha : Qlt_bool n1 0 = false).
  { unfold Qlt_bool. apply negb_false_iff, Qle_bool_iff. lraQ. }
  assert (Hb : Qlt_bool 0 n0 = false).
  { unfold Qlt_bool. apply negb_false_iff, Qle_bool_iff. lraQ. }
  assert (Hc : Qle_bool n1 0 = false).
  { destruct (Qle_bool n1 0) eqn:E; [|reflexivity].
    apply Qle_bool_iff in E. lraQ. }
  assert (Hd : Qeq_bool n0 0 = false).
  { destruct (Qeq_bool n0 0) eqn:E; [|reflexivity].
    apply Qeq_bool_iff in E. lraQ. }
  rewrite Ha, Hb, Hc, Hd.
  eexists. split; [reflexivity|].
  unfold Spec.zero_crossing. field. lraQ.
Qed.

(** C1.  The claim: a one-signed net-exposure sequence, or one of fewer
    than two points, gives [None].  The code: on two or more points it
    never answers [None] (the first difference is NaN and counts as a sign
    change), an all-positive curve gives its first strike, an all-negative
    one its second strike, and a single point raises [IndexError]; only the
    empty curve gives [None].  The all-positive curve [[10, 10]] that the
    aggregation itself makes of a snapshot gives [100.0]. *)
Theorem find_zero_gamma_level_one_signed (parse : string -> option float) :
  find_zero_gamma_level parse (curve [(100, 5); (110, 10)]) = Ok (Some (Fin 100))
  /\ find_zero_gamma_level parse (curve [(100, -5); (110, -10)])
     = Ok (Some (Fin 110))
  /\ find_zero_gamma_level parse (curve [(100, 5)]) = Raise IndexError
  /\ find_zero_gamma_level parse (curve []) = Ok None
  /\ (forall p0 p1 rest,
        find_zero_gamma_level parse (curve (p0 :: p1 :: rest)) <> Ok None)
  /\ Forall2 Qeq (map net_exposure (aggregateByStrike 100 positive None None))
               [10; 10]
  /\ zero_gamma_of parse positive = Ok (Some (Fin 100)).
Proof.
  repeat (split; [reflexivity|]).
  split; [|split].
  - intros p0 p1 rest. rewrite find_zero_gamma_level_two_points. discriminate.
  - repeat constructor.
  - reflexivity.
Qed.

(** C2.  The claim: the first adjacent pair of differing sign is located
    and the crossing is interpolated, [105.0] for strikes [[100, 110]] with
    net [[10, -10]].  The code: it interpolates on the first two points
    whatever their signs, and [np.interp], given the decreasing abscissae
    [[10, -10]], answers the last ordinate [110.0]; with net
    [[5, 10, -10]] at strikes [[100, 110, 120]] the pair of differing sign
    is the second one (crossing at [115]) and the code answers [100.0].
    The curve [[10, -10]] at strikes [[100, 110]] that the aggregation itself
    makes of a snapshot gives [110.0] as well. *)
Theorem find_zero_gamma_level_falling (parse : string -> option float) :
  find_zero_gamma_level parse (curve [(100, 10); (110, -10)])
  = Ok (Some (Fin 110))
  /\ Spec.zero_crossing 100 10 110 (-10) == 105
  /\ find_zero_gamma_level parse (curve [(100, 5); (110, 10); (120, -10)])
     = Ok (Some (Fin 100))
  /\ Spec.zero_crossing 110 10 120 (-10) == 115
  /\ Forall2 Qeq (map net_exposure (aggregateByStrike 100 falling None None))
               [10; -10]
  /\ zero_gamma_of parse falling = Ok (Some (Fin 110)).
Proof.
  repeat (split; [reflexivity|]).
  split; [repeat constructor|reflexivity].
Qed.

End ZeroGamma.

(* ================================================================== *)
(** * Frames of well-formed snapshots *)
(* ================================================================== *)

Module FrameFacts.
Import ZeroGamma.

Lemma empty_to_frame_cons (r : OptionRow) (l : list OptionRow) :
  empty (to_frame (r :: l)) = false.
Proof. reflexivity. Qed.


Lemma getcol_to_frame_strike (l : list OptionRow) :
  getcol (to_frame l) "strike" = Ok (map Flt (map (fun r => Fin (strike r)) l)).
Proof. unfold getcol; simpl; rewrite !map_map; reflexivity. Qed.

Lemma getcol_to_frame_gamma (l : list OptionRow) :
  getcol (to_frame l) "gamma" = Ok (map Flt (map (fun r => Fin (gamma r)) l)).
Proof. unfold getcol; simpl; rewrite !map_map; reflexivity. Qed.

Lemma getcol_to_frame_open_interest (l : list OptionRow) :
  getcol (to_frame l) "open_interest"
  = Ok (map Flt (map (fun r => Fin (open_interest r)) l)).
Proof. unfold getcol; simpl; rewrite !map_map; reflexivity. Qed.

Lemma getcol_to_frame_delta (l : list OptionRow) :
  getcol (to_frame l) "delta" = Ok (map Flt (map (fun r => Fin (delta r)) l)).
Proof. unfold getcol; simpl; rewrite !map_map; reflexivity. Qed.

Lemma getcol_to_frame_underlying_price (l : list OptionRow) :
  getcol (to_frame l) "underlying_price"
  = Ok (map Flt (map (fun r => Fin (underlying_price r)) l)).
Proof. unfold getcol; simpl; rewrite !map_map; reflexivity. Qed.

Lemma select_map {A B : Type} (p : A -> bool) (f : A -> B) (l : list A) :
  select (map p l) (map f l) = map f (filter p l).
Proof.
  induction l as [|a l IH]; [reflexivity|].
  simpl. destruct (p a); simpl; rewrite IH; reflexivity.
Qed.

Lemma loc_to_frame (p : OptionRow -> bool) (l : list OptionRow) :
  loc (to_frame l) (map p l) = to_frame (filter p l).
Proof. unfold loc, to_frame; simpl; rewrite select_map; reflexivity. Qed.

Lemma zip_with_map {A B C D : Type} (f : B -> C -> D) (g : A -> B) (h : A -> C)
    (l : list A) :
  zip_with f (map g l) (map h l) = map (fun a => f (g a) (h a)) l.
Proof. induction l as [|a l IH]; [reflexivity|]. simpl; rewrite IH; reflexivity. Qed.

Lemma sum_finite {A : Type} (f : A -> Q) (l : list A) :
  Pandas.sum (map (fun a => Fin (f a)) l) = Fin (Qsum (map f l)).
Proof.
  unfold Pandas.sum. f_equal. f_equal.
  induction l as [|a l IH]; [reflexivity|]. simpl; rewrite IH; reflexivity.
Qed.

End FrameFacts.

(* ================================================================== *)
(** * Near-spot net gamma exposure *)
(* ================================================================== *)

Module NetGEXFacts.
Import NetGEX FrameFacts ZeroGamma.

Section Compute.

Variable parse : string -> option float.
Variables (dir : string) (w m gs : Q) (ds : bool).
Variables (ts : list Py.datetime) (vals : list float).

Let self : NetGEX := mkNetGEX dir (Fin w) (Fin m) ds (Fin gs) ts vals.



End Compute.






End NetGEXFacts.

(* ================================================================== *)
(** * Directional gamma imbalance *)
(* ================================================================== *)

Module DGIFacts.
Import DGI FrameFacts ZeroGamma.

Lemma upd_rows_other (rs : list (label -> cell)) (k k' : label) (vs : Series) :
  label_eqb k k' = false ->
  map (fun r => r k') (upd_rows rs k vs) = map (fun r => r k') rs.
Proof.
  intro Hk. revert vs.
  induction rs as [|r rs IH]; intros [|v vs]; try reflexivity.
  simpl. unfold upd at 1. rewrite Hk, IH. reflexivity.
Qed.

Lemma getcol_setcol_gex_strike (l : list OptionRow) (vs : Series) :
  getcol (setcol (to_frame l) "gex" vs) "strike"
  = Ok (map Flt (map (fun r => Fin (strike r)) l)).
Proof.
  unfold getcol.
  change (has_column (setcol (to_frame l) "gex" vs) "strike") with true.
  cbn [setcol rows].
  rewrite upd_rows_other by reflexivity.
  simpl. rewrite !map_map. reflexivity.
Qed.

(** [np.clip] on finite values agrees with [clamp] and stays in range. *)
Lemma clip_finite (x lo hi : Q) :
  lo <= hi ->
  exists y, clip (Fin x) (Fin lo) (Fin hi) = Fin y
            /\ y == Spec.clamp x lo hi /\ lo <= y /\ y <= hi.
Proof.
  intro Hle. unfold clip, Float.maximum, Float.minimum, Spec.clamp, Qlt_bool.
  destruct (Qle_bool x lo) eqn:H1.
  - apply Qle_bool_iff in H1.
    destruct (Qle_bool lo hi) eqn:H2.
    + exists lo. split; [reflexivity|].
      destruct (Qle_bool lo x) eqn:H3; simpl.
      * apply Qle_bool_iff in H3.
        destruct (Qle_bool x hi) eqn:H4; simpl.
        -- repeat split; lraQ.
        -- assert (~ x <= hi) by (rewrite <- Qle_bool_iff; congruence). lraQ.
      * repeat split; lraQ.
    + assert (~ lo <= hi) by (rewrite <- Qle_bool_iff; congruence). lraQ.
  - assert (Hx : ~ x <= lo) by (rewrite <- Qle_bool_iff; congruence).
    destruct (Qle_bool lo x) eqn:H3; simpl.
    + destruct (Qle_bool x hi) eqn:H4; simpl.
      * apply Qle_bool_iff in H4. exists x. repeat split; lraQ.
      * exists hi. repeat split; lraQ.
    + assert (~ lo <= x) by (rewrite <- Qle_bool_iff; congruence). lraQ.
Qed.

Section Compute.

Variables (dir : string) (lo hi : Q).

Let self : DirectionalGammaImbalance := mkDGI dir (Fin lo) (Fin hi).

(** The code on a well-formed snapshot, step by step. *)
Lemma calculate_dgi_to_frame (snapshot : list OptionRow) :
  _calculate_dgi self (to_frame snapshot)
  = match Spec.spot_of snapshot with
    | None => Ok (Fin 0)
    | Some spot =>
        let filtered := filter (Spec.in_delta_range lo hi) snapshot in
        match filtered with
        | [] => Ok (Fin 0)
        | _ :: _ =>
            let above := Spec.sum_above spot filtered in
            let below := Spec.sum_below spot filtered in
            if Qeq_bool (Spec.denom spot filtered) 0 then Ok (Fin 0)
            else Ok (clip (Fin ((above - below) / Spec.denom spot filtered))
                          (Fin (-1)) (Fin 1))
        end
    end.
Proof.
  unfold _calculate_dgi.
  destruct snapshot as [|first rest]; [reflexivity|].
  rewrite empty_to_frame_cons.
  change (has_column (to_frame (first :: rest)) "underlying_price") with true.
  cbn [negb orb Spec.spot_of].
  set (snapshot := first :: rest).
  set (spot := underlying_price first).
  rewrite getcol_to_frame_underlying_price, getcol_to_frame_delta.
  cbn [bind].
  change (iloc (map Flt (map (fun r => Fin (underlying_price r)) snapshot)) 0)
    with (Ok (Flt (Fin spot))).
  cbn [bind]. rewrite numeric_floats. cbn [bind].
  rewrite !map_map, zip_with_map.
  rewrite (loc_to_frame
             (fun a => (Float.abs (Fin (delta a)) >=? min_abs_delta self)%flt
                       && (Float.abs (Fin (delta a)) <=? max_abs_delta self)%flt)).
  change (filter _ snapshot) with (filter (Spec.in_delta_range lo hi) snapshot).
  cbv zeta.
  destruct (filter (Spec.in_delta_range lo hi) snapshot) as [|f0 filtered] eqn:Hf;
    [reflexivity|].
  rewrite empty_to_frame_cons.
  set (fl := f0 :: filtered).
  rewrite getcol_to_frame_gamma, getcol_to_frame_open_interest.
  cbn [bind]. rewrite !numeric_floats.
  cbn [bind cell_sq numeric_cell].
  rewrite getcol_setcol_gex_strike.
  cbn [bind]. rewrite numeric_floats. cbn [bind].
  rewrite !map_map, zip_with_map, !map_map.
  rewrite (select_map (fun x => (Fin (strike x) >? Fin spot)%flt)).
  rewrite (select_map (fun x => (Fin (strike x) <? Fin spot)%flt)).
  change (fun x : OptionRow =>
            (- Fin (gamma x) * Fin (open_interest x) * Float.sq (Fin spot)
             * Fin 0.01)%flt)
    with (fun x : OptionRow => Fin (Spec.signed_gex spot x)).
  rewrite !sum_finite.
  change (Qsum (map (Spec.signed_gex spot)
                    (filter (fun x => (Fin (strike x) >? Fin spot)%flt) fl)))
    with (Spec.sum_above spot fl).
  change (Qsum (map (Spec.signed_gex spot)
                    (filter (fun x => (Fin (strike x) <? Fin spot)%flt) fl)))
    with (Spec.sum_below spot fl).
  change ((Float.abs (Fin (Spec.sum_above spot fl))
           + Float.abs (Fin (Spec.sum_below spot fl)) ==? Fin 0)%flt)
    with (Qeq_bool (Spec.denom spot fl) 0).
  destruct (Qeq_bool (Spec.denom spot fl) 0) eqn:Hd; [reflexivity|].
  f_equal. f_equal.
  unfold Float.div, Float.sub, Float.add, Float.abs, lift2.
  fold (Spec.denom spot fl). rewrite Hd. reflexivity.
Qed.

End Compute.

Lemma filter_none {A : Type} (p : A -> bool) (l : list A) :
  (forall a, In a l -> p a = false) -> filter p l = [].
Proof.
  induction l as [|a l IH]; intro H; [reflexivity|].
  simpl. rewrite (H a (or_introl eq_refl)).
  apply IH. intros b Hb. apply H. right; exact Hb.
Qed.

(** C3.  On every snapshot [_calculate_dgi] keeps the rows with [|delta|]
    in [[min_abs_delta, max_abs_delta]], gives each the signed exposure
    [-gamma * open_interest * spot^2 * 0.01], sums the rows with
    [strike > spot] and those with [strike < spot] (a row at [strike == spot]
    enters neither sum) and returns
    [clamp((sum_above - sum_below) / (|sum_above| + |sum_below|), -1, 1)],
    or [0.0] when that denominator is zero; when every kept row sits at
    [strike == spot] the answer is [0.0]. *)
Theorem calculate_dgi_spec
    (dir : string) (lo hi : Q) (snapshot : list OptionRow) :
  let self := mkDGI dir (Fin lo) (Fin hi) in
  (exists v,
      _calculate_dgi self (to_frame snapshot) = Ok (Fin v)
      /\ v == Spec.computeDirectionalGammaImbalance snapshot lo hi)
  /\ (forall spot,
        Spec.spot_of snapshot = Some spot ->
        (forall row,
            In row (filter (Spec.in_delta_range lo hi) snapshot) ->
            strike row == spot) ->
        _calculate_dgi self (to_frame snapshot) = Ok (Fin 0)).
Proof.
  intro self. unfold self. split.
  - rewrite calculate_dgi_to_frame.
    unfold Spec.computeDirectionalGammaImbalance.
    destruct (Spec.spot_of snapshot) as [spot|];
      [|exists 0; split; reflexivity].
    cbv zeta.
    destruct (filter (Spec.in_delta_range lo hi) snapshot) as [|f0 fl] eqn:Hf.
    + exists 0; split; reflexivity.
    + destruct (Qeq_bool (Spec.denom spot (f0 :: fl)) 0).
      * exists 0; split; reflexivity.
      * destruct (clip_finite
                    ((Spec.sum_above spot (f0 :: fl)
                      - Spec.sum_below spot (f0 :: fl))
                     / Spec.denom spot (f0 :: fl)) (-1) 1) as (y & Hy & Heq & _).
        { lraQ. }
        exists y. rewrite Hy. split; [reflexivity|exact Heq].
  - intros spot Hspot Hall.
    rewrite calculate_dgi_to_frame, Hspot. cbv zeta.
    destruct (filter (Spec.in_delta_range lo hi) snapshot) as [|f0 fl] eqn:Hf;
      [reflexivity|].
    assert (Ha : filter (fun row => Qlt_bool spot (strike row)) (f0 :: fl) = []).
    { apply filter_none. intros row Hin. specialize (Hall row Hin).
      unfold Qlt_bool. apply negb_false_iff, Qle_bool_iff. lraQ. }
    assert (Hb : filter (fun row => Qlt_bool (strike row) spot) (f0 :: fl) = []).
    { apply filter_none. intros row Hin. specialize (Hall row Hin).
      unfold Qlt_bool. apply negb_false_iff, Qle_bool_iff. lraQ. }
    unfold Spec.denom, Spec.sum_above, Spec.sum_below.
    rewrite Ha, Hb. reflexivity.
Qed.

Definition at_spot_call : OptionRow := mkRow 100 CALL 0.01 1000 0.5 100.
Definition at_spot_put : OptionRow := mkRow 100 PUT 0.02 500 (-0.5) 100.

Lemma calculate_dgi_spec_witness :
  Spec.spot_of [at_spot_call; at_spot_put] = Some 100
  /\ (forall row,
        In row (filter (Spec.in_delta_range 0.15 0.55) [at_spot_call; at_spot_put]) ->
        strike row == 100)
  /\ _calculate_dgi default (to_frame [at_spot_call; at_spot_put]) = Ok (Fin 0).
Proof.
  assert (H : forall row,
             In row (filter (Spec.in_delta_range 0.15 0.55)
                            [at_spot_call; at_spot_put]) ->
             strike row == 100).
  { simpl. intros row [<-|[<-|[]]]; reflexivity. }
  split; [reflexivity|]. split; [exact H|].
  exact (proj2 (calculate_dgi_spec "data" 0.15 0.55 [at_spot_call; at_spot_put])
               100 eq_refl H).
Defined.

End DGIFacts.

(* ================================================================== *)
(** * The snapshot time-series loader *)
(* ================================================================== *)

Module LoaderFacts.
Import Py NetGEX LoaderSpec.

Section Environment.

Variable str_to_float : string -> option float.
Variable glob : string -> string -> list string.
Variable read_csv : string -> string -> result DataFrame.
Variable strptime : string -> string -> result datetime.

Local Abbreviation process_file := (process_file str_to_float read_csv strptime).
Local Abbreviation for_each_file := (for_each_file str_to_float read_csv strptime).
Local Abbreviation load_and_calculate :=
  (load_and_calculate str_to_float glob read_csv strptime).
Local Abbreviation entries := (entries str_to_float read_csv strptime).
Local Abbreviation warnings := (warnings str_to_float read_csv strptime).

(** Appending to the series changes no parameter the loop body reads. *)
Lemma process_file_append (self : NetGEX) (t : datetime) (v : float) (f : string) :
  process_file (append self t v) f = process_file self f.
Proof. reflexivity. Qed.

Lemma entries_append (self : NetGEX) (t : datetime) (v : float) (files : list string) :
  entries (append self t v) files = entries self files.
Proof.
  induction files as [|f rest IH]; [reflexivity|].
  cbn [LoaderSpec.entries]. rewrite IH. reflexivity.
Qed.

Lemma warnings_append (self : NetGEX) (t : datetime) (v : float) (files : list string) :
  warnings (append self t v) files = warnings self files.
Proof.
  induction files as [|f rest IH]; [reflexivity|].
  cbn [LoaderSpec.warnings]. rewrite IH. reflexivity.
Qed.

(** The object after the loop: the same parameters, the series extended. *)
Definition extended (self : NetGEX) (es : list (datetime * float)) : NetGEX :=
  {| data_dir := data_dir self;
     strike_width := strike_width self;
     multiplier := multiplier self;
     dealer_short := dealer_short self;
     gamma_scale := gamma_scale self;
     timestamps := (timestamps self ++ map fst es)%list;
     net_gex_values := (net_gex_values self ++ map snd es)%list |}.

Lemma extended_nil (self : NetGEX) : extended self [] = self.
Proof. destruct self; unfold extended; simpl; rewrite !app_nil_r; reflexivity. Qed.

Lemma extended_cons (self : NetGEX) (t : datetime) (v : float)
    (es : list (datetime * float)) :
  extended (append self t v) es = extended self ((t, v) :: es).
Proof. unfold extended, append; simpl; rewrite <- !app_assoc; reflexivity. Qed.

(** No exception leaves the loop: every file is attempted, each one adds an
    entry, a warning, or nothing. *)
Lemma for_each_file_spec (files : list string) :
  forall (self : NetGEX) (stdout : list string),
    for_each_file self stdout files
    = (extended self (entries self files), (stdout ++ warnings self files)%list).
Proof.
  induction files as [|f rest IH]; intros self stdout.
  - cbn. rewrite extended_nil, app_nil_r. reflexivity.
  - cbn [NetGEX.for_each_file LoaderSpec.entries LoaderSpec.warnings].
    destruct (process_file self f) as [[[t v]|]|e].
    + rewrite IH, entries_append, warnings_append, extended_cons. reflexivity.
    + apply IH.
    + rewrite IH, <- app_assoc. reflexivity.
Qed.

Lemma sorted_nil_iff (l : list string) : sorted l = [] <-> l = [].
Proof.
  split; intro H.
  - apply Permutation_nil. rewrite <- H.
    apply Permutation_sym, StringSort.Permuted_sort.
  - subst l. reflexivity.
Qed.

Lemma is_nil_true {A : Type} (l : list A) : is_nil l = true <-> l = [].
Proof. destruct l; split; intro H; try reflexivity; discriminate. Qed.

(** [load_and_calculate], case by case. *)
Lemma load_and_calculate_cases
    (self : NetGEX) (symbol expirationFilter : string) (sampleDate : option string) :
  let matched := glob (data_dir self) (pattern symbol expirationFilter sampleDate) in
  let es := entries self (sorted matched) in
  load_and_calculate self (Some symbol) (Some expirationFilter) sampleDate
  = match matched with
    | [] => ([], Raise (NotFound (data_dir self) symbol expirationFilter))
    | _ :: _ =>
        (warnings self (sorted matched),
         match (timestamps self ++ map fst es)%list with
         | [] => Raise NoValidData
         | _ :: _ => Ok (extended self es)
         end)
    end.
Proof.
  intro matched. cbv zeta. unfold NetGEX.load_and_calculate.
  fold (pattern symbol expirationFilter sampleDate). fold matched.
  clearbody matched.
  destruct (is_nil (sorted matched)) eqn:Hnil.
  - apply is_nil_true in Hnil. apply (proj1 (sorted_nil_iff matched)) in Hnil.
    subst matched.
    reflexivity.
  - destruct matched as [|f0 rest] eqn:Hm; [discriminate|].
    rewrite for_each_file_spec.
    set (es := entries self (sorted (f0 :: rest))). cbn [app].
    change (timestamps (extended self es))
      with (timestamps self ++ map fst es)%list.
    destruct (timestamps self ++ map fst es)%list; reflexivity.
Qed.

Lemma warning_mentions_file (f : string) (e : exn) : mentions (warning f e) f.
Proof.
  exists "Warning: Error processing ", (": " ++ str_exn e). reflexivity.
Qed.

Lemma warning_logged (self : NetGEX) (files : list string) (f : string) (e : exn) :
  In f files -> process_file self f = Raise e ->
  In (warning f e) (warnings self files).
Proof.
  induction files as [|g rest IH]; intros Hin Hf; [contradiction|].
  cbn [LoaderSpec.warnings].
  destruct Hin as [->|Hin].
  - rewrite Hf. left; reflexivity.
  - destruct (process_file self g) as [[?|]|?]; [| |right]; apply IH; assumption.
Qed.

(** The entries are those of the processed files, one each, in the order
    of the files. *)
Lemma one_entry_per_processed_file (self : NetGEX) (files : list string) :
  Forall2 (fun e f => process_file self f = Ok (Some e))
          (entries self files)
          (filter (processed str_to_float read_csv strptime self) files).
Proof.
  induction files as [|f rest IH]; [constructor|].
  cbn [LoaderSpec.entries filter]. unfold processed at 1.
  destruct (process_file self f) as [[e|]|?] eqn:Hf;
    [constructor; assumption|assumption|assumption].
Qed.

(** What "successfully processed" means for one file. *)
Lemma process_file_entry (self : NetGEX) (f : string) (t : datetime) (v : float) :
  process_file self f = Ok (Some (t, v)) <->
  exists parts2 parts3 frame,
    (4 <= List.length (split "_" (stem f)))%nat
    /\ nth 2 (split "_" (stem f)) "" = parts2
    /\ nth 3 (split "_" (stem f)) "" = parts3
    /\ strptime (parts2 ++ "_" ++ parts3) "%Y-%m-%d_%H-%M-%S" = Ok t
    /\ read_csv (data_dir self) f = Ok frame
    /\ _compute_net_gex_near_spot str_to_float self frame = Ok v.
Proof.
  unfold NetGEX.process_file.
  destruct (4 <=? List.length (split "_" (stem f)))%nat eqn:Hlen.
  - apply Nat.leb_le in Hlen. split.
    + intro H.
      destruct (strptime _ _) as [t'|] eqn:Ht; [|discriminate].
      destruct (read_csv _ _) as [frame|] eqn:Hr; [|discriminate].
      cbn [bind] in H.
      destruct (_compute_net_gex_near_spot str_to_float self frame)
        as [v'|] eqn:Hc; [|discriminate].
      cbn [bind] in H. injection H as -> ->.
      exists (nth 2 (split "_" (stem f)) ""), (nth 3 (split "_" (stem f)) ""), frame.
      repeat (split; [solve [assumption | reflexivity]|]). assumption.
    + intros (p2 & p3 & frame & _ & <- & <- & Ht & Hr & Hc).
      rewrite Ht. cbn [bind]. rewrite Hr. cbn [bind]. rewrite Hc. reflexivity.
  - apply Nat.leb_gt in Hlen. split; [discriminate|].
    intros (p2 & p3 & frame & Hge & _). lia.
Qed.

End Environment.

(** C7.  [load_and_calculate] raises the missing-argument error when
    [symbol] or [expiration_filter] is [None], the not-found error when the
    discovery pattern matches no file, and the no-valid-data error when,
    every matched file having been attempted, the series is still empty; in
    every other case it returns the object with its series and raises
    nothing.  (Python raises all three as [ValueError]; the messages tell
    them apart.) *)
Theorem load_and_calculate_errors
    (str_to_float : string -> option float)
    (glob : string -> string -> list string)
    (read_csv : string -> string -> result DataFrame)
    (strptime : string -> string -> result datetime)
    (self : NetGEX) (symbol expirationFilter : string)
    (sampleDate : option string) :
  let load := load_and_calculate str_to_float glob read_csv strptime self in
  let matched := glob (data_dir self) (pattern symbol expirationFilter sampleDate) in
  let es := entries str_to_float read_csv strptime self (sorted matched) in
  let series := (timestamps self ++ map fst es)%list in
  (forall e, snd (load None e sampleDate) = Raise InvalidArgument_symbol)
  /\ snd (load (Some symbol) None sampleDate) = Raise InvalidArgument_expiration
  /\ (matched = [] ->
      snd (load (Some symbol) (Some expirationFilter) sampleDate)
      = Raise (NotFound (data_dir self) symbol expirationFilter))
  /\ (matched <> [] -> series = [] ->
      snd (load (Some symbol) (Some expirationFilter) sampleDate)
      = Raise NoValidData)
  /\ (matched <> [] -> series <> [] ->
      snd (load (Some symbol) (Some expirationFilter) sampleDate)
      = Ok (extended self es)).
Proof.
  intros load matched es series.
  split; [reflexivity|]. split; [reflexivity|].
  unfold load. rewrite load_and_calculate_cases.
  fold matched. cbv zeta. fold es. fold series.
  split; [|split].
  - intro Hm. rewrite Hm. reflexivity.
  - intros Hm Hs. destruct matched; [contradiction|]. rewrite Hs. reflexivity.
  - intros Hm Hs. destruct matched; [contradiction|].
    destruct series; [contradiction|]. reflexivity.
Qed.

Import LoaderExample.

Definition read_nothing (dir name : string) : result DataFrame :=
  Raise (ValueError "No columns to parse from file").

Lemma load_and_calculate_errors_witness :
  snd (load_and_calculate no_number listing read_all LoaderExample.strptime
         default (Some "$SPX") (Some "2025-12-25") None)
  = Raise (NotFound "data" "$SPX" "2025-12-25")
  /\ snd (load_and_calculate no_number listing read_nothing LoaderExample.strptime
            default (Some "$SPX") (Some "2025-12-24") None)
     = Raise NoValidData
  /\ snd (load_and_calculate no_number listing read_all LoaderExample.strptime
            default (Some "$SPX") (Some "2025-12-24") None)
     = Ok (extended default
             [(at_time 9 0 0, Fin (-200000.00000000));
              (at_time 9 5 0, Fin (-200000.00000000));
              (at_time 9 30 0, Fin (-200000.00000000))]).
Proof.
  split; [|split].
  - apply (proj1 (proj2 (proj2 (load_and_calculate_errors
             no_number listing read_all LoaderExample.strptime
             default "$SPX" "2025-12-25" None)))).
    reflexivity.
  - apply (proj1 (proj2 (proj2 (proj2 (load_and_calculate_errors
             no_number listing read_nothing LoaderExample.strptime
             default "$SPX" "2025-12-24" None))))).
    + discriminate.
    + reflexivity.
  - apply (proj2 (proj2 (proj2 (proj2 (load_and_calculate_errors
             no_number listing read_all LoaderExample.strptime
             default "$SPX" "2025-12-24" None))))).
    + discriminate.
    + discriminate.
Defined.

(** C8.  An exception raised while one file is parsed, read or computed
    is caught: a warning naming the file is printed, the file adds no entry
    and the remaining files are still processed.  The series gains exactly
    one entry per file processed without error, in the ascending
    (code-point) order of the file names.  Files stamped 09-00-00, 09-30-00
    and 09-05-00 give entries ordered 09-00-00, 09-05-00, 09-30-00; when one
    of the three has a corrupt [gamma] column the series has length 2 and
    the warning names that file. *)
Theorem load_and_calculate_series :
  (forall (str_to_float : string -> option float)
          (glob : string -> string -> list string)
          (read_csv : string -> string -> result DataFrame)
          (strptime : string -> string -> result datetime)
          (self : NetGEX) (symbol expirationFilter : string)
          (sampleDate : option string),
      let load :=
        load_and_calculate str_to_float glob read_csv strptime self
          (Some symbol) (Some expirationFilter) sampleDate in
      let matched :=
        glob (data_dir self) (pattern symbol expirationFilter sampleDate) in
      let files := sorted matched in
      let es := entries str_to_float read_csv strptime self files in
      Sorted (fun a b => String.leb a b = true) files
      /\ Permutation matched files
      /\ fst load = warnings str_to_float read_csv strptime self files
      /\ (forall f e,
            In f files ->
            process_file str_to_float read_csv strptime self f = Raise e ->
            In (warning f e) (fst load) /\ mentions (warning f e) f)
      /\ (forall self',
            snd load = Ok self' ->
            timestamps self' = (timestamps self ++ map fst es)%list
            /\ net_gex_values self' = (net_gex_values self ++ map snd es)%list)
      /\ Forall2
           (fun e f =>
              process_file str_to_float read_csv strptime self f = Ok (Some e))
           es (filter (processed str_to_float read_csv strptime self) files))
  /\ (exists self',
        snd (load_and_calculate no_number listing read_all LoaderExample.strptime
               default (Some "$SPX") (Some "2025-12-24") None) = Ok self'
        /\ timestamps self' = [at_time 9 0 0; at_time 9 5 0; at_time 9 30 0])
  /\ (exists self',
        load_and_calculate no_number listing read_one_corrupt LoaderExample.strptime
          default (Some "$SPX") (Some "2025-12-24") None
        = ([warning file_0905 TypeError], Ok self')
        /\ List.length (timestamps self') = 2%nat
        /\ List.length (net_gex_values self') = 2%nat
        /\ mentions (warning file_0905 TypeError) file_0905).
Proof.
  split; [|split].
  - intros str_to_float glob read_csv strptime self symbol expirationFilter
           sampleDate load matched files es.
    assert (Hload : load
                    = match matched with
                      | [] => ([], Raise (NotFound (data_dir self) symbol
                                                    expirationFilter))
                      | _ :: _ =>
                          (warnings str_to_float read_csv strptime self files,
                           match (timestamps self ++ map fst es)%list with
                           | [] => Raise NoValidData
                           | _ :: _ => Ok (extended self es)
                           end)
                      end)
      by apply load_and_calculate_cases.
    assert (Hlog : fst load = warnings str_to_float read_csv strptime self files).
    { rewrite Hload. unfold files. destruct matched; reflexivity. }
    split; [apply StringSort.Sorted_sort|].
    split; [apply StringSort.Permuted_sort|].
    split; [exact Hlog|].
    split; [|split].
    + intros f e Hin Hf. split.
      * rewrite Hlog. apply warning_logged; assumption.
      * apply warning_mentions_file.
    + intros self' Hok. rewrite Hload in Hok.
      destruct matched; [discriminate|]. cbn [snd] in Hok.
      destruct (timestamps self ++ map fst es)%list eqn:Hs; [discriminate|].
      injection Hok as <-. cbn [extended timestamps net_gex_values].
      rewrite Hs. split; reflexivity.
    + apply one_entry_per_processed_file.
  - eexists. split; vm_compute; reflexivity.
  - eexists. split; [vm_compute; reflexivity|].
    split; [reflexivity|]. split; [reflexivity|].
    apply warning_mentions_file.
Qed.

Lemma load_and_calculate_series_witness :
  (In (warning file_0905 TypeError)
      (fst (load_and_calculate no_number listing read_one_corrupt
              LoaderExample.strptime default (Some "$SPX") (Some "2025-12-24")
              None))
   /\ mentions (warning file_0905 TypeError) file_0905)
  /\ timestamps
       (extended default
          [(at_time 9 0 0, Fin (-200000.00000000));
           (at_time 9 30 0, Fin (-200000.00000000))])
     = [at_time 9 0 0; at_time 9 30 0].
Proof.
  split.
  - apply (proj1 (proj2 (proj2 (proj2
             (proj1 load_and_calculate_series
                no_number listing read_one_corrupt LoaderExample.strptime
                default "$SPX" "2025-12-24" None))))).
    + vm_compute. right; left; reflexivity.
    + vm_compute. reflexivity.
  - apply (proj1 (proj2 (proj2 (proj2 (proj2
             (proj1 load_and_calculate_series
                no_number listing read_one_corrupt LoaderExample.strptime
                default "$SPX" "2025-12-24" None))))) _).
    vm_compute. reflexivity.
Defined.

End LoaderFacts.

(* ================================================================== *)
(** * Black-Scholes gamma *)
(* ================================================================== *)

Module BlackScholesFacts.
Import BlackScholes.

Local Open Scope R_scope.

Lemma np_div_defined (x y : R) : y <> 0 -> np_div x y = Some (x / y).
Proof. intro H. unfold np_div. destruct (Req_dec_T y 0); [contradiction|reflexivity]. Qed.

Lemma np_log_defined (x : R) : 0 < x -> np_log x = Some (ln x).
Proof. intro H. unfold np_log. destruct (Rlt_dec 0 x); [reflexivity|contradiction]. Qed.

Lemma np_sqrt_defined (x : R) : 0 <= x -> np_sqrt x = Some (sqrt x).
Proof. intro H. unfold np_sqrt. destruct (Rle_dec 0 x); [reflexivity|contradiction]. Qed.

Lemma epsilon_pos : 0 < epsilon.
Proof. unfold epsilon. lraR. Qed.

Lemma floor_at_pos (x : R) : 0 < floor_at x.
Proof.
  unfold floor_at. apply Rlt_le_trans with epsilon; [apply epsilon_pos|apply Rmax_r].
Qed.

Lemma sqrt_2pi_pos : 0 < sqrt (2 * PI).
Proof. apply sqrt_lt_R0. pose proof PI_RGT_0. lraR. Qed.

Lemma norm_pdf_defined (x : R) : norm_pdf x = Some (normPdf x).
Proof.
  unfold norm_pdf, normPdf.
  replace (2.0 * PI) with (2 * PI) by lraR.
  rewrite np_sqrt_defined by (pose proof PI_RGT_0; lraR).
  cbn [and_then].
  rewrite np_div_defined by (pose proof sqrt_2pi_pos; lraR).
  do 2 f_equal. f_equal. ring.
Qed.

Lemma normPdf_pos (x : R) : 0 < normPdf x.
Proof.
  unfold normPdf. apply Rdiv_lt_0_compat; [apply exp_pos|apply sqrt_2pi_pos].
Qed.

(** The code, with every intermediate result finite. *)
Lemma bs_gamma_defined (s k t sigma r q : R) :
  bs_gamma s k t sigma r q
  = Some (bsGamma_formula (floor_at s) (floor_at k) (floor_at t)
                          (floor_at sigma) r q).
Proof.
  unfold bs_gamma, bsGamma_formula. fold epsilon. cbv zeta.
  fold (floor_at s) (floor_at k) (floor_at t) (floor_at sigma).
  pose proof (floor_at_pos s) as Hs.
  pose proof (floor_at_pos k) as Hk.
  pose proof (floor_at_pos t) as Ht.
  pose proof (floor_at_pos sigma) as Hv.
  pose proof (sqrt_lt_R0 _ Ht) as Hrt.
  rewrite np_div_defined by lraR. cbn [and_then].
  rewrite np_log_defined by (apply Rdiv_lt_0_compat; assumption).
  cbn [and_then].
  rewrite np_sqrt_defined by lraR. cbn [and_then].
  rewrite np_div_defined
    by (apply Rgt_not_eq, Rmult_lt_0_compat; assumption).
  cbn [and_then]. rewrite norm_pdf_defined. cbn [and_then].
  rewrite np_div_defined; [reflexivity|].
  apply Rgt_not_eq. repeat apply Rmult_lt_0_compat; assumption.
Qed.

End BlackScholesFacts.

(* ================================================================== *)
(** * Aggregation by strike *)
(* ================================================================== *)

Module GEXFacts.
Import GEX AggregateSpec FrameFacts ZeroGamma DGIFacts.

(** ** Column assignment *)

Lemma upd_rows_same (rs : list (label -> cell)) (name : string) (vs : Series) :
  List.length vs = List.length rs ->
  map (fun r => r (Str name)) (upd_rows rs (Str name) vs) = vs.
Proof.
  revert vs. induction rs as [|r rs IH]; intros [|v vs] Hlen;
    try reflexivity; try discriminate.
  simpl. unfold upd at 1. cbn [label_eqb]. rewrite String.eqb_refl.
  f_equal. apply IH. simpl in Hlen. lia.
Qed.

Lemma upd_rows_map {A : Type} (f : A -> label -> cell) (g : A -> cell)
    (k : label) (l : list A) :
  upd_rows (map f l) k (map g l) = map (fun a => upd (f a) k (g a)) l.
Proof. induction l as [|a l IH]; [reflexivity|]. simpl; rewrite IH; reflexivity. Qed.

Lemma existsb_snoc {A : Type} (p : A -> bool) (l : list A) (a : A) :
  existsb p (l ++ [a])%list = existsb p l || p a.
Proof. rewrite existsb_app. simpl. rewrite orb_false_r. reflexivity. Qed.

Lemma has_column_setcol_other (d : DataFrame) (n m : string) (vs : Series) :
  String.eqb m n = false ->
  has_column (setcol d n vs) m = has_column d m.
Proof.
  intro Hne. unfold setcol. unfold has_column. cbn [columns].
  destruct (existsb (label_eqb (Str n)) (columns d)); [reflexivity|].
  rewrite existsb_snoc. cbn [label_eqb]. rewrite Hne, orb_false_r. reflexivity.
Qed.

Lemma has_column_setcol_same (d : DataFrame) (n : string) (vs : Series) :
  has_column (setcol d n vs) n = true.
Proof.
  unfold setcol. unfold has_column. cbn [columns].
  destruct (existsb (label_eqb (Str n)) (columns d)) eqn:H; [exact H|].
  rewrite existsb_snoc. cbn [label_eqb]. rewrite String.eqb_refl.
  apply orb_true_r.
Qed.

Lemma getcol_setcol_same (d : DataFrame) (n : string) (vs : Series) :
  List.length vs = len d -> getcol (setcol d n vs) n = Ok vs.
Proof.
  intro Hlen. unfold getcol. rewrite has_column_setcol_same.
  cbn [setcol rows]. rewrite upd_rows_same by exact Hlen. reflexivity.
Qed.

Lemma getcol_setcol_other (d : DataFrame) (n m : string) (vs : Series) :
  String.eqb m n = false ->
  getcol (setcol d n vs) m = getcol d m.
Proof.
  intro Hne. unfold getcol. rewrite has_column_setcol_other by exact Hne.
  cbn [setcol rows]. rewrite upd_rows_other; [reflexivity|].
  cbn [label_eqb]. rewrite String.eqb_sym. exact Hne.
Qed.

Lemma upd_rows_length (rs : list (label -> cell)) (k : label) (vs : Series) :
  List.length (upd_rows rs k vs) = List.length rs.
Proof.
  revert vs. induction rs as [|r rs IH]; intros [|v vs]; try reflexivity.
  simpl. rewrite IH. reflexivity.
Qed.

Lemma len_setcol (d : DataFrame) (n : string) (vs : Series) :
  len (setcol d n vs) = len d.
Proof. unfold len, setcol. cbn [rows]. apply upd_rows_length. Qed.

Lemma getcol_length (d : DataFrame) (n : string) (vs : Series) :
  getcol d n = Ok vs -> List.length vs = len d.
Proof.
  unfold getcol. destruct (has_column d n); [|discriminate].
  intro H. injection H as <-. apply length_map.
Qed.

(** Writing a column back leaves every column as it was. *)
Lemma getcol_setcol_id (d : DataFrame) (n : string) (vs : Series) :
  getcol d n = Ok vs ->
  forall m, getcol (setcol d n vs) m = getcol d m.
Proof.
  intros Hn m. destruct (String.eqb m n) eqn:E.
  - apply String.eqb_eq in E. subst m.
    rewrite getcol_setcol_same by (eapply getcol_length; eassumption).
    symmetry. exact Hn.
  - apply getcol_setcol_other. exact E.
Qed.

Section WithParser.

Variable parse : string -> option float.

Lemma to_numeric_coerce_floats (l : list float) :
  to_numeric_coerce parse (map Flt l) = map Flt l.
Proof. unfold to_numeric_coerce. rewrite map_map. reflexivity. Qed.

(** Coercion of columns that already hold numbers changes nothing. *)
Lemma coerce_columns_numeric (cols : list string) :
  forall d : DataFrame,
    (forall c, In c cols -> exists l, getcol d c = Ok (map Flt l)) ->
    exists d',
      coerce_columns parse d cols = Ok d'
      /\ len d' = len d
      /\ forall m, getcol d' m = getcol d m.
Proof.
  induction cols as [|c cols IH]; intros d Hnum.
  - exists d. repeat split; reflexivity.
  - destruct (Hnum c (or_introl eq_refl)) as [l Hc].
    cbn [coerce_columns]. rewrite Hc. cbn [bind].
    rewrite to_numeric_coerce_floats.
    pose proof (getcol_setcol_id d c (map Flt l) Hc) as Hid.
    destruct (IH (setcol d c (map Flt l))) as (d' & Hd' & Hlen & Hget).
    { intros c' Hin. rewrite Hid. apply Hnum. right; exact Hin. }
    exists d'. split; [exact Hd'|]. split.
    + rewrite Hlen. apply len_setcol.
    + intro m. rewrite Hget. apply Hid.
Qed.

Definition entry_of (row : OptionRow) : entry :=
  mkEntry (Flt (Fin (strike row)))
          (Str (type_name (contract_type row)))
          (Fin (legacy_exposure 100 row)).

Lemma getcol_to_frame_contract_type (l : list OptionRow) :
  getcol (to_frame l) "contract_type"
  = Ok (map (fun r => Str (type_name (contract_type r))) l).
Proof. unfold getcol; simpl; rewrite !map_map; reflexivity. Qed.

(** [_prepare_data] on a well-formed snapshot: the columns the aggregation
    reads. *)
Lemma prepare_data_to_frame (dir : string) (snapshot : list OptionRow) :
  exists d,
    _prepare_data parse (mkGEX dir (to_frame snapshot)) = Ok (mkGEX dir d)
    /\ getcol d "strike" = Ok (map key_index (map entry_of snapshot))
    /\ getcol d "contract_type" = Ok (map key_column (map entry_of snapshot))
    /\ getcol d "gex" = Ok (map Flt (map value (map entry_of snapshot))).
Proof.
  unfold _prepare_data. cbn [df GEX.data_dir].
  destruct (coerce_columns_numeric numeric_columns (to_frame snapshot))
    as (d & Hd & Hlen & Hget).
  { intros c [<-|[<-|[<-|[<-|[]]]]]; eexists.
    - apply getcol_to_frame_strike.
    - apply getcol_to_frame_gamma.
    - apply getcol_to_frame_open_interest.
    - apply getcol_to_frame_underlying_price. }
  rewrite Hd. cbn [bind]. rewrite !Hget.
  rewrite getcol_to_frame_gamma, getcol_to_frame_open_interest,
    getcol_to_frame_underlying_price.
  cbn [bind]. rewrite !numeric_floats. cbn [bind].
  rewrite zip_with_map, map_map, zip_with_map.
  eexists. split; [reflexivity|].
  rewrite !getcol_setcol_other by reflexivity. rewrite !Hget.
  rewrite getcol_to_frame_strike, getcol_to_frame_contract_type.
  rewrite !map_map. split; [reflexivity|]. split; [reflexivity|].
  rewrite getcol_setcol_same.
  - unfold of_floats. rewrite !map_map. reflexivity.
  - unfold of_floats. rewrite Hlen. unfold len, to_frame. cbn [rows].
    rewrite !length_map. reflexivity.
Qed.

End WithParser.

(** ** Grouping *)

Lemma entries_map (es : list entry) :
  entries (map key_index es) (map key_column es) (map value es) = es.
Proof.
  induction es as [|[k t v] es IH]; [reflexivity|].
  simpl. rewrite IH. reflexivity.
Qed.

Lemma filter_all {A : Type} (p : A -> bool) (l : list A) :
  (forall a, In a l -> p a = true) -> filter p l = l.
Proof.
  induction l as [|a l IH]; intro H; [reflexivity|].
  simpl. rewrite (H a (or_introl eq_refl)). f_equal.
  apply IH. intros b Hb. apply H. right; exact Hb.
Qed.

Lemma keyed_entries (snapshot : list OptionRow) :
  filter keyed (map entry_of snapshot) = map entry_of snapshot.
Proof.
  apply filter_all. intros e Hin. apply in_map_iff in Hin.
  destruct Hin as (row & <- & _). reflexivity.
Qed.

Definition strike_label (k : Q) : label := Flt (Fin k).

Lemma insert_unique_strike (k : Q) (l : list Q) :
  insert_unique (strike_label k) (map strike_label l)
  = map strike_label (insert_strike k l).
Proof.
  induction l as [|h l IH]; [reflexivity|].
  cbn [map insert_unique insert_strike].
  change (label_eqb (strike_label k) (strike_label h)) with (Qeq_bool k h).
  change (label_leb (strike_label k) (strike_label h)) with (Qle_bool k h).
  destruct (Qeq_bool k h); [reflexivity|].
  destruct (Qle_bool k h); [reflexivity|].
  cbn [map]. rewrite IH. reflexivity.
Qed.

(** The index of the pivot: the distinct strikes, ascending. *)
Lemma index_keys_to_frame (snapshot : list OptionRow) :
  unique_sorted (map key_index (map entry_of snapshot))
  = map strike_label (distinct_strikes snapshot).
Proof.
  unfold unique_sorted, distinct_strikes.
  induction snapshot as [|row rest IH]; [reflexivity|].
  cbn [map fold_right]. rewrite IH.
  apply (insert_unique_strike (strike row)).
Qed.

(** The columns of the pivot: the contract types that occur. *)
Definition type_columns (call put : bool) : list label :=
  ((if call then [Str "CALL"] else []) ++ (if put then [Str "PUT"] else []))%list.

Lemma column_keys_to_frame (snapshot : list OptionRow) :
  unique_sorted (map key_column (map entry_of snapshot))
  = type_columns (occurs CALL snapshot) (occurs PUT snapshot).
Proof.
  unfold unique_sorted.
  induction snapshot as [|row rest IH]; [reflexivity|].
  cbn [map fold_right occurs existsb]. rewrite IH.
  fold (occurs CALL rest) (occurs PUT rest).
  destruct row as [k [|] g oi dl up];
    destruct (occurs CALL rest), (occurs PUT rest); reflexivity.
Qed.

Lemma filter_map_swap {A B : Type} (p : B -> bool) (f : A -> B) (l : list A) :
  filter p (map f l) = map f (filter (fun a => p (f a)) l).
Proof.
  induction l as [|a l IH]; [reflexivity|].
  simpl. destruct (p (f a)); simpl; rewrite IH; reflexivity.
Qed.

(** A cell of the pivot is the exposure of its group. *)
Lemma group_sum_to_frame (snapshot : list OptionRow) (k : Q) (t : ContractType) :
  group_sum (map entry_of snapshot) (strike_label k) (Str (type_name t))
  = Fin (group_exposure 100 snapshot k t).
Proof.
  unfold group_sum, group_exposure.
  rewrite filter_map_swap, map_map.
  rewrite (filter_ext (fun a => GEX.in_group (strike_label k) (Str (type_name t))
                                             (entry_of a))
                      (AggregateSpec.in_group k t)).
  - apply (sum_finite (legacy_exposure 100)).
  - intros [k' [|] g oi dl up]; destruct t; reflexivity.
Qed.

(** ** The pivot table *)

Definition pivot (snapshot : list OptionRow) (ks : list Q) : DataFrame :=
  {| columns :=
       Str "strike" :: type_columns (occurs CALL snapshot) (occurs PUT snapshot);
     rows := map (fun k => pivot_row (map entry_of snapshot) "strike"
                                     (strike_label k)) ks |}.

Lemma groupby_to_frame (d : DataFrame) (snapshot : list OptionRow) :
  getcol d "strike" = Ok (map key_index (map entry_of snapshot)) ->
  getcol d "contract_type" = Ok (map key_column (map entry_of snapshot)) ->
  getcol d "gex" = Ok (map Flt (map value (map entry_of snapshot))) ->
  groupby_sum_unstack d "strike" "contract_type" "gex"
  = Ok (pivot snapshot (distinct_strikes snapshot)).
Proof.
  intros Hk Ht Hv. unfold groupby_sum_unstack.
  rewrite Hk, Ht, Hv. cbn [bind]. rewrite numeric_floats. cbn [bind].
  rewrite entries_map, keyed_entries, index_keys_to_frame, column_keys_to_frame.
  assert (Hfree : existsb (label_eqb (Str "strike"))
                    (type_columns (occurs CALL snapshot) (occurs PUT snapshot))
                  = false)
    by (destruct (occurs CALL snapshot), (occurs PUT snapshot); reflexivity).
  rewrite Hfree. unfold pivot. rewrite map_map. reflexivity.
Qed.

Lemma getcol_pivot_strike (snapshot : list OptionRow) (ks : list Q) :
  getcol (pivot snapshot ks) "strike" = Ok (map Flt (map Fin ks)).
Proof. unfold getcol; simpl; rewrite !map_map; reflexivity. Qed.

Lemma getcol_pivot_type (snapshot : list OptionRow) (ks : list Q) (t : ContractType) :
  getcol (pivot snapshot ks) (type_name t)
  = if occurs t snapshot
    then Ok (map Flt (map (fun k => Fin (group_exposure 100 snapshot k t)) ks))
    else Raise (KeyError (Str (type_name t))).
Proof.
  unfold getcol.
  assert (Hcol : has_column (pivot snapshot ks) (type_name t) = occurs t snapshot).
  { unfold has_column, pivot. cbn [columns].
    destruct t, (occurs CALL snapshot), (occurs PUT snapshot); reflexivity. }
  rewrite Hcol. destruct (occurs t snapshot); [|reflexivity].
  f_equal. unfold pivot. cbn [rows]. rewrite !map_map.
  apply map_ext. intro k.
  rewrite <- group_sum_to_frame. destruct t; reflexivity.
Qed.

Lemma zip_with_all_true (l : list bool) :
  zip_with andb (repeat true (List.length l)) l = l.
Proof. induction l as [|b l IH]; [reflexivity|]. simpl; rewrite IH; reflexivity. Qed.

Lemma strike_mask_pivot (snapshot : list OptionRow) (ks : list Q)
    (lo hi : option Q) :
  strike_mask (pivot snapshot ks) (option_map Fin lo) (option_map Fin hi)
  = Ok (map (in_range lo hi) ks).
Proof.
  unfold strike_mask.
  assert (Hlen : len (pivot snapshot ks) = List.length ks)
    by (unfold len, pivot; cbn [rows]; apply length_map).
  rewrite Hlen.
  destruct lo as [lo|], hi as [hi|]; cbn [option_map bind];
    rewrite ?getcol_pivot_strike; cbn [bind];
    rewrite ?numeric_floats; cbn [bind]; rewrite ?map_map.
  - rewrite <- (length_map (fun k => (Fin k >=? Fin lo)%flt) ks) at 1.
    rewrite zip_with_all_true, zip_with_map. reflexivity.
  - rewrite <- (length_map (fun k => (Fin k >=? Fin lo)%flt) ks) at 1.
    rewrite zip_with_all_true. f_equal. apply map_ext. intro k.
    unfold in_range. rewrite andb_true_r. reflexivity.
  - rewrite <- (length_map (fun k => (Fin k <=? Fin hi)%flt) ks) at 1.
    rewrite zip_with_all_true. reflexivity.
  - f_equal. clear Hlen. induction ks as [|k ks IH]; [reflexivity|].
    simpl. rewrite IH. reflexivity.
Qed.

Lemma loc_pivot (snapshot : list OptionRow) (ks : list Q) (p : Q -> bool) :
  loc (pivot snapshot ks) (map p ks) = pivot snapshot (filter p ks).
Proof. unfold loc, pivot. cbn [columns rows]. rewrite select_map. reflexivity. Qed.

(** The strike filter, post aggregation. *)
Lemma filtered_pivot (snapshot : list OptionRow) (lo hi : option Q) :
  (match option_map Fin lo, option_map Fin hi with
   | None, None => Ok (pivot snapshot (distinct_strikes snapshot))
   | _, _ =>
       mask <- strike_mask (pivot snapshot (distinct_strikes snapshot))
                 (option_map Fin lo) (option_map Fin hi) ;;
       Ok (loc (pivot snapshot (distinct_strikes snapshot)) mask)
   end)
  = Ok (pivot snapshot (filter (in_range lo hi) (distinct_strikes snapshot))).
Proof.
  destruct lo as [lo|], hi as [hi|];
    try (rewrite strike_mask_pivot; cbn [bind]; rewrite loc_pivot; reflexivity).
  cbn [option_map]. rewrite filter_all; [reflexivity|]. reflexivity.
Qed.

(** ** The whole aggregation *)

Lemma aggregate_pivot (parse : string -> option float)
    (snapshot : list OptionRow) (lo hi : option Q) :
  aggregate parse snapshot lo hi
  = (let g := pivot snapshot
                (filter (in_range lo hi) (distinct_strikes snapshot)) in
     call <- getcol g "CALL" ;;
     put <- getcol g "PUT" ;;
     call' <- numeric call ;;
     put' <- numeric put ;;
     Ok (setcol g "net_gamma" (of_floats (zip_with Float.sub call' put')))).
Proof.
  unfold aggregate, __init__.
  destruct (prepare_data_to_frame parse "data" snapshot)
    as (d & Hd & Hk & Ht & Hv).
  rewrite Hd. cbn [bind]. unfold calculate_gex_by_strike. cbn [df].
  rewrite (groupby_to_frame d snapshot Hk Ht Hv). cbn [bind].
  rewrite filtered_pivot. reflexivity.
Qed.

(** Without a CALL row there is no CALL column. *)
Lemma aggregate_no_call (parse : string -> option float)
    (snapshot : list OptionRow) (lo hi : option Q) :
  occurs CALL snapshot = false ->
  aggregate parse snapshot lo hi = Raise (KeyError (Str "CALL")).
Proof.
  intro H. rewrite aggregate_pivot. cbv zeta.
  pose proof (getcol_pivot_type snapshot
                (filter (in_range lo hi) (distinct_strikes snapshot)) CALL) as HC.
  cbn [type_name] in HC. rewrite H in HC. rewrite HC. reflexivity.
Qed.

(** With a CALL row and without a PUT row there is no PUT column. *)
Lemma aggregate_no_put (parse : string -> option float)
    (snapshot : list OptionRow) (lo hi : option Q) :
  occurs CALL snapshot = true -> occurs PUT snapshot = false ->
  aggregate parse snapshot lo hi = Raise (KeyError (Str "PUT")).
Proof.
  intros Hc Hp. rewrite aggregate_pivot. cbv zeta.
  pose proof (getcol_pivot_type snapshot
                (filter (in_range lo hi) (distinct_strikes snapshot)) CALL) as HC.
  pose proof (getcol_pivot_type snapshot
                (filter (in_range lo hi) (distinct_strikes snapshot)) PUT) as HP.
  cbn [type_name] in HC, HP. rewrite Hc in HC. rewrite Hp in HP.
  rewrite HC. cbn [bind]. rewrite HP. reflexivity.
Qed.

(** When both contract types occur the result is the aggregation of the
    specification, strike filter included. *)
Lemma aggregate_both_types (parse : string -> option float)
    (snapshot : list OptionRow) (lo hi : option Q) :
  occurs CALL snapshot = true -> occurs PUT snapshot = true ->
  exists g,
    aggregate parse snapshot lo hi = Ok g
    /\ columns g = result_columns
    /\ map read_row (rows g)
       = map exposure_cells (aggregateByStrike 100 snapshot lo hi).
Proof.
  intros Hc Hp. rewrite aggregate_pivot. cbv zeta.
  set (ks := filter (in_range lo hi) (distinct_strikes snapshot)).
  pose proof (getcol_pivot_type snapshot ks CALL) as HC.
  pose proof (getcol_pivot_type snapshot ks PUT) as HP.
  cbn [type_name] in HC, HP. rewrite Hc in HC. rewrite Hp in HP.
  rewrite HC. cbn [bind]. rewrite HP. cbn [bind].
  rewrite !numeric_floats. cbn [bind].
  rewrite zip_with_map. unfold of_floats. rewrite map_map.
  eexists. split; [reflexivity|]. split.
  - unfold setcol, pivot, has_column. cbn [columns]. rewrite Hc, Hp. reflexivity.
  - unfold setcol, pivot. cbn [rows]. rewrite upd_rows_map, map_map.
    unfold aggregateByStrike. fold ks. rewrite map_map.
    apply map_ext. intro k.
    unfold read_row, result_columns, exposure_cells, exposure_at.
    cbn [map at_strike call_exposure put_exposure net_exposure].
    unfold upd, pivot_row.
    cbn [label_eqb String.eqb Ascii.eqb Bool.eqb].
    pose proof (group_sum_to_frame snapshot k CALL) as Gc.
    pose proof (group_sum_to_frame snapshot k PUT) as Gp.
    cbn [type_name] in Gc, Gp. rewrite Gc, Gp. reflexivity.
Qed.

(** ** The strikes of the result *)

Lemma HdRel_insert_strike (h k : Q) (l : list Q) :
  HdRel Qlt h l -> h < k -> HdRel Qlt h (insert_strike k l).
Proof.
  intros Hhd Hlt. destruct l as [|a l]; cbn [insert_strike].
  - constructor. exact Hlt.
  - inversion Hhd; subst.
    destruct (Qeq_bool k a); [constructor; assumption|].
    destruct (Qle_bool k a); constructor; assumption.
Qed.

Lemma insert_strike_sorted (k : Q) (l : list Q) :
  Sorted Qlt l -> Sorted Qlt (insert_strike k l).
Proof.
  induction 1 as [|h l Hs IH Hhd]; cbn [insert_strike].
  - repeat constructor.
  - destruct (Qeq_bool k h) eqn:Heq; [constructor; assumption|].
    destruct (Qle_bool k h) eqn:Hle.
    + apply Qle_bool_iff in Hle.
      assert (Hne : ~ k == h) by (rewrite <- Qeq_bool_iff; congruence).
      constructor; [constructor; assumption|].
      constructor. apply Qle_lteq in Hle. destruct Hle; [assumption|contradiction].
    + assert (Hgt : h < k).
      { apply Qnot_le_lt. rewrite <- Qle_bool_iff. congruence. }
      constructor; [exact IH|]. apply HdRel_insert_strike; assumption.
Qed.

(** The strikes of the result are strictly ascending: no strike occurs
    twice. *)
Lemma distinct_strikes_sorted (snapshot : list OptionRow) :
  Sorted Qlt (distinct_strikes snapshot).
Proof.
  unfold distinct_strikes.
  induction snapshot as [|row rest IH]; cbn [map fold_right].
  - constructor.
  - apply insert_strike_sorted. exact IH.
Qed.

Lemma In_insert_strike (k x : Q) (l : list Q) :
  In x (insert_strike k l) -> x = k \/ In x l.
Proof.
  induction l as [|h l IH]; cbn [insert_strike].
  - intros [<-|[]]. left; reflexivity.
  - destruct (Qeq_bool k h); [intro H; right; exact H|].
    destruct (Qle_bool k h).
    + intros [<-|H]; [left; reflexivity|right; exact H].
    + intros [<-|H]; [right; left; reflexivity|].
      destruct (IH H) as [->|H']; [left; reflexivity|right; right; exact H'].
Qed.

Lemma insert_strike_keeps (k x : Q) (l : list Q) :
  In x l -> In x (insert_strike k l).
Proof.
  induction l as [|h l IH]; [contradiction|]. cbn [insert_strike].
  intro Hin.
  destruct (Qeq_bool k h); [exact Hin|].
  destruct (Qle_bool k h); [right; exact Hin|].
  destruct Hin as [<-|Hin]; [left; reflexivity|right; apply IH; exact Hin].
Qed.

Lemma insert_strike_has (k : Q) (l : list Q) :
  exists x, In x (insert_strike k l) /\ x == k.
Proof.
  induction l as [|h l IH]; cbn [insert_strike].
  - exists k. split; [left; reflexivity|reflexivity].
  - destruct (Qeq_bool k h) eqn:Heq.
    + apply Qeq_bool_iff in Heq. exists h. split; [left; reflexivity|].
      symmetry; exact Heq.
    + destruct (Qle_bool k h).
      * exists k. split; [left; reflexivity|reflexivity].
      * destruct IH as (x & Hx & Hxk). exists x. split; [right; exact Hx|exact Hxk].
Qed.

(** Every strike of the result is the strike of some row, and every row's
    strike is (up to the value) a strike of the result. *)
Lemma distinct_strikes_sound (snapshot : list OptionRow) (k : Q) :
  In k (distinct_strikes snapshot) ->
  exists row, In row snapshot /\ k = strike row.
Proof.
  unfold distinct_strikes.
  induction snapshot as [|row rest IH]; cbn [map fold_right]; [contradiction|].
  intro Hin. apply In_insert_strike in Hin. destruct Hin as [->|Hin].
  - exists row. split; [left; reflexivity|reflexivity].
  - destruct (IH Hin) as (r & Hr & Hk). exists r. split; [right; exact Hr|exact Hk].
Qed.

Lemma distinct_strikes_complete (snapshot : list OptionRow) (row : OptionRow) :
  In row snapshot ->
  exists k, In k (distinct_strikes snapshot) /\ k == strike row.
Proof.
  unfold distinct_strikes.
  induction snapshot as [|r rest IH]; cbn [map fold_right]; [contradiction|].
  intros [->|Hin].
  - apply insert_strike_has.
  - destruct (IH Hin) as (k & Hk & Heq).
    exists k. split; [apply insert_strike_keeps; exact Hk|exact Heq].
Qed.

Lemma Sorted_filter (p : Q -> bool) (l : list Q) :
  Sorted Qlt l -> Sorted Qlt (filter p l).
Proof.
  intro Hs. apply StronglySorted_Sorted.
  apply Sorted_StronglySorted in Hs; [|intros x y z; apply Qlt_trans].
  induction Hs as [|a l Hs IH Hall]; cbn [filter]; [constructor|].
  destruct (p a); [|exact IH].
  constructor; [exact IH|].
  apply Forall_forall. intros x Hx. apply filter_In in Hx.
  rewrite Forall_forall in Hall. apply Hall. apply Hx.
Qed.

(** The aggregation of the specification is strictly ascending by strike. *)
Lemma aggregateByStrike_ascending (m : Q) (snapshot : list OptionRow)
    (lo hi : option Q) :
  Sorted Qlt (map at_strike (aggregateByStrike m snapshot lo hi)).
Proof.
  unfold aggregateByStrike. rewrite map_map. cbn [exposure_at at_strike].
  rewrite map_id. apply Sorted_filter, distinct_strikes_sorted.
Qed.

(** ** Snapshots of a single contract type *)

Lemma occurs_all (t : ContractType) (snapshot : list OptionRow) :
  snapshot <> [] ->
  (forall row, In row snapshot -> contract_type row = t) ->
  occurs t snapshot = true.
Proof.
  intros Hne Hall. destruct snapshot as [|row rest]; [contradiction|].
  unfold occurs. cbn [existsb]. rewrite (Hall row (or_introl eq_refl)).
  destruct t; reflexivity.
Qed.

Lemma occurs_none (t u : ContractType) (snapshot : list OptionRow) :
  type_eqb u t = false ->
  (forall row, In row snapshot -> contract_type row = t) ->
  occurs u snapshot = false.
Proof.
  intros Hne Hall. unfold occurs.
  induction snapshot as [|row rest IH]; [reflexivity|].
  cbn [existsb]. rewrite (Hall row (or_introl eq_refl)), Hne.
  apply IH. intros r Hr. apply Hall. right; exact Hr.
Qed.

Lemma group_exposure_missing (m : Q) (snapshot : list OptionRow) (k : Q)
    (t : ContractType) :
  (forall row, In row snapshot -> AggregateSpec.in_group k t row = false) ->
  group_exposure m snapshot k t = 0.
Proof.
  intro H. unfold group_exposure. rewrite filter_none by exact H. reflexivity.
Qed.

Definition call_100 : OptionRow := mkRow 100 CALL 0.01 1000 0.5 100.
Definition put_100 : OptionRow := mkRow 100 PUT 0.02 500 (-0.5) 100.

(** C6.  The claim: on every snapshot the rows are grouped by
    [(strike, contract_type)], the legacy exposures
    [gamma * open_interest * multiplier * underlying_price] are summed per
    group and pivoted into CALL and PUT columns with a missing combination
    filled as 0, ascending by strike, with [net = CALL - PUT].  The code:
    on the snapshot of the example it gives CALL = 100000, PUT = 100000 and
    net = 0 at strike 100, but on a snapshot that holds a single CALL row
    the PUT column does not exist and [KeyError] is raised; nothing is
    filled. *)
Theorem aggregate_by_strike_example (parse : string -> option float) :
  (exists g call put net,
      aggregate parse [call_100; put_100] None None = Ok g
      /\ columns g = result_columns
      /\ map read_row (rows g)
         = [[Flt (Fin 100); Flt (Fin call); Flt (Fin put); Flt (Fin net)]]
      /\ call == 100000 /\ put == 100000 /\ net == 0)
  /\ aggregate parse [call_100] None None = Raise (KeyError (Str "PUT"))
  /\ map exposure_cells (aggregateByStrike 100 [call_100] None None)
     = [[Flt (Fin 100); Flt (Fin (0.01 * 1000 * 100 * 100)); Flt (Fin 0);
         Flt (Fin (0.01 * 1000 * 100 * 100 - 0))]].
Proof.
  split; [|split].
  - destruct (aggregate_both_types parse [call_100; put_100] None None
                eq_refl eq_refl) as (g & Hg & Hcols & Hrows).
    exists g. do 3 eexists.
    split; [exact Hg|]. split; [exact Hcols|].
    split; [rewrite Hrows; vm_compute; reflexivity|].
    split; [|split]; reflexivity.
  - apply aggregate_no_put; reflexivity.
  - reflexivity.
Qed.

(** C10.  On a non-empty snapshot whose rows are all CALL the access to
    the absent PUT column raises [KeyError], and on one whose rows are all
    PUT the access to the absent CALL column does, whatever the strike
    range; nothing is returned with the missing side at 0.  When both
    contract types occur somewhere in the snapshot the aggregation
    succeeds, and a [(strike, type)] combination without rows is 0 in the
    row of its strike. *)
Theorem aggregate_single_type
    (parse : string -> option float) (snapshot : list OptionRow)
    (lo hi : option Q) :
  (snapshot <> [] ->
   (forall row, In row snapshot -> contract_type row = CALL) ->
   aggregate parse snapshot lo hi = Raise (KeyError (Str "PUT")))
  /\ (snapshot <> [] ->
      (forall row, In row snapshot -> contract_type row = PUT) ->
      aggregate parse snapshot lo hi = Raise (KeyError (Str "CALL")))
  /\ (occurs CALL snapshot = true ->
      occurs PUT snapshot = true ->
      exists g,
        aggregate parse snapshot lo hi = Ok g
        /\ columns g = result_columns
        /\ map read_row (rows g)
           = map exposure_cells (aggregateByStrike 100 snapshot lo hi)
        /\ (forall e,
              In e (aggregateByStrike 100 snapshot lo hi) ->
              (occurs CALL (filter (fun row => Qeq_bool (at_strike e) (strike row))
                                   snapshot) = false ->
               call_exposure e = 0)
              /\ (occurs PUT (filter (fun row => Qeq_bool (at_strike e) (strike row))
                                     snapshot) = false ->
                  put_exposure e = 0))).
Proof.
  split; [|split].
  - intros Hne Hall. apply aggregate_no_put.
    + apply occurs_all; assumption.
    + apply (occurs_none CALL PUT); [reflexivity|assumption].
  - intros Hne Hall. apply aggregate_no_call.
    apply (occurs_none PUT CALL); [reflexivity|assumption].
  - intros Hc Hp.
    destruct (aggregate_both_types parse snapshot lo hi Hc Hp)
      as (g & Hg & Hcols & Hrows).
    exists g. repeat (split; [assumption|]).
    intros e He. unfold aggregateByStrike in He.
    apply in_map_iff in He. destruct He as (k & <- & _).
    cbn [exposure_at at_strike call_exposure put_exposure].
    assert (Hmiss : forall t,
               occurs t (filter (fun row => Qeq_bool k (strike row)) snapshot)
               = false ->
               group_exposure 100 snapshot k t = 0).
    { intros t Hocc. apply group_exposure_missing. intros row Hin.
      unfold AggregateSpec.in_group.
      destruct (Qeq_bool k (strike row)) eqn:Hk; [|reflexivity].
      cbn [andb]. unfold occurs in Hocc.
      destruct (type_eqb t (contract_type row)) eqn:Ht; [|reflexivity].
      assert (Hex : existsb (fun r => type_eqb t (contract_type r))
                      (filter (fun r => Qeq_bool k (strike r)) snapshot) = true).
      { apply existsb_exists. exists row. split; [|exact Ht].
        apply filter_In. split; assumption. }
      congruence. }
    split; apply Hmiss.
Qed.

Lemma aggregate_single_type_witness :
  [call_100] <> []
  /\ (forall row, In row [call_100] -> contract_type row = CALL)
  /\ aggregate (fun _ => None) [call_100] None None = Raise (KeyError (Str "PUT"))
  /\ aggregate (fun _ => None) [put_100] (Some 90) None
     = Raise (KeyError (Str "CALL"))
  /\ (exists g,
        aggregate (fun _ => None) [call_100; put_100] None None = Ok g
        /\ columns g = result_columns).
Proof.
  assert (Hc : forall row, In row [call_100] -> contract_type row = CALL)
    by (intros row [<-|[]]; reflexivity).
  assert (Hp : forall row, In row [put_100] -> contract_type row = PUT)
    by (intros row [<-|[]]; reflexivity).
  split; [discriminate|]. split; [exact Hc|]. split; [|split].
  - apply (proj1 (aggregate_single_type (fun _ => None) [call_100] None None));
      [discriminate|exact Hc].
  - apply (proj1 (proj2 (aggregate_single_type (fun _ => None) [put_100]
                           (Some 90) None)));
      [discriminate|exact Hp].
  - destruct (proj2 (proj2 (aggregate_single_type (fun _ => None)
                              [call_100; put_100] None None))
                    eq_refl eq_refl) as (g & Hg & Hcols & _).
    exists g. split; assumption.
Defined.

End GEXFacts.

(* ================================================================== *)
(** * Sums of rationals *)
(* ================================================================== *)

Module SumFacts.






End SumFacts.

(* ================================================================== *)
(** * Near-spot net gamma exposure: sign, band and missing data *)
(* ================================================================== *)

Module NetGEXMore.
Import NetGEX FrameFacts ZeroGamma NetGEXFacts SumFacts GammaUtils.


(** ** Frames that are not well formed *)

(** A frame with arbitrary columns whose rows are made from option rows. *)
Definition frame_of (cols : list label) (cells : OptionRow -> label -> cell)
    (l : list OptionRow) : DataFrame :=
  {| columns := cols; rows := map cells l |}.

Lemma near_spot_frame_of
    (parse : string -> option float) (self : NetGEX) (w : Q)
    (cols : list label) (cells : OptionRow -> label -> cell)
    (first : OptionRow) (rest : list OptionRow) :
  strike_width self = Fin w ->
  existsb (label_eqb (Str "underlying_price")) cols = true ->
  existsb (label_eqb (Str "strike")) cols = true ->
  (forall r, cells r (Str "underlying_price") = Flt (Fin (underlying_price r))) ->
  (forall r, cells r (Str "strike") = Flt (Fin (strike r))) ->
  _compute_net_gex_near_spot parse self (frame_of cols cells (first :: rest))
  = _compute_net_gex self
      (frame_of cols cells
         (filter (Spec.in_band (underlying_price first) w) (first :: rest)))
      (Fin (underlying_price first)).
Proof.
  intros Hw Hup Hk Hcup Hck.
  unfold _compute_net_gex_near_spot.
  assert (Hne : empty (frame_of cols cells (first :: rest)) = false).
  { unfold empty, frame_of. cbn [columns rows map].
    destruct cols; [discriminate|reflexivity]. }
  rewrite Hne. unfold has_column, getcol, has_column.
  cbn [frame_of columns rows]. rewrite Hup, Hk. cbn [negb bind].
  cbn [map iloc nth_error]. rewrite Hcup. cbn [bind py_float].
  change (cells first (Str "strike") :: map (fun r => r (Str "strike")) (map cells rest))
    with (map (fun r => r (Str "strike")) (map cells (first :: rest))).
  rewrite map_map.
  rewrite (map_ext (fun x => cells x (Str "strike"))
                   (fun x => Flt (Fin (strike x)))) by exact Hck.
  rewrite <- (map_map (fun x => Fin (strike x)) Flt).
  rewrite numeric_floats. cbn [bind].
  rewrite !map_map, zip_with_map, Hw.
  change (cells first :: map cells rest) with (map cells (first :: rest)).
  unfold loc. cbn [frame_of columns rows].
  rewrite (select_map
             (fun a => (Fin (strike a) >=? Fin (underlying_price first) - Fin w)%flt
                       && (Fin (strike a) <=? Fin (underlying_price first) + Fin w)%flt)).
  reflexivity.
Qed.

(** X3.  Missing or corrupt data is only noticed when a strike falls in
    the band.  Without the [gamma] column the result is [0.0] if the band
    is empty and [KeyError] otherwise; with text in the [gamma] column it
    is [0.0] if the band is empty and [TypeError] otherwise; without the
    [strike] column it is always [KeyError]. *)
Theorem near_spot_bad_columns
    (parse : string -> option float) (dir : string) (w m gs : Q) (ds : bool)
    (ts : list Py.datetime) (vals : list float)
    (first : OptionRow) (rest : list OptionRow) :
  let self := mkNetGEX dir (Fin w) (Fin m) ds (Fin gs) ts vals in
  let snapshot := first :: rest in
  let band := filter (Spec.in_band (underlying_price first) w) snapshot in
  _compute_net_gex_near_spot parse self
    (without_column "gamma" (to_frame snapshot))
  = match band with
    | [] => Ok (Fin 0)
    | _ :: _ => Raise (KeyError (Str "gamma"))
    end
  /\ _compute_net_gex_near_spot parse self
       (LoaderExample.corrupt_gamma (to_frame snapshot))
     = match band with
       | [] => Ok (Fin 0)
       | _ :: _ => Raise TypeError
       end
  /\ _compute_net_gex_near_spot parse self
       (without_column "strike" (to_frame snapshot))
     = Raise (KeyError (Str "strike")).
Proof.
  intros self snapshot band. split; [|split].
  - change (without_column "gamma" (to_frame snapshot))
      with (frame_of [Str "strike"; Str "contract_type"; Str "open_interest";
                      Str "delta"; Str "underlying_price"] row_cells snapshot).
    unfold snapshot.
    rewrite (near_spot_frame_of parse self w) by reflexivity.
    fold snapshot. fold band. destruct band; reflexivity.
  - replace (LoaderExample.corrupt_gamma (to_frame snapshot))
      with (frame_of snapshot_columns
              (fun r => upd (row_cells r) (Str "gamma") (Str "corrupt"))
              (first :: rest))
      by (unfold LoaderExample.corrupt_gamma, frame_of, to_frame;
          cbn [columns rows]; rewrite map_map; reflexivity).
    rewrite (near_spot_frame_of parse self w) by reflexivity.
    fold snapshot. fold band. destruct band; reflexivity.
  - reflexivity.
Qed.


End NetGEXMore.

(* ================================================================== *)
(** * Strings: [split] and [stem] *)
(* ================================================================== *)

Module StringFacts.
Import Py FileName.

Lemma append_assoc (a b c : string) : ((a ++ b) ++ c = a ++ (b ++ c))%string.
Proof. induction a as [|x a IH]; [reflexivity|]. simpl. rewrite IH. reflexivity. Qed.

Lemma length_append (a b : string) :
  String.length (a ++ b) = (String.length a + String.length b)%nat.
Proof. induction a as [|x a IH]; [reflexivity|]. simpl. rewrite IH. reflexivity. Qed.

Lemma split_nonempty (sep : ascii) (s : string) : split sep s <> [].
Proof.
  destruct s as [|c s]; cbn [split]; [discriminate|].
  destruct (Ascii.eqb c sep); [discriminate|].
  destruct (split sep s); discriminate.
Qed.

(** [len(s.split(sep)) == s.count(sep) + 1] *)
Lemma length_split (sep : ascii) (s : string) :
  List.length (split sep s) = S (count sep s).
Proof.
  induction s as [|c s IH]; [reflexivity|].
  cbn [split count]. destruct (Ascii.eqb c sep).
  - cbn [List.length]. rewrite IH. reflexivity.
  - destruct (split sep s) as [|h t] eqn:E.
    + exfalso. exact (split_nonempty sep s E).
    + cbn [List.length] in *. exact IH.
Qed.

Lemma split_without (sep : ascii) (s : string) :
  count sep s = O -> split sep s = [s].
Proof.
  induction s as [|c s IH]; [reflexivity|].
  cbn [count split]. destruct (Ascii.eqb c sep); [discriminate|].
  intro H. rewrite (IH H). reflexivity.
Qed.

(** A segment without the separator, then the separator: the segment is
    the first part. *)
Lemma split_segment (sep : ascii) (a b : string) :
  count sep a = O ->
  split sep (a ++ String sep b) = a :: split sep b.
Proof.
  induction a as [|c a IH]; intro H.
  - cbn [append split]. rewrite Ascii.eqb_refl. reflexivity.
  - cbn [count] in H. cbn [append split].
    destruct (Ascii.eqb c sep); [discriminate|].
    rewrite (IH H). reflexivity.
Qed.

Lemma rfind_from_append (c : ascii) (a b : string) (i : nat) :
  rfind_from c (a ++ b) i
  = match rfind_from c b (i + String.length a) with
    | Some j => Some j
    | None => rfind_from c a i
    end.
Proof.
  revert i. induction a as [|x a IH]; intro i.
  - cbn [append String.length rfind_from]. rewrite Nat.add_0_r.
    destruct (rfind_from c b i); reflexivity.
  - cbn [append String.length rfind_from]. rewrite IH.
    replace (S i + String.length a)%nat with (i + S (String.length a))%nat by lia.
    destruct (rfind_from c b (i + S (String.length a))); reflexivity.
Qed.

Lemma substring_prefix (a b : string) :
  substring 0 (String.length a) (a ++ b) = a.
Proof.
  induction a as [|x a IH].
  - destruct b; reflexivity.
  - cbn [append String.length substring]. rewrite IH. reflexivity.
Qed.

(** The stem of [x.csv] is [x]. *)
Lemma stem_csv (x : string) : x <> "" -> stem (x ++ ".csv") = x.
Proof.
  intro Hx. unfold stem. rewrite rfind_from_append.
  cbn [rfind_from Ascii.eqb Bool.eqb Nat.add].
  change (rfind_from "." ".csv" (0 + String.length x)) with (Some (String.length x)).
  rewrite length_append. cbn [String.length].
  assert (Hpos : (0 < String.length x)%nat).
  { destruct x; [contradiction|cbn; lia]. }
  apply Nat.ltb_lt in Hpos. rewrite Hpos.
  assert (Hlt : (String.length x <? String.length x + 4 - 1)%nat = true)
    by (apply Nat.ltb_lt; lia).
  rewrite Hlt. cbn [andb]. apply substring_prefix.
Qed.

(** The parts of a conventional file name. *)
Lemma split_snapshot_name (symbol expiration date time : string) :
  count "_" symbol = O -> count "_" expiration = O ->
  count "_" date = O -> count "_" time = O ->
  split "_" (stem (snapshot_name symbol expiration date time))
  = [symbol; "exp" ++ expiration; date; time].
Proof.
  intros Hs He Hd Ht. unfold snapshot_name.
  replace (symbol ++ "_exp" ++ expiration ++ "_" ++ date ++ "_" ++ time ++ ".csv")
    with ((symbol ++ "_exp" ++ expiration ++ "_" ++ date ++ "_" ++ time) ++ ".csv")
    by (rewrite !append_assoc; reflexivity).
  rewrite stem_csv by (destruct symbol; discriminate).
  change (symbol ++ "_exp" ++ expiration ++ "_" ++ date ++ "_" ++ time)
    with (symbol ++ String "_" (("exp" ++ expiration)
                                ++ String "_" (date ++ String "_" time))).
  rewrite (split_segment "_" symbol) by exact Hs.
  rewrite (split_segment "_" ("exp" ++ expiration)) by exact He.
  rewrite (split_segment "_" date) by exact Hd.
  rewrite (split_without "_" time) by exact Ht.
  reflexivity.
Qed.

End StringFacts.

(* ================================================================== *)
(** * The loader: repeated calls, stale series, file names *)
(* ================================================================== *)

Module LoaderMore.
Import Py NetGEX LoaderSpec LoaderFacts FileName StringFacts.

Section Environment.

Variable str_to_float : string -> option float.
Variable glob : string -> string -> list string.
Variable read_csv : string -> string -> result DataFrame.
Variable strptime : string -> string -> result datetime.

Local Abbreviation process_file := (process_file str_to_float read_csv strptime).
Local Abbreviation load_and_calculate :=
  (load_and_calculate str_to_float glob read_csv strptime).
Local Abbreviation entries := (entries str_to_float read_csv strptime).
Local Abbreviation warnings := (warnings str_to_float read_csv strptime).
Local Abbreviation processed := (processed str_to_float read_csv strptime).

Lemma entries_extended (self : NetGEX) (es : list (datetime * float))
    (files : list string) :
  entries (extended self es) files = entries self files.
Proof.
  induction files as [|f rest IH]; [reflexivity|].
  cbn [LoaderSpec.entries]. rewrite IH. reflexivity.
Qed.

Lemma warnings_extended (self : NetGEX) (es : list (datetime * float))
    (files : list string) :
  warnings (extended self es) files = warnings self files.
Proof.
  induction files as [|f rest IH]; [reflexivity|].
  cbn [LoaderSpec.warnings]. rewrite IH. reflexivity.
Qed.

(** What a call that returns has done. *)
Lemma load_ok_inv (self s1 : NetGEX) (symbol expirationFilter : string)
    (sampleDate : option string) :
  snd (load_and_calculate self (Some symbol) (Some expirationFilter) sampleDate)
  = Ok s1 ->
  let matched := glob (data_dir self) (pattern symbol expirationFilter sampleDate) in
  matched <> []
  /\ s1 = extended self (entries self (sorted matched))
  /\ timestamps s1 <> [].
Proof.
  intro H. rewrite load_and_calculate_cases in H. cbv zeta in *.
  destruct (glob (data_dir self) (pattern symbol expirationFilter sampleDate))
    as [|f0 rest] eqn:Hm; [discriminate|].
  cbn [snd] in H.
  destruct (timestamps self
            ++ map fst (entries self (sorted (f0 :: rest))))%list eqn:Hs;
    [discriminate|].
  injection H as <-. split; [discriminate|]. split; [reflexivity|].
  cbn [extended timestamps]. rewrite Hs. discriminate.
Qed.

(** X5.  The series is never reset: a second call on the same object and
    the same files returns again and appends the entries of the files a
    second time. *)
Theorem load_twice_duplicates (self s1 : NetGEX)
    (symbol expirationFilter : string) (sampleDate : option string) :
  snd (load_and_calculate self (Some symbol) (Some expirationFilter) sampleDate)
  = Ok s1 ->
  let es := entries self
              (sorted (glob (data_dir self)
                         (pattern symbol expirationFilter sampleDate))) in
  exists s2,
    snd (load_and_calculate s1 (Some symbol) (Some expirationFilter) sampleDate)
    = Ok s2
    /\ timestamps s2
       = (timestamps self ++ map fst es ++ map fst es)%list
    /\ net_gex_values s2
       = (net_gex_values self ++ map snd es ++ map snd es)%list.
Proof.
  intros H es. destruct (load_ok_inv _ _ _ _ _ H) as (Hm & Hs1 & Hne).
  cbv zeta in Hm, Hs1. fold es in Hs1.
  rewrite load_and_calculate_cases. cbv zeta.
  assert (Hdir : data_dir s1 = data_dir self) by (rewrite Hs1; reflexivity).
  rewrite Hdir.
  destruct (glob (data_dir self) (pattern symbol expirationFilter sampleDate))
    as [|f0 rest] eqn:Hg; [contradiction|].
  cbn [snd].
  assert (He : entries s1 (sorted (f0 :: rest)) = es)
    by (rewrite Hs1; apply entries_extended).
  rewrite He.
  destruct (timestamps s1 ++ map fst es)%list eqn:Hs.
  - apply app_eq_nil in Hs. destruct Hs as [Hs _]. contradiction.
  - eexists. split; [reflexivity|].
    rewrite Hs1. cbn [extended timestamps net_gex_values].
    rewrite <- !app_assoc. split; reflexivity.
Qed.

(** X6.  A series left by an earlier call hides a complete failure: on an
    object whose series is not empty, a call in which no matched file can
    be processed still returns, with the series unchanged, and never
    raises the no-valid-data error. *)
Theorem stale_series_hides_failure (self : NetGEX)
    (symbol expirationFilter : string) (sampleDate : option string) :
  let matched := glob (data_dir self) (pattern symbol expirationFilter sampleDate) in
  timestamps self <> [] ->
  matched <> [] ->
  (forall f, In f matched -> processed self f = false) ->
  exists s',
    snd (load_and_calculate self (Some symbol) (Some expirationFilter) sampleDate)
    = Ok s'
    /\ timestamps s' = timestamps self
    /\ net_gex_values s' = net_gex_values self.
Proof.
  intros matched Hts Hm Hfail.
  rewrite load_and_calculate_cases. cbv zeta. fold matched.
  assert (He : entries self (sorted matched) = []).
  { assert (Hall : forall f, In f (sorted matched) -> processed self f = false).
    { intros f Hin. apply Hfail.
      apply (Permutation_in f (Permutation_sym (StringSort.Permuted_sort matched))).
      exact Hin. }
    clear Hfail. induction (sorted matched) as [|f rest IH]; [reflexivity|].
    cbn [LoaderSpec.entries].
    pose proof (Hall f (or_introl eq_refl)) as Hf. unfold LoaderSpec.processed in Hf.
    destruct (NetGEX.process_file str_to_float read_csv strptime self f)
      as [[?|]|?]; try discriminate; apply IH; intros g Hg; apply Hall;
      right; exact Hg. }
  rewrite He. destruct matched; [contradiction|]. cbn [snd map].
  rewrite app_nil_r. destruct (timestamps self) eqn:Ht; [contradiction|].
  eexists. split; [reflexivity|].
  cbn [extended timestamps net_gex_values map]. rewrite !app_nil_r, Ht.
  split; reflexivity.
Qed.

(** X7.  A call that returns keeps the two lists of the series aligned,
    keeps every earlier entry in front and leaves the parameters alone. *)
Theorem load_keeps_series_aligned (self s' : NetGEX)
    (symbol expirationFilter : string) (sampleDate : option string) :
  List.length (timestamps self) = List.length (net_gex_values self) ->
  snd (load_and_calculate self (Some symbol) (Some expirationFilter) sampleDate)
  = Ok s' ->
  List.length (timestamps s') = List.length (net_gex_values s')
  /\ firstn (List.length (timestamps self)) (timestamps s') = timestamps self
  /\ firstn (List.length (net_gex_values self)) (net_gex_values s')
     = net_gex_values self
  /\ (data_dir s', strike_width s', multiplier s', dealer_short s', gamma_scale s')
     = (data_dir self, strike_width self, multiplier self, dealer_short self,
        gamma_scale self).
Proof.
  intros Hlen H. destruct (load_ok_inv _ _ _ _ _ H) as (_ & -> & _).
  cbn [extended timestamps net_gex_values data_dir strike_width multiplier
       dealer_short gamma_scale].
  split; [|split; [|split]].
  - rewrite !length_app, !length_map, Hlen. reflexivity.
  - rewrite firstn_app, Nat.sub_diag, firstn_all. cbn [firstn].
    apply app_nil_r.
  - rewrite firstn_app, Nat.sub_diag, firstn_all. cbn [firstn].
    apply app_nil_r.
  - reflexivity.
Qed.

(** X8.  For a file named by the convention
    [{symbol}_exp{expiration}_{date}_{time}.csv], with no underscore inside
    the four components, the loop body parses exactly [{date}_{time}] as
    the timestamp, then reads the file and computes the metric. *)
Theorem process_file_conventional_name (self : NetGEX)
    (symbol expiration date time : string) :
  count "_" symbol = O -> count "_" expiration = O ->
  count "_" date = O -> count "_" time = O ->
  let name := snapshot_name symbol expiration date time in
  process_file self name
  = (timestamp <- strptime (date ++ "_" ++ time) "%Y-%m-%d_%H-%M-%S" ;;
     df <- read_csv (data_dir self) name ;;
     net_gex <- _compute_net_gex_near_spot str_to_float self df ;;
     Ok (Some (timestamp, net_gex))).
Proof.
  intros Hs He Hd Ht name. unfold NetGEX.process_file, name.
  rewrite split_snapshot_name by assumption. reflexivity.
Qed.

(** X9.  An underscore inside the symbol shifts the parts: for the symbol
    [{a}_{b}] the loop body parses [exp{expiration}_{date}] as the
    timestamp instead of [{date}_{time}]. *)
Theorem process_file_underscore_symbol (self : NetGEX)
    (a b expiration date time : string) :
  count "_" a = O -> count "_" b = O -> count "_" expiration = O ->
  count "_" date = O -> count "_" time = O ->
  let name := snapshot_name (a ++ "_" ++ b) expiration date time in
  process_file self name
  = (timestamp <- strptime (("exp" ++ expiration) ++ "_" ++ date)
                    "%Y-%m-%d_%H-%M-%S" ;;
     df <- read_csv (data_dir self) name ;;
     net_gex <- _compute_net_gex_near_spot str_to_float self df ;;
     Ok (Some (timestamp, net_gex))).
Proof.
  intros Ha Hb He Hd Ht name. unfold NetGEX.process_file, name, snapshot_name.
  replace ((a ++ "_" ++ b) ++ "_exp" ++ expiration ++ "_" ++ date ++ "_"
           ++ time ++ ".csv")
    with ((a ++ "_" ++ b ++ "_exp" ++ expiration ++ "_" ++ date ++ "_" ++ time)
          ++ ".csv")
    by (rewrite !append_assoc; reflexivity).
  rewrite stem_csv by (destruct a; discriminate).
  change (a ++ "_" ++ b ++ "_exp" ++ expiration ++ "_" ++ date ++ "_" ++ time)
    with (a ++ String "_" (b ++ String "_" (("exp" ++ expiration)
                                 ++ String "_" (date ++ String "_" time)))).
  rewrite (split_segment "_" a) by exact Ha.
  rewrite (split_segment "_" b) by exact Hb.
  rewrite (split_segment "_" ("exp" ++ expiration)) by exact He.
  rewrite (split_segment "_" date) by exact Hd.
  rewrite (split_without "_" time) by exact Ht.
  reflexivity.
Qed.

(** X10.  Files whose stem has fewer than three underscores are skipped
    without a word: when every matched file is such a file, a fresh object
    raises the no-valid-data error and nothing at all is printed. *)
Theorem short_names_skipped_silently (self : NetGEX)
    (symbol expirationFilter : string) (sampleDate : option string) :
  let matched := glob (data_dir self) (pattern symbol expirationFilter sampleDate) in
  timestamps self = [] ->
  matched <> [] ->
  (forall f, In f matched -> (count "_" (stem f) < 3)%nat) ->
  load_and_calculate self (Some symbol) (Some expirationFilter) sampleDate
  = ([], Raise NoValidData).
Proof.
  intros matched Hts Hm Hshort.
  rewrite load_and_calculate_cases. cbv zeta. fold matched.
  assert (Hall : forall f, In f (sorted matched) -> process_file self f = Ok None).
  { intros f Hin. unfold NetGEX.process_file.
    assert (Hc : (count "_" (stem f) < 3)%nat).
    { apply Hshort.
      apply (Permutation_in f (Permutation_sym (StringSort.Permuted_sort matched))).
      exact Hin. }
    rewrite length_split.
    assert (Hb : (4 <=? S (count "_" (stem f)))%nat = false)
      by (apply Nat.leb_gt; lia).
    rewrite Hb. reflexivity. }
  assert (He : entries self (sorted matched) = []
               /\ warnings self (sorted matched) = []).
  { clear Hshort. induction (sorted matched) as [|f rest IH]; [split; reflexivity|].
    cbn [LoaderSpec.entries LoaderSpec.warnings].
    rewrite (Hall f (or_introl eq_refl)).
    apply IH. intros g Hg. apply Hall. right; exact Hg. }
  destruct He as [He Hw]. rewrite He, Hw.
  destruct matched; [contradiction|]. rewrite Hts. reflexivity.
Qed.

End Environment.

Import LoaderExample.

Definition loaded_once : NetGEX :=
  extended default
    [(at_time 9 0 0, Fin (-200000.00000000));
     (at_time 9 5 0, Fin (-200000.00000000));
     (at_time 9 30 0, Fin (-200000.00000000))].

Lemma load_twice_duplicates_witness :
  exists s2,
    snd (load_and_calculate no_number listing read_all LoaderExample.strptime
           loaded_once (Some "$SPX") (Some "2025-12-24") None) = Ok s2
    /\ List.length (timestamps s2) = 6%nat.
Proof.
  destruct (load_twice_duplicates no_number listing read_all
              LoaderExample.strptime default loaded_once
              "$SPX" "2025-12-24" None eq_refl) as (s2 & H2 & Hts & _).
  exists s2. split; [exact H2|]. rewrite Hts. reflexivity.
Defined.

Lemma stale_series_hides_failure_witness :
  exists s',
    snd (load_and_calculate no_number listing read_nothing LoaderExample.strptime
           loaded_once (Some "$SPX") (Some "2025-12-24") None) = Ok s'
    /\ timestamps s' = timestamps loaded_once
    /\ net_gex_values s' = net_gex_values loaded_once.
Proof.
  apply (stale_series_hides_failure no_number listing read_nothing
           LoaderExample.strptime loaded_once "$SPX" "2025-12-24" None).
  - discriminate.
  - discriminate.
  - intros f [<-|[<-|[<-|[]]]]; reflexivity.
Defined.

Lemma load_keeps_series_aligned_witness :
  List.length (timestamps loaded_once) = List.length (net_gex_values loaded_once)
  /\ firstn 0 (timestamps loaded_once) = timestamps default.
Proof.
  destruct (load_keeps_series_aligned no_number listing read_all
              LoaderExample.strptime default loaded_once
              "$SPX" "2025-12-24" None eq_refl eq_refl) as (Hlen & Hpre & _).
  split; [exact Hlen|exact Hpre].
Defined.

Lemma process_file_conventional_name_witness :
  process_file no_number read_all LoaderExample.strptime default file_0900
  = Ok (Some (at_time 9 0 0, Fin (-200000.00000000))).
Proof.
  pose proof (process_file_conventional_name no_number read_all
                LoaderExample.strptime default "$SPX" "2025-12-24" "2025-12-18"
                "09-00-00" eq_refl eq_refl eq_refl eq_refl) as H.
  cbv zeta in H.
  change (snapshot_name "$SPX" "2025-12-24" "2025-12-18" "09-00-00")
    with file_0900 in H.
  rewrite H. reflexivity.
Defined.

Lemma process_file_underscore_symbol_witness :
  exists e,
    process_file no_number read_all LoaderExample.strptime default
      "BRK_B_exp2025-12-24_2025-12-18_09-00-00.csv" = Raise e.
Proof.
  pose proof (process_file_underscore_symbol no_number read_all
                LoaderExample.strptime default "BRK" "B" "2025-12-24"
                "2025-12-18" "09-00-00" eq_refl eq_refl eq_refl eq_refl eq_refl)
    as H.
  cbv zeta in H.
  change (snapshot_name ("BRK" ++ "_" ++ "B") "2025-12-24" "2025-12-18" "09-00-00")
    with "BRK_B_exp2025-12-24_2025-12-18_09-00-00.csv" in H.
  rewrite H. eexists. reflexivity.
Defined.

Definition short_listing (dir pattern : string) : list string :=
  ["$SPX_exp2025-12-24_latest.csv"].

Lemma short_names_skipped_silently_witness :
  load_and_calculate no_number short_listing read_all LoaderExample.strptime
    default (Some "$SPX") (Some "2025-12-24") None
  = ([], Raise NoValidData).
Proof.
  apply (short_names_skipped_silently no_number short_listing read_all
           LoaderExample.strptime default "$SPX" "2025-12-24" None).
  - reflexivity.
  - discriminate.
  - intros f [<-|[]]. vm_compute. lia.
Defined.

End LoaderMore.

(* ================================================================== *)
(** * GEX: coercion of the numeric columns *)
(* ================================================================== *)

Module PrepareFacts.
Import GEX FrameFacts ZeroGamma GEXFacts.

(** A column that holds numbers only. *)
Definition numeric_column (d : DataFrame) (c : string) : Prop :=
  exists l, getcol d c = Ok (map Flt l).

Section WithParser.

Variable parse : string -> option float.

Lemma to_numeric_coerce_floats_only (s : Series) :
  exists l, to_numeric_coerce parse s = map Flt l.
Proof.
  induction s as [|c s (l & IH)]; [exists []; reflexivity|].
  unfold to_numeric_coerce in *. cbn [map]. rewrite IH.
  destruct c as [f|t]; [exists (f :: l); reflexivity|].
  destruct (parse t) as [f|]; [exists (f :: l)|exists (NaN :: l)]; reflexivity.
Qed.

Lemma length_to_numeric_coerce (s : Series) :
  List.length (to_numeric_coerce parse s) = List.length s.
Proof. unfold to_numeric_coerce. apply length_map. Qed.

Lemma has_column_setcol_present (d : DataFrame) (n m : string) (vs : Series) :
  has_column d n = true ->
  has_column (setcol d n vs) m = has_column d m.
Proof.
  intro H. unfold setcol. unfold has_column in *. cbn [columns].
  rewrite H. reflexivity.
Qed.

Lemma getcol_present (d : DataFrame) (c : string) :
  has_column d c = true -> exists s, getcol d c = Ok s.
Proof. intro H. unfold getcol. rewrite H. eexists. reflexivity. Qed.

(** Writing numbers into a column keeps every numeric column numeric. *)
Lemma numeric_column_setcol (d : DataFrame) (n m : string) (l : list float) :
  List.length l = len d ->
  numeric_column d m \/ m = n ->
  numeric_column (setcol d n (map Flt l)) m.
Proof.
  intros Hlen H. destruct (String.eqb m n) eqn:E.
  - apply String.eqb_eq in E. subst m. exists l.
    apply getcol_setcol_same. rewrite length_map. exact Hlen.
  - destruct H as [(l' & H)|H].
    + exists l'. rewrite getcol_setcol_other by exact E. exact H.
    + subst m. rewrite String.eqb_refl in E. discriminate.
Qed.

(** The coercion loop succeeds on every frame that has the columns, keeps
    the columns and the length, and leaves the listed columns numeric. *)
Lemma coerce_columns_present (cols : list string) :
  forall d : DataFrame,
    (forall c, In c cols -> has_column d c = true) ->
    exists d',
      coerce_columns parse d cols = Ok d'
      /\ len d' = len d
      /\ (forall m, has_column d' m = has_column d m)
      /\ (forall m, numeric_column d m \/ In m cols -> numeric_column d' m).
Proof.
  induction cols as [|c cols IH]; intros d Hcols.
  - exists d. repeat split; try reflexivity. intros m [H|[]]. exact H.
  - assert (Hc : has_column d c = true) by (apply Hcols; left; reflexivity).
    destruct (getcol_present d c Hc) as (s & Hs).
    destruct (to_numeric_coerce_floats_only s) as (l & Hl).
    assert (Hlen : List.length l = len d).
    { rewrite <- (getcol_length d c s Hs), <- (length_to_numeric_coerce s), Hl.
      symmetry. apply length_map. }
    cbn [coerce_columns]. rewrite Hs. cbn [bind]. rewrite Hl.
    destruct (IH (setcol d c (map Flt l))) as (d' & Hd' & Hlen' & Hhas & Hnum).
    { intros c' Hin. rewrite has_column_setcol_present by exact Hc.
      apply Hcols. right; exact Hin. }
    exists d'. split; [exact Hd'|]. split; [|split].
    + rewrite Hlen'. apply len_setcol.
    + intro m. rewrite Hhas. apply has_column_setcol_present. exact Hc.
    + intros m Hm. apply Hnum.
      destruct Hm as [Hm|[Hm|Hm]].
      * left. apply numeric_column_setcol; [exact Hlen|left; exact Hm].
      * left. apply numeric_column_setcol; [exact Hlen|right; symmetry; exact Hm].
      * right. exact Hm.
Qed.

(** The coercion loop stops at the first missing column. *)
Lemma coerce_columns_missing (cols : list string) :
  forall d : DataFrame,
    (exists c, In c cols /\ has_column d c = false) ->
    exists c,
      In c cols /\ has_column d c = false
      /\ coerce_columns parse d cols = Raise (KeyError (Str c)).
Proof.
  induction cols as [|c cols IH]; intros d (c0 & Hin & Hmiss); [contradiction|].
  cbn [coerce_columns]. unfold getcol at 1.
  destruct (has_column d c) eqn:Hc.
  - cbn [bind]. destruct Hin as [->|Hin]; [congruence|].
    destruct (IH (setcol d c (to_numeric_coerce parse
                                (map (fun r => r (Str c)) (rows d)))))
      as (c1 & Hin1 & Hm1 & Hr).
    { exists c0. split; [exact Hin|].
      rewrite has_column_setcol_present by exact Hc. exact Hmiss. }
    exists c1. split; [right; exact Hin1|]. split; [|exact Hr].
    rewrite has_column_setcol_present in Hm1 by exact Hc. exact Hm1.
  - exists c. split; [left; reflexivity|]. split; [exact Hc|reflexivity].
Qed.

(** X14.  [_prepare_data] never fails on the content of a cell: on every
    frame that has the four numeric columns it returns, text included
    (coerced to a number or to NaN), and the [gex] column it adds holds
    numbers only; when a numeric column is missing it raises the
    [KeyError] of a missing column. *)
Theorem prepare_data_total (self : GEX) :
  ((forall c, In c numeric_columns -> has_column (df self) c = true) ->
   exists g,
     _prepare_data parse self = Ok g
     /\ len (df g) = len (df self)
     /\ numeric_column (df g) "gex"
     /\ (forall c, In c numeric_columns -> numeric_column (df g) c))
  /\ ((exists c, In c numeric_columns /\ has_column (df self) c = false) ->
      exists c,
        In c numeric_columns /\ has_column (df self) c = false
        /\ _prepare_data parse self = Raise (KeyError (Str c))).
Proof.
  split.
  - intro Hcols.
    destruct (coerce_columns_present numeric_columns (df self) Hcols)
      as (d & Hd & Hlen & Hhas & Hnum).
    unfold _prepare_data. rewrite Hd. cbn [bind].
    destruct (Hnum "gamma") as (g & Hg); [right; cbn; tauto|].
    destruct (Hnum "open_interest") as (oi & Hoi); [right; cbn; tauto|].
    destruct (Hnum "underlying_price") as (up & Hup); [right; cbn; tauto|].
    rewrite Hg, Hoi. cbn [bind]. rewrite !numeric_floats. cbn [bind].
    rewrite Hup. cbn [bind]. rewrite numeric_floats. cbn [bind].
    eexists. split; [reflexivity|]. cbn [df].
    assert (Hg_len : List.length g = len d)
      by (rewrite <- (getcol_length d _ _ Hg); symmetry; apply length_map).
    assert (Hoi_len : List.length oi = len d)
      by (rewrite <- (getcol_length d _ _ Hoi); symmetry; apply length_map).
    assert (Hup_len : List.length up = len d)
      by (rewrite <- (getcol_length d _ _ Hup); symmetry; apply length_map).
    assert (Hzip : forall (A B C : Type) (f : A -> B -> C) (l : list A)
                     (m : list B),
               List.length l = List.length m ->
               List.length (zip_with f l m) = List.length l).
    { intros A B C f l. induction l as [|a l IH]; intros [|b m] Hl;
        try discriminate; [reflexivity|].
      cbn. f_equal. apply IH. cbn in Hl. lia. }
    assert (Hgex_len :
              List.length
                (zip_with Float.mul
                   (map (fun x => (x * MULTIPLIER)%flt) (zip_with Float.mul g oi))
                   up) = len d).
    { rewrite Hzip; rewrite length_map, Hzip; lia. }
    split; [rewrite len_setcol; exact Hlen|]. split.
    + unfold of_floats. apply numeric_column_setcol;
        [exact Hgex_len|right; reflexivity].
    + intros c Hc. unfold of_floats. apply numeric_column_setcol;
        [exact Hgex_len|left; apply Hnum; right; exact Hc].
  - intro Hmiss.
    destruct (coerce_columns_missing numeric_columns (df self) Hmiss)
      as (c & Hin & Hc & Hr).
    exists c. split; [exact Hin|]. split; [exact Hc|].
    unfold _prepare_data. rewrite Hr. reflexivity.
Qed.

End WithParser.

Lemma prepare_data_total_witness :
  exists g,
    _prepare_data (fun _ => None)
      (mkGEX "data" (LoaderExample.corrupt_gamma (to_frame LoaderExample.chain)))
    = Ok g
    /\ numeric_column (df g) "gex".
Proof.
  destruct (proj1 (prepare_data_total (fun _ => None)
                     (mkGEX "data" (LoaderExample.corrupt_gamma
                                      (to_frame LoaderExample.chain)))))
    as (g & Hg & _ & Hgex & _).
  - intros c [<-|[<-|[<-|[<-|[]]]]]; reflexivity.
  - exists g. split; assumption.
Defined.

End PrepareFacts.

(* ================================================================== *)
(** * Aggregation by strike: shape of the result *)
(* ================================================================== *)

Module AggregateMore.
Import GEX AggregateSpec FrameFacts ZeroGamma DGIFacts GEXFacts SumFacts.

(** The frame returned when both contract types occur. *)
Definition net_cells (snapshot : list OptionRow) (ks : list Q) : Series :=
  map (fun k => Flt (Fin (group_exposure 100 snapshot k CALL
                          - group_exposure 100 snapshot k PUT))) ks.

Lemma aggregate_frame (parse : string -> option float)
    (snapshot : list OptionRow) (lo hi : option Q) :
  occurs CALL snapshot = true -> occurs PUT snapshot = true ->
  let ks := filter (in_range lo hi) (distinct_strikes snapshot) in
  aggregate parse snapshot lo hi
  = Ok (setcol (pivot snapshot ks) "net_gamma" (net_cells snapshot ks)).
Proof.
  intros Hc Hp ks. rewrite aggregate_pivot. cbv zeta. fold ks.
  pose proof (getcol_pivot_type snapshot ks CALL) as HC.
  pose proof (getcol_pivot_type snapshot ks PUT) as HP.
  cbn [type_name] in HC, HP. rewrite Hc in HC. rewrite Hp in HP.
  rewrite HC. cbn [bind]. rewrite HP. cbn [bind].
  rewrite !numeric_floats. cbn [bind].
  rewrite zip_with_map. unfold of_floats, net_cells. rewrite map_map.
  reflexivity.
Qed.

Lemma getcol_frame_strike (snapshot : list OptionRow) (ks : list Q) :
  getcol (setcol (pivot snapshot ks) "net_gamma" (net_cells snapshot ks)) "strike"
  = Ok (map Flt (map Fin ks)).
Proof.
  rewrite getcol_setcol_other by reflexivity. apply getcol_pivot_strike.
Qed.

Lemma in_range_compat (lo hi : option Q) (x y : Q) :
  x == y -> in_range lo hi x = in_range lo hi y.
Proof.
  intro H. unfold in_range.
  assert (Hle : forall a b c d, a == b -> c == d -> Qle_bool a c = Qle_bool b d).
  { intros a b c d Hab Hcd.
    destruct (Qle_bool a c) eqn:E1, (Qle_bool b d) eqn:E2; try reflexivity.
    - apply Qle_bool_iff in E1. rewrite Hab, Hcd in E1.
      apply Qle_bool_iff in E1. congruence.
    - apply Qle_bool_iff in E2. rewrite <- Hab, <- Hcd in E2.
      apply Qle_bool_iff in E2. congruence. }
  destruct lo as [lo|], hi as [hi|]; cbn [andb];
    rewrite ?(Hle lo lo x y), ?(Hle x y hi hi); try reflexivity; assumption.
Qed.

(** X15.  When both contract types occur, the strike column of the result
    is strictly ascending (each strike once), holds only strikes of the
    snapshot that lie in the requested range, and holds every strike of the
    snapshot that lies in the range. *)
Theorem aggregate_strike_column (parse : string -> option float)
    (snapshot : list OptionRow) (lo hi : option Q) :
  occurs CALL snapshot = true -> occurs PUT snapshot = true ->
  exists g ks,
    aggregate parse snapshot lo hi = Ok g
    /\ getcol g "strike" = Ok (map Flt (map Fin ks))
    /\ Sorted Qlt ks
    /\ (forall k, In k ks ->
          in_range lo hi k = true
          /\ exists row, In row snapshot /\ k = strike row)
    /\ (forall row, In row snapshot ->
          in_range lo hi (strike row) = true ->
          exists k, In k ks /\ k == strike row).
Proof.
  intros Hc Hp.
  exists (setcol (pivot snapshot
                    (filter (in_range lo hi) (distinct_strikes snapshot)))
            "net_gamma"
            (net_cells snapshot
               (filter (in_range lo hi) (distinct_strikes snapshot)))),
    (filter (in_range lo hi) (distinct_strikes snapshot)).
  split; [apply aggregate_frame; assumption|].
  split; [apply getcol_frame_strike|].
  split; [apply Sorted_filter, distinct_strikes_sorted|]. split.
  - intros k Hk. apply filter_In in Hk. destruct Hk as [Hk Hr].
    split; [exact Hr|]. apply distinct_strikes_sound. exact Hk.
  - intros row Hin Hr.
    destruct (distinct_strikes_complete snapshot row Hin) as (k & Hk & Heq).
    exists k. split; [|exact Heq].
    apply filter_In. split; [exact Hk|].
    rewrite (in_range_compat lo hi k (strike row) Heq). exact Hr.
Qed.

Lemma aggregate_strike_column_witness :
  exists g ks,
    aggregate (fun _ => None) CurveExample.falling (Some 105) None = Ok g
    /\ getcol g "strike" = Ok (map Flt (map Fin ks))
    /\ Sorted Qlt ks.
Proof.
  destruct (aggregate_strike_column (fun _ => None) CurveExample.falling
              (Some 105) None eq_refl eq_refl) as (g & ks & Hg & Hk & Hs & _).
  exists g, ks. repeat split; assumption.
Defined.

(** ** Totals *)

End AggregateMore.

(* ================================================================== *)
(** * Zero-gamma level: only the first two points count *)
(* ================================================================== *)

Module ZeroGammaMore.
Import GEX GEXData ZeroGamma.

(** X17.  On two or more points the result is decided by the first two
    points alone: the points that follow them, and so every later change
    of sign, are never looked at, and the result is a number, never
    [None]. *)
Theorem find_zero_gamma_level_first_two
    (parse : string -> option float) (p0 p1 : Q * Q) (rest : list (Q * Q)) :
  find_zero_gamma_level parse (curve (p0 :: p1 :: rest))
  = find_zero_gamma_level parse (curve [p0; p1])
  /\ exists v,
       find_zero_gamma_level parse (curve (p0 :: p1 :: rest)) = Ok (Some v).
Proof.
  rewrite !find_zero_gamma_level_two_points.
  split; [reflexivity|]. eexists. reflexivity.
Qed.

End ZeroGammaMore.

(* ================================================================== *)
(** * The order of file names *)
(* ================================================================== *)

Module OrderFacts.
Import Py.

Lemma ascii_compare_lt_trans (a b c : ascii) :
  Ascii.compare a b = Lt -> Ascii.compare b c = Lt -> Ascii.compare a c = Lt.
Proof. unfold Ascii.compare. rewrite !BinNat.N.compare_lt_iff. apply BinNat.N.lt_trans. Qed.

Lemma compare_lt_trans : forall a b c : string,
  String.compare a b = Lt -> String.compare b c = Lt -> String.compare a c = Lt.
Proof.
  induction a as [|x a IH]; intros [|y b] [|z c]; cbn;
    try discriminate; try reflexivity.
  destruct (Ascii.compare x y) eqn:Hxy; try discriminate.
  - apply Ascii.compare_eq_iff in Hxy. subst y.
    destruct (Ascii.compare x z); try discriminate; [|reflexivity].
    apply IH.
  - intros _. destruct (Ascii.compare y z) eqn:Hyz; try discriminate.
    + apply Ascii.compare_eq_iff in Hyz. subst z. rewrite Hxy. reflexivity.
    + intros _. rewrite (ascii_compare_lt_trans _ _ _ Hxy Hyz). reflexivity.
Qed.

Lemma leb_trans (a b c : string) :
  String.leb a b = true -> String.leb b c = true -> String.leb a c = true.
Proof.
  unfold String.leb. intros Hab Hbc.
  destruct (String.compare a b) eqn:E1; try discriminate.
  - apply String.compare_eq_iff in E1. subst b. exact Hbc.
  - destruct (String.compare b c) eqn:E2; try discriminate.
    + apply String.compare_eq_iff in E2. subst c. rewrite E1. reflexivity.
    + rewrite (compare_lt_trans _ _ _ E1 E2). reflexivity.
Qed.

Lemma leb_refl (a : string) : String.leb a a = true.
Proof. destruct (String.leb_total a a); assumption. Qed.

Lemma last_In {A : Type} (l : list A) (d : A) : l <> [] -> In (last l d) l.
Proof.
  induction l as [|a [|b l] IH]; intro H; [contradiction|left; reflexivity|].
  right. apply IH. discriminate.
Qed.

Lemma StronglySorted_last (l : list string) (d : string) :
  StronglySorted (fun a b => String.leb a b = true) l ->
  forall f, In f l -> String.leb f (last l d) = true.
Proof.
  induction 1 as [|a l Hl IH Ha]; intros f Hf; [contradiction|].
  destruct l as [|b l].
  - destruct Hf as [<-|[]]. apply leb_refl.
  - change (last (a :: b :: l) d) with (last (b :: l) d).
    destruct Hf as [<-|Hf]; [|apply IH; exact Hf].
    rewrite Forall_forall in Ha. apply Ha. apply last_In. discriminate.
Qed.

Lemma sorted_strongly (l : list string) :
  StronglySorted (fun a b => String.leb a b = true) (sorted l).
Proof.
  apply StringSort.StronglySorted_sort.
  intros a b c. apply leb_trans.
Qed.

Lemma sorted_nil (l : list string) : sorted l = [] -> l = [].
Proof.
  intro H. apply Permutation_nil. rewrite <- H.
  apply Permutation_sym, StringSort.Permuted_sort.
Qed.

(** The last name of the sorted listing is one of the names listed, and no
    name listed comes after it. *)
Lemma last_sorted_greatest (l : list string) (d : string) :
  l <> [] ->
  In (last (sorted l) d) l
  /\ forall f, In f l -> String.leb f (last (sorted l) d) = true.
Proof.
  intro Hne.
  pose proof (StringSort.Permuted_sort l) as Hp. fold (sorted l) in Hp.
  split.
  - apply (Permutation_in _ (Permutation_sym Hp)). apply last_In.
    intro H. apply Hne, sorted_nil, H.
  - intros f Hf. apply StronglySorted_last; [apply sorted_strongly|].
    apply (Permutation_in _ Hp), Hf.
Qed.

End OrderFacts.

(* ================================================================== *)
(** * charts/GEX.py: construction from a directory *)
(* ================================================================== *)

Module GEXLoaderFacts.
Import Py GEX GEXLoader OrderFacts.

Section Environment.

Variable str_to_float : string -> option float.
Variable glob : string -> string -> list string.
Variable read_csv : string -> string -> result DataFrame.
Variable read_csv_path : string -> result DataFrame.

Local Abbreviation construct :=
  (construct str_to_float glob read_csv read_csv_path).

(** X18.  [GEX(symbol, expiration_date, data_dir)] raises the no-files
    ValueError when the pattern [{symbol}_exp{expiration_date}_*.csv]
    matches nothing; otherwise it reads exactly one of the matched files,
    the one no other matched name follows in the order of strings,
    whatever the order of the directory listing, and prepares its frame as
    the constructor does for a frame given in memory. *)
Theorem construct_from_directory (symbol expiration_date data_dir : string) :
  let matched := glob data_dir (symbol ++ "_exp" ++ expiration_date ++ "_*.csv") in
  (matched = []
   /\ construct (Some symbol) (Some expiration_date) data_dir None None
      = Raise (ValueError ("No option chain CSV files found for symbol "
                           ++ symbol ++ " with expiration " ++ expiration_date
                           ++ " in " ++ data_dir)))
  \/ (exists latest_file,
        In latest_file matched
        /\ (forall f, In f matched -> String.leb f latest_file = true)
        /\ construct (Some symbol) (Some expiration_date) data_dir None None
           = (df <- read_csv data_dir latest_file ;;
              __init__ str_to_float data_dir df)).
Proof.
  intro matched. unfold GEXLoader.construct, _load_data. fold matched.
  destruct matched as [|f0 rest] eqn:Hm.
  - left. split; reflexivity.
  - right. exists (latest (sorted (f0 :: rest))).
    destruct (last_sorted_greatest (f0 :: rest) "") as [Hin Hmax];
      [discriminate|].
    split; [exact Hin|]. split; [exact Hmax|].
    destruct (sorted (f0 :: rest)) eqn:Hs.
    + apply sorted_nil in Hs. discriminate.
    + cbn [NetGEX.is_nil]. reflexivity.
Qed.

End Environment.

End GEXLoaderFacts.

(* ================================================================== *)
(** * utils/black_scholes.py: where gamma peaks *)
(* ================================================================== *)

Module BlackScholesMore.
Import BlackScholes BlackScholesFacts.

Local Open Scope R_scope.

(** The density is greatest at 0. *)
Lemma normPdf_max (x : R) : normPdf x <= normPdf 0.
Proof.
  unfold normPdf. apply Rmult_le_compat_r.
  - left. apply Rinv_0_lt_compat, sqrt_2pi_pos.
  - assert (H : - 0.5 * x ^ 2 <= - 0.5 * 0 ^ 2) by (pose proof (pow2_ge_0 x); lraR).
    destruct H as [H|H]; [left; apply exp_increasing, H|right; rewrite H; reflexivity].
Qed.

Lemma floor_at_high (x : R) : epsilon <= x -> floor_at x = x.
Proof. intro H. unfold floor_at. apply Rmax_left. exact H. Qed.

Lemma floor_at_ge (x : R) : epsilon <= floor_at x.
Proof. unfold floor_at. apply Rmax_r. Qed.

(** X20.  With [q <= r], and the inputs floored as the code floors them,
    gamma as a function of the strike is greatest at the strike
    [s * exp((r - q + sigma^2 / 2) * t)], which lies strictly above the
    spot: no strike gives a larger gamma. *)
Theorem bs_gamma_peak_strike (s k t sigma r q : R) :
  q <= r ->
  let s' := Rmax s 1e-12 in
  let t' := Rmax t 1e-12 in
  let sigma' := Rmax sigma 1e-12 in
  let peak := s' * exp ((r - q + 0.5 * sigma' ^ 2) * t') in
  s' < peak
  /\ exists g gmax,
       bs_gamma s k t sigma r q = Some g
       /\ bs_gamma s peak t sigma r q = Some gmax
       /\ g <= gmax.
Proof.
  intros Hrq s' t' sigma' peak.
  fold epsilon in s', t', sigma'.
  fold (floor_at s) in s'. fold (floor_at t) in t'. fold (floor_at sigma) in sigma'.
  pose proof (floor_at_pos s) as Hs. fold s' in Hs.
  pose proof (floor_at_pos t) as Ht. fold t' in Ht.
  pose proof (floor_at_pos sigma) as Hv. fold sigma' in Hv.
  pose proof (sqrt_lt_R0 _ Ht) as Hrt.
  set (c := (r - q + 0.5 * sigma' ^ 2) * t') in *.
  assert (Hc : 0 < c).
  { unfold c. apply Rmult_lt_0_compat; [|exact Ht].
    assert (0 < sigma' ^ 2) by (apply pow_lt; exact Hv). lraR. }
  assert (Hexp : 1 < exp c) by (pose proof (exp_ineq1 c (Rgt_not_eq _ _ Hc)); lraR).
  assert (Hpeak : s' < peak).
  { unfold peak. rewrite <- (Rmult_1_r s') at 1.
    apply Rmult_lt_compat_l; assumption. }
  split; [exact Hpeak|].
  rewrite !bs_gamma_defined. fold s' t' sigma'.
  assert (Hfloor : floor_at peak = peak).
  { apply floor_at_high. pose proof (floor_at_ge s) as H. fold s' in H. lraR. }
  rewrite Hfloor.
  eexists. eexists. split; [reflexivity|]. split; [reflexivity|].
  unfold bsGamma_formula. cbv zeta. fold c.
  assert (Hd : 0 < s' * sigma' * sqrt t')
    by (repeat apply Rmult_lt_0_compat; assumption).
  apply Rmult_le_compat_r; [left; apply Rinv_0_lt_compat, Hd|].
  assert (Hzero : (ln (s' / peak) + c) / (sigma' * sqrt t') = 0).
  { unfold peak.
    replace (s' / (s' * exp c)) with (exp (- c)).
    - rewrite ln_exp. unfold Rdiv. ring.
    - rewrite exp_Ropp. field. split; [apply Rgt_not_eq, exp_pos|lraR]. }
  rewrite Hzero. apply normPdf_max.
Qed.

Lemma bs_gamma_peak_strike_witness :
  Rmax 100 1e-12 < Rmax 100 1e-12 * exp ((0 - 0 + 0.5 * Rmax 0.2 1e-12 ^ 2) * Rmax 1 1e-12)
  /\ exists g gmax,
       bs_gamma 100 100 1 0.2 0 0 = Some g
       /\ bs_gamma 100
            (Rmax 100 1e-12
             * exp ((0 - 0 + 0.5 * Rmax 0.2 1e-12 ^ 2) * Rmax 1 1e-12))
            1 0.2 0 0 = Some gmax
       /\ g <= gmax.
Proof.
  apply (bs_gamma_peak_strike 100 100 1 0.2 0 0). lraR.
Defined.

End BlackScholesMore.

(* ================================================================== *)
(** * Comparisons and clipping in float64 *)
(* ================================================================== *)

Module Binary64Facts.
Import Binary64.

Lemma lt_le (a b : float64) : lt a b = true -> le a b = true.
Proof.
  unfold lt, le, SpecFloat.SFltb, SpecFloat.SFleb.
  destruct (SpecFloat.SFcompare a b) as [[| |]|]; try discriminate; reflexivity.
Qed.

Lemma le_not_nan (a b : float64) :
  le a b = true -> isnan a = false /\ isnan b = false.
Proof.
  unfold le, SpecFloat.SFleb.
  destruct a, b; cbn; try discriminate; split; reflexivity.
Qed.

(** A clipped value is NaN, and then the value clipped was NaN, or it lies
    between the bounds. *)
Lemma clip_unit (x : float64) :
  (isnan x = true /\ clip x (of_Z (-1)) (of_Z 1) = x)
  \/ (le (of_Z (-1)) (clip x (of_Z (-1)) (of_Z 1)) = true
      /\ le (clip x (of_Z (-1)) (of_Z 1)) (of_Z 1) = true).
Proof.
  unfold clip, clip_max.
  destruct (isnan x) eqn:Hnan.
  - left. split; [reflexivity|]. unfold clip_min. rewrite Hnan. reflexivity.
  - right. destruct (gt x (of_Z (-1))) eqn:Hlo.
    + unfold clip_min. rewrite Hnan.
      destruct (lt x (of_Z 1)) eqn:Hhi.
      * split; [apply lt_le, Hlo|apply lt_le, Hhi].
      * split; reflexivity.
    + split; reflexivity.
Qed.

Lemma compare_antisym (a b : float64) :
  SpecFloat.SFcompare b a = option_map CompOpp (SpecFloat.SFcompare a b).
Proof.
  destruct a as [sa|sa| |sa ma ea], b as [sb|sb| |sb mb eb]; cbn;
    try reflexivity;
    try (destruct sa; reflexivity); try (destruct sb; reflexivity);
    try (destruct sa, sb; reflexivity).
  assert (Hm : Pos.compare_cont Eq mb ma = CompOpp (Pos.compare_cont Eq ma mb))
    by (rewrite Pos.compare_cont_antisym; reflexivity).
  destruct sa, sb; try reflexivity; cbn;
    rewrite (Z.compare_antisym ea eb);
    destruct (ea ?= eb)%Z; cbn; try reflexivity;
    rewrite Hm; destruct (Pos.compare_cont Eq ma mb); reflexivity.
Qed.

(** Only a number itself compares equal to a number that is not zero. *)
Lemma compare_Eq_finite (a : float64) (s : bool) (m : positive) (e : Z) :
  SpecFloat.SFcompare a (SpecFloat.S754_finite s m e) = Some Eq ->
  a = SpecFloat.S754_finite s m e.
Proof.
  destruct a as [sa|sa| |sa ma ea]; cbn.
  - destruct s; discriminate.
  - destruct sa; discriminate.
  - discriminate.
  - destruct sa, s; try discriminate;
      destruct (ea ?= e)%Z eqn:He; try discriminate;
      apply Z.compare_eq in He; subst ea; intro H; injection H as H.
    + destruct (Pos.compare_cont Eq ma m) eqn:Hm; try discriminate.
      apply Pos.compare_eq in Hm. subst ma. reflexivity.
    + apply Pos.compare_eq in H. subst ma. reflexivity.
Qed.

(** [np.maximum] floors: an input at or below a bound that is a number
    other than zero is replaced by the bound. *)
Lemma maximum_floor (x : float64) (s : bool) (m : positive) (e : Z) :
  le x (SpecFloat.S754_finite s m e) = true ->
  maximum x (SpecFloat.S754_finite s m e) = SpecFloat.S754_finite s m e.
Proof.
  intro Hle. destruct (le_not_nan _ _ Hle) as [Hx _].
  unfold maximum. rewrite Hx, orb_false_r.
  destruct (ge x (SpecFloat.S754_finite s m e)) eqn:Hge; [|reflexivity].
  apply compare_Eq_finite.
  unfold ge, le, SpecFloat.SFleb in Hge, Hle.
  rewrite compare_antisym in Hge.
  destruct (SpecFloat.SFcompare x (SpecFloat.S754_finite s m e)) as [[| |]|];
    cbn in Hge; try discriminate; reflexivity.
Qed.

Lemma add_nan_r (x : float64) : add x nan = nan.
Proof. destruct x; reflexivity. Qed.

Lemma div_nan_l (x : float64) : div nan x = nan.
Proof. reflexivity. Qed.

End Binary64Facts.

(* ================================================================== *)
(** * Frames of float64 snapshots *)
(* ================================================================== *)

Module Frame64Facts.
Import Binary64 Frame64 Snapshot64.

Lemma numeric_of_floats (l : list float64) : numeric (map F64 l) = Ok l.
Proof.
  unfold numeric. induction l as [|a l IH]; [reflexivity|].
  cbn [map mapM numeric_cell bind]. rewrite IH. reflexivity.
Qed.

Lemma empty_to_frame64_cons (r : OptionRow64) (l : list OptionRow64) :
  empty (to_frame (r :: l)) = false.
Proof. reflexivity. Qed.

Lemma empty_to_frame64_nil : empty (to_frame []) = true.
Proof. reflexivity. Qed.

Lemma loc_to_frame64 (p : OptionRow64 -> bool) (l : list OptionRow64) :
  loc (to_frame l) (map p l) = to_frame (filter p l).
Proof. unfold loc, to_frame. cbn [columns rows]. rewrite FrameFacts.select_map. reflexivity. Qed.

Lemma getcol_to_frame64_strike (l : list OptionRow64) :
  getcol (to_frame l) "strike" = Ok (map F64 (map strike l)).
Proof. unfold getcol; simpl; rewrite !map_map; reflexivity. Qed.

Lemma getcol_to_frame64_gamma (l : list OptionRow64) :
  getcol (to_frame l) "gamma" = Ok (map F64 (map gamma l)).
Proof. unfold getcol; simpl; rewrite !map_map; reflexivity. Qed.

Lemma getcol_to_frame64_open_interest (l : list OptionRow64) :
  getcol (to_frame l) "open_interest" = Ok (map F64 (map open_interest l)).
Proof. unfold getcol; simpl; rewrite !map_map; reflexivity. Qed.

Lemma getcol_to_frame64_delta (l : list OptionRow64) :
  getcol (to_frame l) "delta" = Ok (map F64 (map delta l)).
Proof. unfold getcol; simpl; rewrite !map_map; reflexivity. Qed.

Lemma getcol_to_frame64_underlying_price (l : list OptionRow64) :
  getcol (to_frame l) "underlying_price" = Ok (map F64 (map underlying_price l)).
Proof. unfold getcol; simpl; rewrite !map_map; reflexivity. Qed.

(** Assigning the column [gex] leaves the column [strike] as it is. *)
Lemma upd_rows_gex_strike (rs : list (string -> cell64)) (vs : Series64) :
  map (fun r => r "strike") (upd_rows rs "gex" vs)
  = map (fun r => r "strike") rs.
Proof.
  revert vs. induction rs as [|r rs IH]; intros [|v vs]; try reflexivity.
  cbn [upd_rows map]. rewrite IH. reflexivity.
Qed.

Lemma getcol_setcol64_gex_strike (l : list OptionRow64) (vs : Series64) :
  getcol (setcol (to_frame l) "gex" vs) "strike" = Ok (map F64 (map strike l)).
Proof.
  unfold getcol, setcol. cbn [columns rows has_column].
  change (has_column (to_frame l) "gex") with false. cbn iota.
  change (existsb (String.eqb "strike") (columns (to_frame l) ++ ["gex"])) with true.
  cbn iota. rewrite upd_rows_gex_strike.
  unfold to_frame. cbn [rows]. rewrite !map_map. reflexivity.
Qed.

End Frame64Facts.

(* ================================================================== *)
(** * [_calculate_dgi] in float64 *)
(* ================================================================== *)

Module DGI64Facts.
Import Binary64 Frame64 Snapshot64 DGI64 Binary64Facts Frame64Facts.

(** Two contracts inside the default delta range, one above and one below
    the spot 16.0; the first has [gamma = open_interest = 1e200]. *)
Definition huge_gamma : list OptionRow64 :=
  [mkRow64 (of_Z 20) CALL (of_Z (10 ^ 200)) (of_Z (10 ^ 200)) (of_ratio 1 4)
           (of_Z 16);
   mkRow64 (of_Z 12) PUT (of_ratio 1 4) (of_Z 12) (of_ratio (-1) 2) (of_Z 16)].

(** The delta filter of [_calculate_dgi] on a snapshot. *)
Definition kept (self : DirectionalGammaImbalance) (r : OptionRow64) : bool :=
  (abs (delta r) >=? min_abs_delta self)%b64
  && (abs (delta r) <=? max_abs_delta self)%b64.

(** The exposure [_calculate_dgi] gives a row. *)
Definition row_gex (spot : float64) (r : OptionRow64) : float64 :=
  (- gamma r * open_interest r * sq spot * of_ratio 1 100)%b64.

(** What [_calculate_dgi] returns on a snapshot, in terms of its rows. *)
Definition dgi_of (self : DirectionalGammaImbalance)
    (snapshot : list OptionRow64) : float64 :=
  match snapshot with
  | [] => zero
  | first :: _ =>
      let spot := underlying_price first in
      match filter (kept self) snapshot with
      | [] => zero
      | filtered =>
          let above :=
            sum (map (row_gex spot)
                     (filter (fun r => strike r >? spot)%b64 filtered)) in
          let below :=
            sum (map (row_gex spot)
                     (filter (fun r => strike r <? spot)%b64 filtered)) in
          let denom := (abs above + abs below)%b64 in
          if (denom ==? zero)%b64 then zero
          else clip ((above - below) / denom)%b64 (of_Z (-1)) (of_Z 1)
      end
  end.

(** On every snapshot the code returns, and this is what it returns. *)
Lemma calculate_dgi_to_frame64 (self : DirectionalGammaImbalance)
    (snapshot : list OptionRow64) :
  _calculate_dgi self (to_frame snapshot) = Ok (dgi_of self snapshot).
Proof.
  unfold _calculate_dgi, dgi_of.
  destruct snapshot as [|first rest]; [reflexivity|].
  rewrite empty_to_frame64_cons.
  change (has_column (to_frame (first :: rest)) "underlying_price") with true.
  cbn [negb orb].
  set (snapshot := first :: rest).
  set (spot := underlying_price first).
  rewrite getcol_to_frame64_underlying_price, getcol_to_frame64_delta.
  cbn [bind].
  change (iloc (map F64 (map underlying_price snapshot)) 0)
    with (Ok (F64 spot)).
  cbn [bind]. rewrite numeric_of_floats. cbn [bind].
  rewrite !map_map, FrameFacts.zip_with_map.
  rewrite (loc_to_frame64 (kept self)).
  cbv zeta.
  destruct (filter (kept self) snapshot) as [|f0 filtered] eqn:Hf;
    [reflexivity|].
  rewrite empty_to_frame64_cons.
  set (fl := f0 :: filtered).
  rewrite getcol_to_frame64_gamma, getcol_to_frame64_open_interest.
  cbn [bind]. rewrite !numeric_of_floats.
  cbn [bind cell_sq numeric_cell].
  rewrite getcol_setcol64_gex_strike.
  cbn [bind]. rewrite numeric_of_floats. cbn [bind].
  rewrite !map_map, FrameFacts.zip_with_map, !map_map.
  rewrite (FrameFacts.select_map (fun x => (strike x >? spot)%b64)).
  rewrite (FrameFacts.select_map (fun x => (strike x <? spot)%b64)).
  unfold row_gex, fl.
  match goal with
  | |- (if ?c then _ else _) = _ => destruct c
  end; reflexivity.
Qed.

(** On every snapshot the code returns NaN or a number between [-1.0] and
    [1.0], and [0.0] when the delta filter keeps no row. *)
Lemma calculate_dgi_snapshot (self : DirectionalGammaImbalance)
    (snapshot : list OptionRow64) :
  exists v,
    _calculate_dgi self (to_frame snapshot) = Ok v
    /\ (isnan v = true
        \/ (le (of_Z (-1)) v = true /\ le v (of_Z 1) = true))
    /\ (filter (kept self) snapshot = [] -> v = zero).
Proof.
  exists (dgi_of self snapshot).
  split; [apply calculate_dgi_to_frame64|]. split.
  - unfold dgi_of. destruct snapshot as [|first rest];
      [right; split; reflexivity|].
    destruct (filter (kept self) (first :: rest)) as [|f0 fl];
      [right; split; reflexivity|].
    cbv zeta.
    match goal with
    | |- context [if ?c then _ else _] => destruct c
    end; [right; split; reflexivity|].
    match goal with
    | |- context [clip ?x _ _] =>
        destruct (clip_unit x) as [[Hnan ->]|Hin];
          [left; exact Hnan|right; exact Hin]
    end.
  - intro Hnil. unfold dgi_of. destruct snapshot as [|first rest];
      [reflexivity|]. rewrite Hnil. reflexivity.
Qed.

(** C4.  On the snapshot [huge_gamma] both rows pass the delta filter; the
    exposure of the first row overflows to minus infinity, the denominator
    [|sum_above| + |sum_below|] is plus infinity and so not zero, the
    quotient is infinity over infinity, and [_calculate_dgi] returns NaN,
    which lies in no interval. *)
Theorem calculate_dgi_overflow :
  map (kept default) huge_gamma = [true; true]
  /\ map (row_gex (of_Z 16)) huge_gamma
     = [neg_inf; neg (of_ratio 768 100)]
  /\ (abs neg_inf + abs (neg (of_ratio 768 100)))%b64 = pos_inf
  /\ (pos_inf ==? zero)%b64 = false
  /\ _calculate_dgi default (to_frame huge_gamma) = Ok nan
  /\ (of_Z (-1) <=? nan)%b64 = false
  /\ (nan <=? of_Z 1)%b64 = false.
Proof. repeat split; vm_compute; reflexivity. Qed.

Ltac bind_ok :=
  match goal with
  | H : bind ?m _ = Ok _ |- _ =>
      let E := fresh "E" in
      destruct m eqn:E; cbn [bind] in H; [|discriminate H]
  end.

(** The two ways in which [_calculate_dgi] returns: the literal [0.0], or
    a clipped quotient. *)
Lemma calculate_dgi_returns
    (self : DirectionalGammaImbalance) (df : DataFrame64) (v : float64) :
  _calculate_dgi self df = Ok v ->
  v = zero \/ exists x, v = clip x (of_Z (-1)) (of_Z 1).
Proof.
  unfold _calculate_dgi. intro H.
  destruct (empty df || negb (has_column df "underlying_price"));
    [injection H as <-; left; reflexivity|].
  repeat bind_ok.
  match type of H with
  | (if ?c then _ else _) = _ =>
      destruct c; [injection H as <-; left; reflexivity|]
  end.
  repeat bind_ok.
  match type of H with
  | (if ?c then _ else _) = _ =>
      destruct c; [injection H as <-; left; reflexivity|]
  end.
  injection H as <-. right. eexists. reflexivity.
Qed.

Lemma unit_range_cases (v : float64) :
  v = zero \/ (exists x, v = clip x (of_Z (-1)) (of_Z 1)) ->
  isnan v = true
  \/ (le (of_Z (-1)) v = true /\ le v (of_Z 1) = true).
Proof.
  intros [->|[x ->]].
  - right. split; reflexivity.
  - destruct (clip_unit x) as [[Hnan ->]|Hin]; [left; exact Hnan|right; exact Hin].
Qed.

(** X11.  Whatever the frame holds, a value returned by [_calculate_dgi]
    is NaN or a float64 between [-1.0] and [1.0]: the clip lets NaN
    through and nothing else. *)
Theorem calculate_dgi_nan_or_unit
    (self : DirectionalGammaImbalance) (df : DataFrame64) (v : float64) :
  _calculate_dgi self df = Ok v ->
  isnan v = true
  \/ (le (of_Z (-1)) v = true /\ le v (of_Z 1) = true).
Proof.
  intro H. apply unit_range_cases. exact (calculate_dgi_returns self df v H).
Qed.

(** One contract above the spot only: the value is [-1.0]. *)
Definition one_above : list OptionRow64 :=
  [mkRow64 (of_Z 160) PUT (of_ratio 2 100) (of_Z 500) (of_ratio (-3) 10)
           (of_Z 100)].

Lemma calculate_dgi_nan_or_unit_witness :
  isnan (of_Z (-1)) = true
  \/ (le (of_Z (-1)) (of_Z (-1)) = true /\ le (of_Z (-1)) (of_Z 1) = true).
Proof.
  apply (calculate_dgi_nan_or_unit default (to_frame one_above) (of_Z (-1))).
  vm_compute. reflexivity.
Defined.

End DGI64Facts.

(* ================================================================== *)
(** * [bs_gamma] in float64 *)
(* ================================================================== *)

Module BlackScholes64Facts.
Import Binary64 Binary64Facts BlackScholes64.

Lemma eps_finite :
  eps = SpecFloat.S754_finite false 4951760157141521 (-92).
Proof. vm_compute. reflexivity. Qed.

Lemma maximum_eps (x : float64) : le x eps = true -> maximum x eps = eps.
Proof. rewrite eps_finite. apply maximum_floor. Qed.

Lemma maximum_eps_eps : maximum eps eps = eps.
Proof. vm_compute. reflexivity. Qed.

Section Libm.

Variable libm_exp : float64 -> float64.
Variable libm_log : float64 -> float64.

Lemma bs_gamma_floor_t (s k t sigma r q : float64) :
  le t eps = true ->
  bs_gamma libm_exp libm_log s k t sigma r q
  = bs_gamma libm_exp libm_log s k eps sigma r q.
Proof.
  intro H. unfold bs_gamma. rewrite (maximum_eps t H), maximum_eps_eps.
  reflexivity.
Qed.

Lemma bs_gamma_floor_sigma (s k t sigma r q : float64) :
  le sigma eps = true ->
  bs_gamma libm_exp libm_log s k t sigma r q
  = bs_gamma libm_exp libm_log s k t eps r q.
Proof.
  intro H. unfold bs_gamma. rewrite (maximum_eps sigma H), maximum_eps_eps.
  reflexivity.
Qed.

(** With [t = 0], [sigma = 1e200], [r = -1e308] and [q = 1e308] the
    difference [r - q] is minus infinity and [0.5 * sigma ** 2] is plus
    infinity: their sum is NaN, and so is everything computed from it. *)
Lemma bs_gamma_overflow :
  isnan (bs_gamma libm_exp libm_log (of_Z 100) (of_Z 100) zero
           (of_Z (10 ^ 200)) (of_Z (- 10 ^ 308)) (of_Z (10 ^ 308))) = true.
Proof.
  unfold bs_gamma. cbv zeta.
  set (s := maximum (of_Z 100) eps).
  set (t := maximum zero eps).
  set (sigma := maximum (of_Z (10 ^ 200)) eps).
  assert (Hdrift :
    ((of_Z (- 10 ^ 308) - of_Z (10 ^ 308) + of_ratio 1 2 * sq sigma) * t)%b64
    = nan) by (vm_compute; reflexivity).
  rewrite Hdrift, add_nan_r, div_nan_l.
  unfold norm_pdf.
  replace (- of_ratio 1 2 * nan * nan)%b64 with nan by reflexivity.
  unfold np_exp. cbn [isnan nan]. reflexivity.
Qed.

End Libm.

End BlackScholes64Facts.

(* ================================================================== *)
(** * [bs_gamma]: the floor, in float64 and in exact arithmetic *)
(* ================================================================== *)

Module BlackScholesClaim.
Import Binary64 BlackScholes BlackScholesFacts BlackScholes64Facts.

(** Counterexample to C9 as it is written.  [t = 0] is below the floor, and with
    [sigma = 1e200], [r = -1e308], [q = 1e308] the result of [bs_gamma] is
    NaN, not a finite number, whatever the C library's [exp] and [log]
    answer. *)
Lemma bs_gamma_not_finite :
  le zero BlackScholes64.eps = true
  /\ forall libm_exp libm_log : float64 -> float64,
       isfinite
         (BlackScholes64.bs_gamma libm_exp libm_log (of_Z 100) (of_Z 100) zero
            (of_Z (10 ^ 200)) (of_Z (- 10 ^ 308)) (of_Z (10 ^ 308))) = false.
Proof.
  split; [reflexivity|]. intros libm_exp libm_log.
  pose proof (bs_gamma_overflow libm_exp libm_log) as H.
  destruct (BlackScholes64.bs_gamma _ _ _ _ _ _ _ _); try discriminate H.
  reflexivity.
Qed.

Local Open Scope R_scope.

(** C9.  As amended: [bs_gamma] floors [s], [k], [t] and [sigma] at [1e-12]
    and then evaluates [normPdf(d1) / (s * sigma * sqrt(t))]; it never
    raises.  In float64, whatever the C library's [exp] and [log] answer,
    an input [t] or [sigma] at or below the floor gives the very float the
    floor itself gives.  In exact real arithmetic no division by zero, no
    logarithm of a non-positive number and no square root of a negative one
    occurs, and the result is a finite, positive number. *)
Theorem bs_gamma_floor_spec :
  (forall (libm_exp libm_log : float64 -> float64)
          (s k t sigma r q : float64),
      (le t BlackScholes64.eps = true ->
       BlackScholes64.bs_gamma libm_exp libm_log s k t sigma r q
       = BlackScholes64.bs_gamma libm_exp libm_log s k BlackScholes64.eps
           sigma r q)
      /\ (le sigma BlackScholes64.eps = true ->
          BlackScholes64.bs_gamma libm_exp libm_log s k t sigma r q
          = BlackScholes64.bs_gamma libm_exp libm_log s k t
              BlackScholes64.eps r q))
  /\ (forall s k t sigma r q : R,
        bs_gamma s k t sigma r q
        = Some (bsGamma_formula (Rmax s 1e-12) (Rmax k 1e-12) (Rmax t 1e-12)
                                (Rmax sigma 1e-12) r q)
        /\ 0 < bsGamma_formula (Rmax s 1e-12) (Rmax k 1e-12) (Rmax t 1e-12)
                               (Rmax sigma 1e-12) r q).
Proof.
  split.
  - intros libm_exp libm_log s k t sigma r q. split.
    + apply bs_gamma_floor_t.
    + apply bs_gamma_floor_sigma.
  - intros s k t sigma r q.
    fold epsilon. fold (floor_at s) (floor_at k) (floor_at t) (floor_at sigma).
    split; [apply bs_gamma_defined|].
    unfold bsGamma_formula. cbv zeta.
    pose proof (floor_at_pos s) as Hs.
    pose proof (floor_at_pos t) as Ht.
    pose proof (floor_at_pos sigma) as Hv.
    pose proof (sqrt_lt_R0 _ Ht) as Hrt.
    apply Rdiv_lt_0_compat; [apply normPdf_pos|].
    repeat apply Rmult_lt_0_compat; assumption.
Qed.

Lemma bs_gamma_floor_spec_witness :
  BlackScholes64.bs_gamma (fun x => x) (fun x => x) (of_Z 100) (of_Z 100)
    zero (of_ratio 2 10) zero zero
  = BlackScholes64.bs_gamma (fun x => x) (fun x => x) (of_Z 100) (of_Z 100)
      BlackScholes64.eps (of_ratio 2 10) zero zero.
Proof.
  apply (proj1 (proj1 bs_gamma_floor_spec (fun x => x) (fun x => x)
                  (of_Z 100) (of_Z 100) zero (of_ratio 2 10) zero zero)).
  reflexivity.
Defined.

End BlackScholesClaim.

(* ================================================================== *)
(** * charts/DirectionalGammaImbalance.py: the loader *)
(* ================================================================== *)

Module DGILoaderFacts.
Import Py Binary64 Frame64 Snapshot64 DGI64 DGILoader DGI64Facts.

(** NaN, or a float64 between [-1.0] and [1.0]. *)
Definition nan_or_unit (v : float64) : Prop :=
  isnan v = true
  \/ (le (of_Z (-1)) v = true /\ le v (of_Z 1) = true).

Section Environment.

Variable glob : string -> string -> list string.
Variable read_csv : string -> string -> result DataFrame64.
Variable strptime : string -> string -> result datetime.

Local Abbreviation process_file := (process_file read_csv strptime).
Local Abbreviation for_each_file := (for_each_file read_csv strptime).
Local Abbreviation load_and_calculate :=
  (load_and_calculate glob read_csv strptime).

(** The two series have one length and every score is NaN or in range. *)
Definition well_formed (self : Loaded) : Prop :=
  List.length (timestamps self) = List.length (dgi_scores self)
  /\ Forall nan_or_unit (dgi_scores self).

Lemma process_file_nan_or_unit (self : Loaded) (csv_file : string)
    (timestamp : datetime) (dgi_norm : float64) :
  process_file self csv_file = Ok (Some (timestamp, dgi_norm)) ->
  nan_or_unit dgi_norm.
Proof.
  unfold DGILoader.process_file. cbv zeta.
  destruct (4 <=? List.length (split "_" (stem csv_file)))%nat; [|discriminate].
  intro H. repeat bind_ok. injection H as <- <-.
  apply unit_range_cases. eapply calculate_dgi_returns. eassumption.
Qed.

Lemma append_well_formed (self : Loaded) (timestamp : datetime) (v : float64) :
  well_formed self -> nan_or_unit v -> well_formed (append self timestamp v).
Proof.
  intros [Hlen Hall] Hv. split; cbn [append timestamps dgi_scores].
  - rewrite !length_app, Hlen. reflexivity.
  - apply Forall_app. split; [exact Hall|]. constructor; [exact Hv|constructor].
Qed.

Lemma for_each_file_well_formed (files : list string) :
  forall (self : Loaded) (stdout : list string),
    well_formed self -> well_formed (fst (for_each_file self stdout files)).
Proof.
  induction files as [|f rest IH]; intros self stdout Hwf; [exact Hwf|].
  cbn [DGILoader.for_each_file].
  destruct (process_file self f) as [[[timestamp v]|]|e] eqn:Hp.
  - apply IH, append_well_formed; [exact Hwf|].
    eapply process_file_nan_or_unit, Hp.
  - apply IH, Hwf.
  - apply IH, Hwf.
Qed.

(** X19.  After a call of [load_and_calculate] that returns on a freshly
    constructed object, the series are not empty, [timestamps] and
    [dgi_scores] have the same length, and every score is NaN or a float64
    between [-1.0] and [1.0], whatever the files hold. *)
Theorem load_scores_in_range
    (data_dir : string) (min_abs_delta max_abs_delta : float64)
    (symbol expiration_filter sample_date : option string) (self' : Loaded) :
  snd (load_and_calculate (__init__ data_dir min_abs_delta max_abs_delta)
         symbol expiration_filter sample_date) = Ok self' ->
  dgi_scores self' <> []
  /\ List.length (timestamps self') = List.length (dgi_scores self')
  /\ forall v, In v (dgi_scores self') ->
       isnan v = true
       \/ (le (of_Z (-1)) v = true /\ le v (of_Z 1) = true).
Proof.
  unfold DGILoader.load_and_calculate.
  destruct symbol as [symbol|]; [|discriminate].
  destruct expiration_filter as [expiration_filter|]; [|discriminate].
  cbv zeta.
  match goal with
  | |- context [NetGEX.is_nil ?l] => destruct (NetGEX.is_nil l)
  end; [discriminate|].
  match goal with
  | |- context [for_each_file ?s ?o ?l] =>
      pose proof (for_each_file_well_formed l s o) as Hwf;
      destruct (for_each_file s o l) as [s1 out]
  end.
  cbn [fst] in Hwf.
  destruct (timestamps s1) as [|t0 ts] eqn:Hts; cbn [NetGEX.is_nil snd];
    [discriminate|].
  intro H. injection H as <-.
  destruct Hwf as [Hlen Hall]; [split; [reflexivity|constructor]|].
  split; [|split].
  - intro Hnil. rewrite Hts, Hnil in Hlen. discriminate.
  - exact Hlen.
  - intros v Hv. rewrite Forall_forall in Hall. exact (Hall v Hv).
Qed.

End Environment.

Import LoaderExample.

(** The 09-05-00 file holds the snapshot whose exposure overflows; the
    other two hold one contract above the spot. *)
Definition read_overflow (dir name : string) : result DataFrame64 :=
  if String.eqb name file_0905
  then Ok (to_frame huge_gamma)
  else Ok (to_frame one_above).

Definition loaded_example : Loaded :=
  {| metric := default;
     timestamps := [at_time 9 0 0; at_time 9 5 0; at_time 9 30 0];
     dgi_scores := [of_Z (-1); nan; of_Z (-1)] |}.

Lemma load_scores_in_range_witness :
  List.length (timestamps loaded_example)
  = List.length (dgi_scores loaded_example)
  /\ forall v, In v (dgi_scores loaded_example) ->
       isnan v = true
       \/ (le (of_Z (-1)) v = true /\ le v (of_Z 1) = true).
Proof.
  destruct (load_scores_in_range listing read_overflow LoaderExample.strptime
              "data" (of_ratio 15 100) (of_ratio 55 100)
              (Some "$SPX") (Some "2025-12-24") None loaded_example)
    as (_ & Hlen & Hall).
  - vm_compute. reflexivity.
  - split; [exact Hlen|exact Hall].
Defined.

End DGILoaderFacts.
